(** * Survey portal: flatten, order, persist

    A shallow embedding of the data-handling pipeline of [test1.py]
    (sanitizer, flattener, column orderer, record store, survey controller)
    together with the properties stated about it. *)

From Stdlib Require Import List NArith ZArith Bool Ascii String Lia.
From Stdlib Require Import Permutation Sorting.Sorted.
Import ListNotations.

(** ** Python strings

    A Python [str] is a sequence of Unicode code points; comparison,
    [strip], [re.sub] and the [in] operator all work code point by code
    point, so a [str] is modelled as a list of code points. *)

Definition pystr := list N.

(** Literals of the source are ASCII; [py] reads one. *)
Definition py (s : string) : pystr :=
  map N_of_ascii (list_ascii_of_string s).
Arguments py s%_string.

(** [a == b] *)
Fixpoint pystr_eqb (a b : pystr) : bool :=
  match a, b with
  | [], [] => true
  | x :: a', y :: b' => (x =? y)%N && pystr_eqb a' b'
  | _, _ => false
  end.

(** [a < b]: lexicographic on code points. *)
Fixpoint pystr_ltb (a b : pystr) : bool :=
  match a, b with
  | _, [] => false
  | [], _ :: _ => true
  | x :: a', y :: b' =>
      if (x <? y)%N then true
      else if (y <? x)%N then false
      else pystr_ltb a' b'
  end.

(** [s.startswith(p)] *)
Fixpoint starts_with (p s : pystr) : bool :=
  match p, s with
  | [], _ => true
  | _ :: _, [] => false
  | x :: p', y :: s' => (x =? y)%N && starts_with p' s'
  end.

(** [sub in s]: substring containment. *)
Fixpoint str_in (sub s : pystr) : bool :=
  starts_with sub s
  || match s with
     | [] => false
     | _ :: tl => str_in sub tl
     end.

(** [str.isspace] for one code point, the set used by [str.strip()]. *)
Definition is_space (c : N) : bool :=
  (((9 <=? c) && (c <=? 13)) || ((28 <=? c) && (c <=? 32))
   || (c =? 133) || (c =? 160) || (c =? 5760)
   || ((8192 <=? c) && (c <=? 8202))
   || (c =? 8232) || (c =? 8233) || (c =? 8239) || (c =? 8287)
   || (c =? 12288))%N.

Fixpoint lstrip (s : pystr) : pystr :=
  match s with
  | [] => []
  | c :: tl => if is_space c then lstrip tl else s
  end.

Fixpoint rstrip (s : pystr) : pystr :=
  match s with
  | [] => []
  | c :: tl =>
      match rstrip tl with
      | [] => if is_space c then [] else [c]
      | r => c :: r
      end
  end.

(** [s.strip()] *)
Definition strip (s : pystr) : pystr := rstrip (lstrip s).

(** ** Sanitizer *)

(** The character class of the regular expression: less-than,
    greater-than, colon, double quote, slash, backslash, bar, question
    mark and star, by code point. *)
Definition invalid_char (c : N) : bool :=
  ((c =? 60) || (c =? 62) || (c =? 58) || (c =? 34) || (c =? 47)
   || (c =? 92) || (c =? 124) || (c =? 63) || (c =? 42))%N.

Definition underscore : N := 95%N.

(** [re.sub] of that class by an underscore. *)
Definition re_sub_invalid (filename : pystr) : pystr :=
  map (fun c => if invalid_char c then underscore else c) filename.

Definition sanitize_filename (filename : pystr) : pystr :=
  strip (re_sub_invalid filename).

(** ** Values and dictionaries

    A record is a nested Python [dict] with [str] keys: its leaves are
    [None], strings or other scalars.  A [dict] keeps its keys in insertion
    order, which the column order downstream depends on, so it is an
    association list. *)

Unset Elimination Schemes.
Inductive value : Type :=
| VNone
| VStr (s : pystr)
| VInt (n : Z)
| VDict (d : list (pystr * value)).
Set Elimination Schemes.

Definition dict := list (pystr * value).

(** Induction on nested values. *)
Fixpoint value_ind (P : value -> Prop)
  (HNone : P VNone) (HStr : forall s, P (VStr s))
  (HInt : forall n, P (VInt n))
  (HDict : forall d, Forall (fun kv => P (snd kv)) d -> P (VDict d))
  (v : value) {struct v} : P v :=
  match v with
  | VNone => HNone
  | VStr s => HStr s
  | VInt n => HInt n
  | VDict d =>
      HDict d
        ((fix all (l : list (pystr * value))
            : Forall (fun kv => P (snd kv)) l :=
            match l with
            | [] => Forall_nil _
            | kv :: tl =>
                Forall_cons kv
                  (value_ind P HNone HStr HInt HDict (snd kv)) (all tl)
            end) d)
  end.


Definition keys (d : dict) : list pystr := map fst d.
Definition values (d : dict) : list value := map snd d.

(** [d.get(k)] *)
Fixpoint lookup (k : pystr) (d : dict) : option value :=
  match d with
  | [] => None
  | (k', v) :: tl => if pystr_eqb k' k then Some v else lookup k tl
  end.

(** [d[k] = v]: an existing key keeps its position, a new one goes last. *)
Fixpoint dict_set (d : dict) (k : pystr) (v : value) : dict :=
  match d with
  | [] => [(k, v)]
  | (k', v') :: tl =>
      if pystr_eqb k' k then (k', v) :: tl else (k', v') :: dict_set tl k v
  end.

(** [dict(items)] *)
Definition dict_of_items (items : list (pystr * value)) : dict :=
  fold_left (fun d kv => dict_set d (fst kv) (snd kv)) items [].

(** ** Flattener *)

Definition NA : value := VStr (py "N/A").

(** [v is None or (isinstance(v, str) and v.strip() == '')] replaced by
    ['N/A']. *)
Definition normalize (v : value) : value :=
  match v with
  | VNone => NA
  | VStr s => if pystr_eqb (strip s) [] then NA else v
  | _ => v
  end.

(** [f"{parent_key}{sep}{k}" if parent_key else k] *)
Definition new_key (parent_key sep k : pystr) : pystr :=
  match parent_key with
  | [] => k
  | _ :: _ => parent_key ++ sep ++ k
  end.

(** The body of [flatten_nested_dict], by recursion on the value that
    holds the mapping; the inner loop is the [for k, v in ...items()]. *)
Fixpoint flatten_value (nested : value) (parent_key sep : pystr) : dict :=
  match nested with
  | VDict nested_dict =>
      dict_of_items
        ((fix items (l : list (pystr * value)) : list (pystr * value) :=
            match l with
            | [] => []
            | (k, v) :: tl =>
                (match v with
                 | VDict _ => flatten_value v (new_key parent_key sep k) sep
                 | _ => [(new_key parent_key sep k, normalize v)]
                 end) ++ items tl
            end) nested_dict)
  | _ => []
  end.

Definition flatten_nested_dict (nested_dict : dict) (parent_key sep : pystr)
  : dict :=
  flatten_value (VDict nested_dict) parent_key sep.

(** What one turn of the loop adds to [items]. *)
Definition flatten_item (parent_key sep : pystr) (kv : pystr * value)
  : list (pystr * value) :=
  match snd kv with
  | VDict d => flatten_nested_dict d (new_key parent_key sep (fst kv)) sep
  | v => [(new_key parent_key sep (fst kv), normalize v)]
  end.

(** The default separator. *)
Definition sep_default : pystr := py "_".

(** ** Column orderer *)

(** [sorted(l)] on strings: a stable insertion sort by [<]. *)
Fixpoint insert_sorted (x : pystr) (l : list pystr) : list pystr :=
  match l with
  | [] => [x]
  | y :: tl => if pystr_ltb y x then y :: insert_sorted x tl else x :: l
  end.

Definition sorted (l : list pystr) : list pystr :=
  fold_right insert_sorted [] l.

Definition sections : list pystr :=
  [ py "ashram_name";
    py "Property Ownership and Legal Documents";
    py "Trust/Society Details & Documents";
    py "Institutions Details & Documents" ].

(** [col in column_order] *)
Definition mem (col : pystr) (l : list pystr) : bool :=
  existsb (pystr_eqb col) l.

(** Lines 99-115: the list [column_order] built from [df.columns]. *)
Definition column_order (df_columns : list pystr) : list pystr :=
  let column_order := [py "timestamp"] in
  let column_order :=
    fold_left
      (fun column_order section =>
         let section_columns :=
           filter (fun col => str_in section col) df_columns in
         column_order ++ sorted section_columns)
      sections column_order in
  let remaining_columns :=
    filter (fun col => negb (mem col column_order)) df_columns in
  column_order ++ remaining_columns.

(** ** Exceptions and results *)

Inductive exn : Type :=
| OSError
| TypeError
| AttributeError
| KeyError (label : pystr)
| OtherException (code : N).

Inductive result (A : Type) : Type :=
| Ok (a : A)
| Raise (e : exn).
Arguments Ok {A} a.
Arguments Raise {A} e.

(** ** One-row data frames and sheets *)

Record dataframe : Type := {
  columns : list pystr;
  row : list value
}.

(** [pd.DataFrame([flat_entry])] *)
Definition DataFrame (flat_entry : dict) : dataframe :=
  {| columns := keys flat_entry; row := values flat_entry |}.

(** The cell under a column label. *)
Fixpoint cell (labels : list pystr) (cells : list value) (label : pystr)
  : option value :=
  match labels, cells with
  | l :: labels', c :: cells' =>
      if pystr_eqb l label then Some c else cell labels' cells' label
  | _, _ => None
  end.

(** [df[column_order]]: the listed columns in the listed order, a label
    listed twice selected twice; [KeyError] on a label [df] lacks. *)
Fixpoint select (df : dataframe) (labels : list pystr)
  : result dataframe :=
  match labels with
  | [] => Ok {| columns := []; row := [] |}
  | l :: tl =>
      match cell (columns df) (row df) l with
      | None => Raise (KeyError l)
      | Some c =>
          match select df tl with
          | Ok d => Ok {| columns := l :: columns d; row := c :: row d |}
          | Raise e => Raise e
          end
      end
  end.

(** What [to_excel(index=False)] writes: a header row and the data rows. *)
Record sheet : Type := {
  header : list pystr;
  data_rows : list (list value)
}.

(** [s[:n]] *)
Fixpoint take (n : N) (s : pystr) : pystr :=
  match s with
  | [] => []
  | c :: tl => if (n =? 0)%N then [] else c :: take (N.pred n) tl
  end.

(** A cell of a worksheet holds at most 32767 characters: the writer
    cuts the text of a longer string, of the header row or of a data row,
    to its first 32767 characters; every other value is written as it
    is. *)
Definition EXCEL_CELL_LIMIT : N := 32767.

Definition excel_text (s : pystr) : pystr := take EXCEL_CELL_LIMIT s.

Definition excel_cell (v : value) : value :=
  match v with
  | VStr s => VStr (excel_text s)
  | _ => v
  end.

Definition sheet_of (df : dataframe) : sheet :=
  {| header := map excel_text (columns df);
     data_rows := [map excel_cell (row df)] |}.

(** ** What flattening is to compute

    The scalar leaves of a nested mapping with the keys leading to each, in
    traversal order; the compound key of such a path; and the value a leaf
    is to be written as.  [flatten_spec] follows the description, to be
    compared with [flatten_nested_dict]. *)

Fixpoint leaves_value (v : value) : list (list pystr * value) :=
  match v with
  | VDict d =>
      (fix go (l : list (pystr * value)) : list (list pystr * value) :=
         match l with
         | [] => []
         | (k, v') :: tl =>
             map (fun pv => (k :: fst pv, snd pv)) (leaves_value v')
             ++ go tl
         end) d
  | _ => [([], v)]
  end.

Definition leaves (d : dict) : list (list pystr * value) :=
  leaves_value (VDict d).

(** The keys of a path joined by the separator after the prefix. *)
Definition compound_key (prefix sep : pystr) (keys_on_path : list pystr)
  : pystr :=
  fold_left (fun acc k => new_key acc sep k) keys_on_path prefix.

(** [None] or a string of whitespace only. *)
Definition blank (v : value) : bool :=
  match v with
  | VNone => true
  | VStr s => forallb is_space s
  | _ => false
  end.

Definition flatten_spec (d : dict) (prefix sep : pystr) : dict :=
  map (fun pv => (compound_key prefix sep (fst pv),
                  if blank (snd pv) then NA else snd pv))
    (leaves d).

(** The example of the description. *)
Definition example_nested : dict :=
  [ (py "land_title",
     VDict [ (py "number_of_documents", VStr (py ""));
             (py "additional_comments", VNone) ]) ].

Definition example_flat : dict :=
  [ (py "land_title_number_of_documents", VStr (py "N/A"));
    (py "land_title_additional_comments", VStr (py "N/A")) ].

(** ** What ordering is to compute *)

(** [a <= b] on strings. *)
Definition str_le (a b : pystr) : Prop := pystr_ltb b a = false.

(** A key that is not [timestamp] and holds no section name. *)
Definition unplaced (col : pystr) : bool :=
  negb (pystr_eqb col (py "timestamp"))
  && forallb (fun section => negb (str_in section col)) sections.

(** ** Clock and formatting *)

Record datetime : Type := {
  year : N; month : N; day : N;
  hour : N; minute : N; second : N
}.

Definition digit (n : N) : N := (48 + n mod 10)%N.

(** A two-digit field ([%m], [%d], [%H], [%M], [%S]) and the year [%Y]. *)
Definition pad2 (n : N) : pystr := [digit (n / 10); digit n].
Definition pad4 (n : N) : pystr :=
  [digit (n / 1000); digit (n / 100); digit (n / 10); digit n].

(** [strftime("%Y-%m-%d %H:%M:%S")] *)
Definition strftime_record (t : datetime) : pystr :=
  pad4 (year t) ++ py "-" ++ pad2 (month t) ++ py "-" ++ pad2 (day t)
  ++ py " " ++ pad2 (hour t) ++ py ":" ++ pad2 (minute t) ++ py ":"
  ++ pad2 (second t).

(** [strftime("%Y%m%d_%H%M%S")] *)
Definition strftime_file (t : datetime) : pystr :=
  pad4 (year t) ++ pad2 (month t) ++ pad2 (day t) ++ py "_"
  ++ pad2 (hour t) ++ pad2 (minute t) ++ pad2 (second t).

(** The values [datetime.now()] can return, years of four digits. *)
Definition datetime_valid (t : datetime) : Prop :=
  (1000 <= year t <= 9999 /\ 1 <= month t <= 12 /\ 1 <= day t <= 31
   /\ hour t <= 23 /\ minute t <= 59 /\ second t <= 59)%N.

(** ** The world outside

    What the operating system, the clock and the spreadsheet codec answer
    during one call of [save_survey_data]: whether [os.makedirs] raises,
    the two readings of [datetime.now()] (lines 78 and 87), whether
    [to_excel] raises and whether opening and reading the file back
    raises. *)
Record world : Type := {
  makedirs_raises : option exn;
  now_stamp : datetime;
  now_name : datetime;
  to_excel_raises : option exn;
  open_raises : option exn
}.

(** A path [os.path.join(directory, filename)]. *)
Definition path : Type := (pystr * pystr)%type.

Definition path_eqb (p q : path) : bool :=
  pystr_eqb (fst p) (fst q) && pystr_eqb (snd p) (snd q).

(** What the user is shown by [st.markdown] and [st.error]. *)
Inductive message : Type :=
| Saved (filename : pystr) (content : sheet)
| ErrorSaving (e : exn).

(** Session state of the page: the flag and the three section slots. *)
Record session_state : Type := {
  survey_started : bool;
  survey_data : option dict
}.

(** The mutable state a run works on: the session, the dictionary object
    bound to the parameter [survey_data] of [save_survey_data], the files
    written (newest first) and the messages shown (oldest first).  [disk]
    lists the writes that were completed; what a write that raised may
    have left at its path is not recorded. *)
Record state : Type := {
  session : session_state;
  record : dict;
  disk : list (path * sheet);
  screen : list message
}.

Definition M (A : Type) : Type := state -> result A * state.

Definition ret {A : Type} (a : A) : M A := fun s => (Ok a, s).

Definition raise {A : Type} (e : exn) : M A := fun s => (Raise e, s).

Definition bind {A B : Type} (m : M A) (f : A -> M B) : M B :=
  fun s =>
    match m s with
    | (Ok a, s') => f a s'
    | (Raise e, s') => (Raise e, s')
    end.

(** [try: body except Exception as e: handler e] *)
Definition try_except {A : Type} (body : M A) (handler : exn -> M A)
  : M A :=
  fun s =>
    match body s with
    | (Ok a, s') => (Ok a, s')
    | (Raise e, s') => handler e s'
    end.

Declare Scope monad_scope.
Delimit Scope monad_scope with monad.
Notation "x <- m ;; k" := (bind m (fun x => k))
  (at level 61, m at next level, right associativity) : monad_scope.
Notation "m ;; k" := (bind m (fun _ => k))
  (at level 61, right associativity) : monad_scope.
Local Open Scope monad_scope.

Definition lift {A : Type} (r : result A) : M A := fun s => (r, s).

Definition get_record : M dict := fun s => (Ok (record s), s).

Definition set_record (d : dict) : M unit :=
  fun s => (Ok tt, {| session := session s; record := d;
                      disk := disk s; screen := screen s |}).

Definition get_session : M session_state := fun s => (Ok (session s), s).

Definition set_session (ss : session_state) : M unit :=
  fun s => (Ok tt, {| session := ss; record := record s;
                      disk := disk s; screen := screen s |}).

Definition show (m : message) : M unit :=
  fun s => (Ok tt, {| session := session s; record := record s;
                      disk := disk s; screen := screen s ++ [m] |}).

(** [os.makedirs(SURVEY_RESULTS_DIR, exist_ok=True)] *)
Definition makedirs (w : world) : M unit :=
  match makedirs_raises w with
  | Some e => raise e
  | None => ret tt
  end.

(** [df.to_excel(file_path, index=False)]: the sheet of [df] at
    [file_path] when the write is completed. *)
Definition to_excel (w : world) (df : dataframe) (file_path : path)
  : M unit :=
  match to_excel_raises w with
  | Some e => raise e
  | None =>
      fun s => (Ok tt, {| session := session s; record := record s;
                          disk := (file_path, sheet_of df) :: disk s;
                          screen := screen s |})
  end.

Fixpoint find_file (file_path : path) (files : list (path * sheet))
  : option sheet :=
  match files with
  | [] => None
  | (p, c) :: tl => if path_eqb p file_path then Some c else find_file file_path tl
  end.

(** [open(file_path, 'rb')] and [f.read()] *)
Definition read_file (w : world) (file_path : path) : M sheet :=
  match open_raises w with
  | Some e => raise e
  | None =>
      fun s =>
        match find_file file_path (disk s) with
        | Some c => (Ok c, s)
        | None => (Raise OSError, s)
        end
  end.

(** ** Record store *)

Definition SURVEY_RESULTS_DIR : pystr := py "survey_results".

(** [sanitize_filename] as it is called: [re.sub] raises [TypeError] on
    anything but a string. *)
Definition call_sanitize_filename (filename : value) : result pystr :=
  match filename with
  | VStr s => Ok (sanitize_filename s)
  | _ => Raise TypeError
  end.

(** [survey_data.get(k, default)] *)
Definition dict_get (d : dict) (k : pystr) (default : value) : value :=
  match lookup k d with
  | Some v => v
  | None => default
  end.

(** The body of the [try] block, lines 92-132. *)
Definition save_guarded (w : world) (filename : pystr) (file_path : path)
  : M bool :=
  survey_data <- get_record ;;
  let flat_entry := flatten_nested_dict survey_data [] sep_default in
  let df := DataFrame flat_entry in
  df <- lift (select df (column_order (columns df))) ;;
  to_excel w df file_path ;;
  bytes_data <- read_file w file_path ;;
  show (Saved filename bytes_data) ;;
  ret true.

Definition save_survey_data (w : world) : M bool :=
  makedirs w ;;
  survey_data <- get_record ;;
  set_record
    (dict_set survey_data (py "timestamp")
       (VStr (strftime_record (now_stamp w)))) ;;
  survey_data <- get_record ;;
  let ashram_name :=
    dict_get survey_data (py "ashram_name") (VStr (py "Unknown_Ashram")) in
  safe_ashram_name <- lift (call_sanitize_filename ashram_name) ;;
  let timestamp := strftime_file (now_name w) in
  let filename := safe_ashram_name ++ py "_" ++ timestamp ++ py ".xlsx" in
  let file_path := (SURVEY_RESULTS_DIR, filename) in
  try_except (save_guarded w filename file_path)
    (fun e => show (ErrorSaving e) ;; ret false).

(** ** Forms of the two time stamps *)

Definition is_digit (c : N) : bool := ((48 <=? c) && (c <=? 57))%N.

(** [has_form pattern s]: [s] is [pattern] with a digit wherever the
    pattern has the letter d. *)
Fixpoint has_form (pattern s : pystr) : bool :=
  match pattern, s with
  | [], [] => true
  | p :: pattern', c :: s' =>
      (if (p =? 100)%N then is_digit c else (c =? p)%N)
      && has_form pattern' s'
  | _, _ => false
  end.

(** The number a string of digits reads as. *)
Definition decimal_value (digits : pystr) : N :=
  fold_left (fun acc c => (10 * acc + (c - 48))%N) digits 0%N.

(** [reads_as digits width n]: [width] digits that read as [n]. *)
Definition reads_as (digits : pystr) (width : nat) (n : N) : Prop :=
  List.length digits = width
  /\ forallb is_digit digits = true
  /\ decimal_value digits = n.

(** [s] is the reading [t] of the clock written as year, month and day
    with dashes, a space, and hour, minute and second with colons. *)
Definition record_stamp_of (t : datetime) (s : pystr) : Prop :=
  exists Y m d H M S,
    reads_as Y 4 (year t) /\ reads_as m 2 (month t) /\ reads_as d 2 (day t)
    /\ reads_as H 2 (hour t) /\ reads_as M 2 (minute t)
    /\ reads_as S 2 (second t)
    /\ s = Y ++ py "-" ++ m ++ py "-" ++ d ++ py " "
           ++ H ++ py ":" ++ M ++ py ":" ++ S.

(** [s] is the reading [t] written as eight digits of date, an underscore
    and six digits of time. *)
Definition file_stamp_of (t : datetime) (s : pystr) : Prop :=
  exists Y m d H M S,
    reads_as Y 4 (year t) /\ reads_as m 2 (month t) /\ reads_as d 2 (day t)
    /\ reads_as H 2 (hour t) /\ reads_as M 2 (minute t)
    /\ reads_as S 2 (second t)
    /\ s = Y ++ m ++ d ++ py "_" ++ H ++ M ++ S.

(** ** Survey controller *)

Inductive category : Type := Property | TrustSociety | Institutions.

Definition category_name (c : category) : pystr :=
  match c with
  | Property => py "Property Ownership and Legal Documents"
  | TrustSociety => py "Trust/Society Details & Documents"
  | Institutions => py "Institutions Details & Documents"
  end.

Inductive institution_type : Type :=
| Schools | College | SocialInstitutions | Others.

Definition institution_type_name (t : institution_type) : pystr :=
  match t with
  | Schools => py "Schools"
  | College => py "College"
  | SocialInstitutions => py "Social Institutions"
  | Others => py "Others"
  end.

(** What the widgets return during one run of the page: buttons by
    label, the other widgets by key; [file_uploader] gives the name of the
    uploaded file, if there is one. *)
Record ui : Type := {
  button : pystr -> bool;
  radio : category;
  selectbox : institution_type;
  text_input : pystr -> pystr;
  text_area : pystr -> pystr;
  file_uploader : pystr -> option pystr
}.

(** [input_section(label, key, add_comment, add_upload)]: the label is
    only drawn and [add_upload] is not read, the file picker is always
    there. *)
Definition input_section (u : ui) (key : pystr) (add_comment : bool)
  : dict :=
  let response := [] in
  let response :=
    dict_set response (py "number_of_documents")
      (VStr (text_input u key)) in
  let response :=
    match file_uploader u (key ++ py "_upload") with
    | Some name => dict_set response (py "uploaded_file_name") (VStr name)
    | None => response
    end in
  let response :=
    if add_comment
    then dict_set response (py "additional_comments")
           (VStr (text_area u (key ++ py "_comment")))
    else response in
  response.

(** [responses[key] = input_section(label, key, ...)] *)
Definition add_section (u : ui) (add_comment : bool) (responses : dict)
  (key : pystr) : dict :=
  dict_set responses key (VDict (input_section u key add_comment)).

Definition property_survey (u : ui) : dict :=
  let responses := [] in
  let responses :=
    dict_set responses (py "ashram_name")
      (VStr (text_input u (py "ashram_name"))) in
  fold_left (add_section u true)
    [ py "land_title"; py "property_tax"; py "land_survey";
      py "mutation_cert"; py "land_na"; py "registration_details";
      py "building_permit"; py "occupancy_cert"; py "approved_plans";
      py "renovation_approvals" ]
    responses.

Definition trust_society_survey (u : ui) : dict :=
  fold_left (add_section u false)
    [ py "trust_deed"; py "minority_certificate"; py "deed_society_cert";
      py "society_renewal"; py "noc_government"; py "pan_card";
      py "amc_mou"; py "income_tax"; py "bank_kyc_resolution";
      py "darpan_cert"; py "trust_meeting_reports" ]
    [].

Definition institution_survey (u : ui) : dict :=
  let responses := [] in
  let responses :=
    dict_set responses (py "institution_type")
      (VStr (institution_type_name (selectbox u))) in
  let responses :=
    dict_set responses (py "institution_name")
      (VStr (text_input u (py "institution_name"))) in
  fold_left (add_section u false)
    [ py "gov_approvals"; py "sanction_province";
      py "electricity_sanction"; py "property_deeds"; py "land_sketch";
      py "land_tax"; py "building_tax"; py "land_na_inst";
      py "mutation_inst" ]
    responses.

(** [categories[choice]()] *)
Definition categories (choice : category) (u : ui) : dict :=
  match choice with
  | Property => property_survey u
  | TrustSociety => trust_society_survey u
  | Institutions => institution_survey u
  end.

(** The three section slots as the page initialises them. *)
Definition initial_survey_data : dict :=
  [ (category_name Property, VNone);
    (category_name TrustSociety, VNone);
    (category_name Institutions, VNone) ].

(** [d[k]] *)
Definition getitem (d : dict) (k : pystr) : result value :=
  match lookup k d with
  | Some v => Ok v
  | None => Raise (KeyError k)
  end.

(** [x.get(k, default)] on whatever [x] is: only a [dict] has [get]. *)
Definition call_get (x : value) (k : pystr) (default : value)
  : result value :=
  match x with
  | VDict d => Ok (dict_get d k default)
  | _ => Raise AttributeError
  end.

Definition start_page (u : ui) : M unit :=
  if button u (py "Start Survey")
  then
    ss <- get_session ;;
    set_session {| survey_started := true; survey_data := survey_data ss |}
  else ret tt.

(** Lines 278-288: the submit action. *)
Definition submit (w : world) : M unit :=
  ss <- get_session ;;
  let slots :=
    match survey_data ss with
    | Some d => d
    | None => []
    end in
  property <- lift (getitem slots (category_name Property)) ;;
  ashram_name <- lift (call_get property (py "ashram_name") NA) ;;
  trust <- lift (getitem slots (category_name TrustSociety)) ;;
  institutions <- lift (getitem slots (category_name Institutions)) ;;
  let final_survey_data :=
    [ (py "ashram_name", ashram_name);
      (category_name Property, property);
      (category_name TrustSociety, trust);
      (category_name Institutions, institutions) ] in
  set_record final_survey_data ;;
  save_survey_data w ;;
  ret tt.

(** One run of the page script. *)
Definition main (w : world) (u : ui) : M unit :=
  ss <- get_session ;;
  if negb (survey_started ss) then start_page u
  else
    let slots :=
      match survey_data ss with
      | Some d => d
      | None => initial_survey_data
      end in
    let choice := radio u in
    let survey_data := categories choice u in
    set_session
      {| survey_started := true;
         survey_data :=
           Some (dict_set slots (category_name choice) (VDict survey_data))
      |} ;;
    if button u (py "Submit Entire Survey") then submit w else ret tt.

(** A fresh session, nothing on disk, nothing shown. *)
Definition initial_state : state :=
  {| session := {| survey_started := false; survey_data := None |};
     record := []; disk := []; screen := [] |}.

(** The states a session goes through: any number of runs of the page,
    each with its own widget values and its own world; a run that ends in
    an exception leaves the state it had reached. *)
Inductive reachable : state -> Prop :=
| reach_init : reachable initial_state
| reach_run (s s' : state) (w : world) (u : ui) (r : result unit) :
    reachable s -> main w u s = (r, s') -> reachable s'.

(** What [st.radio] can return in a run from [s]: it is called without
    [index], so the first time it is drawn, in the first run of a started
    session (the slots are not there yet), it returns its first option,
    the Property section; in a later run it returns what the user has
    chosen. *)
Definition radio_drawn (s : state) (u : ui) : Prop :=
  survey_started (session s) = true ->
  survey_data (session s) = None ->
  radio u = Property.

(** The states a session goes through on the page: the runs of
    [reachable] in which the radio returns what it can return. *)
Inductive page_reachable : state -> Prop :=
| page_init : page_reachable initial_state
| page_run (s s' : state) (w : world) (u : ui) (r : result unit) :
    page_reachable s -> radio_drawn s u -> main w u s = (r, s') ->
    page_reachable s'.


(** ** Outcomes of the record store

    The state [save_survey_data] leaves when it got as far as stamping the
    record, and the file and the messages of each way it can end. *)

Definition stamped (w : world) (s : state) : state :=
  {| session := session s;
     record :=
       dict_set (record s) (py "timestamp")
         (VStr (strftime_record (now_stamp w)));
     disk := disk s;
     screen := screen s |}.

Definition with_screen (s : state) (m : message) : state :=
  {| session := session s; record := record s; disk := disk s;
     screen := screen s ++ [m] |}.

Definition with_file (s : state) (file_path : path) (content : sheet)
  : state :=
  {| session := session s; record := record s;
     disk := (file_path, content) :: disk s; screen := screen s |}.

(** The name of the file, from the subject and the second clock reading. *)
Definition artifact_name (w : world) (safe_ashram_name : pystr) : pystr :=
  safe_ashram_name ++ py "_" ++ strftime_file (now_name w) ++ py ".xlsx".

(** ** Sample worlds, records and widget values *)

Definition clock_stamp : datetime :=
  {| year := 2024; month := 3; day := 7;
     hour := 9; minute := 5; second := 1 |}.

Definition clock_name : datetime :=
  {| year := 2024; month := 3; day := 7;
     hour := 9; minute := 5; second := 2 |}.

(** Nothing fails. *)
Definition world_ok : world :=
  {| makedirs_raises := None; now_stamp := clock_stamp;
     now_name := clock_name; to_excel_raises := None; open_raises := None |}.

(** The results directory cannot be created. *)
Definition world_no_directory : world :=
  {| makedirs_raises := Some OSError; now_stamp := clock_stamp;
     now_name := clock_name; to_excel_raises := None; open_raises := None |}.

(** The spreadsheet cannot be written. *)
Definition world_write_fails : world :=
  {| makedirs_raises := None; now_stamp := clock_stamp;
     now_name := clock_name; to_excel_raises := Some OSError;
     open_raises := None |}.

(** A started session with the slots not yet initialised. *)
Definition started_state : state :=
  {| session := {| survey_started := true; survey_data := None |};
     record := []; disk := []; screen := [] |}.

(** [save_survey_data] about to be called on [survey_data]. *)
Definition called_with (survey_data : dict) : state :=
  {| session := {| survey_started := true; survey_data := None |};
     record := survey_data; disk := []; screen := [] |}.

Definition st_mary_record : dict := [ (py "ashram_name", VStr (py "St. Mary")) ].

(** Every button pressed, the given section chosen, the given ashram name
    typed and no other answer given. *)
Definition ui_submit (choice : category) (ashram_name : pystr) : ui :=
  {| button := fun _ => true;
     radio := choice;
     selectbox := Schools;
     text_input :=
       fun key => if pystr_eqb key (py "ashram_name") then ashram_name else [];
     text_area := fun _ => [];
     file_uploader := fun _ => None |}.

(** No button pressed, the given section chosen, the given ashram name
    typed and no other answer given. *)
Definition ui_visit (choice : category) (ashram_name : pystr) : ui :=
  {| button := fun _ => false;
     radio := choice;
     selectbox := Schools;
     text_input :=
       fun key => if pystr_eqb key (py "ashram_name") then ashram_name else [];
     text_area := fun _ => [];
     file_uploader := fun _ => None |}.

(** A record with the ashram name at the top and in the Property section,
    as the page submits it. *)
Definition twice_named_record : dict :=
  [ (py "ashram_name", VStr (py "St. Mary"));
    (category_name Property,
     VDict [ (py "ashram_name", VStr (py "St. Mary")) ]) ].

(** A flat mapping with a key of no section. *)
Definition sample_flat_entry : dict :=
  [ (py "zone", VStr (py "south"));
    (py "ashram_name", VStr (py "St. Mary"));
    (py "timestamp", VStr (py "2024-03-07 09:05:01")) ].

(** ** Reading the session *)

(** The slots a run starts from. *)
Definition slots_of (s : state) : dict :=
  match survey_data (session s) with
  | Some d => d
  | None => initial_survey_data
  end.

(** The slot of the Property section. *)
Definition property_slot (s : state) : option value :=
  match survey_data (session s) with
  | Some d => lookup (category_name Property) d
  | None => None
  end.

(** The state after line 275 of a run on a started session: the answers of
    the chosen section stored in its slot. *)
Definition answers_stored (u : ui) (s : state) : state :=
  {| session :=
       {| survey_started := true;
          survey_data :=
            Some (dict_set (slots_of s) (category_name (radio u))
                    (VDict (categories (radio u) u))) |};
     record := record s; disk := disk s; screen := screen s |}.

(** The dictionary the submit action builds. *)
Definition final_survey_data (ashram_name property trust institutions : value)
  : dict :=
  [ (py "ashram_name", ashram_name);
    (category_name Property, property);
    (category_name TrustSociety, trust);
    (category_name Institutions, institutions) ].

(** The session after the start and one run on the Property section with
    the name St. Mary typed: the two other slots are still empty. *)
Definition visited_state : state :=
  answers_stored (ui_visit Property (py "St. Mary")) started_state.

Definition with_record (s : state) (d : dict) : state :=
  {| session := session s; record := d; disk := disk s; screen := screen s |}.

(** The key of the ashram name inside the Property section, flattened. *)
Definition Property_ashram_name : pystr :=
  py "Property Ownership and Legal Documents_ashram_name".

Definition property_keys : list pystr :=
  [ py "land_title"; py "property_tax"; py "land_survey";
    py "mutation_cert"; py "land_na"; py "registration_details";
    py "building_permit"; py "occupancy_cert"; py "approved_plans";
    py "renovation_approvals" ].

(** What holds of the slots of every session: the three section names are
    their keys, and the Property slot is empty or holds what
    [property_survey] returned in some run. *)
Definition slots_inv (d : dict) : Prop :=
  keys d = map category_name [Property; TrustSociety; Institutions]
  /\ (lookup (category_name Property) d = Some VNone
      \/ exists u, lookup (category_name Property) d
                   = Some (VDict (property_survey u))).

Definition session_inv (s : state) : Prop :=
  match survey_data (session s) with
  | Some d => slots_inv d
  | None => True
  end.

(** What holds of the slots on the page: once they are there, the Property
    slot holds what [property_survey] returned in some run. *)
Definition page_inv (s : state) : Prop :=
  match survey_data (session s) with
  | Some d => exists u, lookup (category_name Property) d
                        = Some (VDict (property_survey u))
  | None => True
  end.

(** The value the flattened record has for an answer typed as [text]. *)
Definition flattened_text (text : pystr) : value :=
  if blank (VStr text) then NA else VStr text.

(** ** Start of the script: dependencies

    What the interpreter and pip answer when the script starts: whether
    the two imports of [check_dependencies] succeed, fail with an
    [ImportError] or raise something else, and whether
    [subprocess.check_call] raises for a dependency. *)

Inductive import_outcome : Type :=
| Imported
| ImportFails
| ImportRaises (e : exn).

Record setup_world : Type := {
  imports : import_outcome;
  pip_raises : pystr -> option exn
}.

(** What [st.error] and [st.warning] show at the start. *)
Inductive startup_message : Type :=
| ErrorInstalling (dep : pystr) (e : exn)
| WarningMissing
| ErrorCouldNotInstall.

(** What the start of the script does: the dependencies pip was called
    for and the messages shown, both oldest first. *)
Record startup_log : Type := {
  pip_calls : list pystr;
  shown : list startup_message
}.

Definition dependencies : list pystr := [py "openpyxl"; py "pandas"].

(** The loop of [install_dependencies]: the first failure is shown and
    ends the function. *)
Fixpoint install_loop (sw : setup_world) (deps : list pystr)
  : bool * startup_log :=
  match deps with
  | [] => (true, {| pip_calls := []; shown := [] |})
  | dep :: tl =>
      match pip_raises sw dep with
      | Some e =>
          (false,
           {| pip_calls := [dep]; shown := [ErrorInstalling dep e] |})
      | None =>
          let (installed, log) := install_loop sw tl in
          (installed,
           {| pip_calls := dep :: pip_calls log; shown := shown log |})
      end
  end.

Definition install_dependencies (sw : setup_world) : bool * startup_log :=
  install_loop sw dependencies.

(** [check_dependencies]: only an [ImportError] is caught. *)
Definition check_dependencies (sw : setup_world)
  : result bool * startup_log :=
  match imports sw with
  | Imported => (Ok true, {| pip_calls := []; shown := [] |})
  | ImportFails =>
      let (installed, log) := install_dependencies sw in
      (Ok installed,
       {| pip_calls := pip_calls log;
          shown := WarningMissing :: shown log |})
  | ImportRaises e => (Raise e, {| pip_calls := []; shown := [] |})
  end.

(** How the start of the script ends. *)
Inductive startup : Type :=
| Proceeds
| Stopped
| Crashed (e : exn).

(** Lines 29-31: the script goes on only when the check returns true. *)
Definition script_start (sw : setup_world) : startup * startup_log :=
  match check_dependencies sw with
  | (Ok true, log) => (Proceeds, log)
  | (Ok false, log) =>
      (Stopped,
       {| pip_calls := pip_calls log;
          shown := shown log ++ [ErrorCouldNotInstall] |})
  | (Raise e, log) => (Crashed e, log)
  end.

(** ** What the further properties speak of *)

(** A value that is neither [None], nor a string of whitespace only, nor
    a mapping. *)
Definition filled (v : value) : bool :=
  match v with
  | VNone => false
  | VStr s => negb (forallb is_space s)
  | VInt _ => true
  | VDict _ => false
  end.

(** The section names a key holds, and the keys that hold at most one. *)
Definition sections_in (col : pystr) : list pystr :=
  filter (fun section => str_in section col) sections.

Definition one_section (col : pystr) : bool :=
  Nat.leb (List.length (sections_in col)) 1.

(** A slot is empty or holds what the function of its section returned
    for some widget values. *)
Definition slot_ok (c : category) (v : value) : Prop :=
  v = VNone \/ exists u, v = VDict (categories c u).

(** The slots of a state once initialised: the three section names in
    order, each slot as [slot_ok] says. *)
Definition slots_ok (d : dict) : Prop :=
  keys d = map category_name [Property; TrustSociety; Institutions]
  /\ forall c, exists v, lookup (category_name c) d = Some v /\ slot_ok c v.

(** * Properties *)

(** ** Strings *)

Lemma pystr_eqb_eq (a b : pystr) : pystr_eqb a b = true <-> a = b.
Proof.
  revert b; induction a as [|x a IH]; intros [|y b]; simpl;
    try (split; [discriminate|discriminate]); try tauto.
  rewrite andb_true_iff, N.eqb_eq, IH. split.
  - now intros [-> ->].
  - intros H; injection H; auto.
Qed.

Lemma pystr_eqb_refl (a : pystr) : pystr_eqb a a = true.
Proof. now apply pystr_eqb_eq. Qed.

Lemma pystr_eqb_neq (a b : pystr) : pystr_eqb a b = false <-> a <> b.
Proof.
  rewrite <- pystr_eqb_eq. destruct (pystr_eqb a b); split; congruence.
Qed.

Lemma pystr_eqb_sym (a b : pystr) : pystr_eqb a b = pystr_eqb b a.
Proof.
  destruct (pystr_eqb a b) eqn:E; symmetry.
  - apply pystr_eqb_eq. apply pystr_eqb_eq in E. congruence.
  - apply pystr_eqb_neq. apply pystr_eqb_neq in E. congruence.
Qed.

Lemma lstrip_incl (s : pystr) (c : N) : In c (lstrip s) -> In c s.
Proof.
  induction s as [|a tl IH]; simpl; auto.
  destruct (is_space a); simpl; auto.
Qed.

Lemma rstrip_incl (s : pystr) (c : N) : In c (rstrip s) -> In c s.
Proof.
  revert c; induction s as [|a tl IH]; simpl; intros c H; auto.
  destruct (rstrip tl) as [|b r] eqn:E.
  - destruct (is_space a); simpl in H; tauto.
  - destruct H as [H|H]; auto.
Qed.

Lemma strip_incl (s : pystr) (c : N) : In c (strip s) -> In c s.
Proof. intro H; apply lstrip_incl, rstrip_incl, H. Qed.

Lemma rstrip_nonempty (c : N) (tl : pystr) :
  is_space c = false -> exists r, rstrip (c :: tl) = c :: r.
Proof.
  intro Hc; simpl. destruct (rstrip tl) as [|b r].
  - rewrite Hc; now exists [].
  - now exists (b :: r).
Qed.

Lemma lstrip_head (s : pystr) :
  match lstrip s with [] => True | c :: _ => is_space c = false end.
Proof.
  induction s as [|a tl IH]; simpl; auto.
  destruct (is_space a) eqn:E; auto.
Qed.

Lemma lstrip_fixed (s : pystr) :
  match s with [] => True | c :: _ => is_space c = false end ->
  lstrip s = s.
Proof. destruct s as [|c tl]; simpl; auto. now intros ->. Qed.

Lemma rstrip_idem (s : pystr) : rstrip (rstrip s) = rstrip s.
Proof.
  induction s as [|a tl IH]; simpl; auto.
  destruct (rstrip tl) as [|b r] eqn:E.
  - destruct (is_space a) eqn:Ea; simpl; auto. now rewrite Ea.
  - change (rstrip (a :: b :: r)) with
      (match rstrip (b :: r) with
       | [] => if is_space a then [] else [a]
       | r' => a :: r'
       end).
    now rewrite IH.
Qed.

Lemma strip_head (s : pystr) :
  match strip s with [] => True | c :: _ => is_space c = false end.
Proof.
  unfold strip. pose proof (lstrip_head s) as H.
  destruct (lstrip s) as [|c tl]; simpl; auto.
  destruct (rstrip_nonempty c tl H) as [r Hr]. simpl in Hr. now rewrite Hr.
Qed.

Lemma strip_idem (s : pystr) : strip (strip s) = strip s.
Proof.
  unfold strip at 1. rewrite (lstrip_fixed (strip s) (strip_head s)).
  unfold strip. apply rstrip_idem.
Qed.

Lemma rstrip_nil_iff (s : pystr) :
  rstrip s = [] <-> forallb is_space s = true.
Proof.
  induction s as [|a tl IH]; simpl; [tauto|].
  destruct (rstrip tl) as [|b r] eqn:E.
  - destruct (is_space a); simpl; split; intro H; try discriminate;
      tauto.
  - split; [discriminate|]. rewrite andb_true_iff. intros [_ H].
    apply IH in H. discriminate.
Qed.

Lemma lstrip_nil_iff (s : pystr) :
  lstrip s = [] <-> forallb is_space s = true.
Proof.
  induction s as [|a tl IH]; simpl; [tauto|].
  destruct (is_space a); simpl; auto. split; discriminate.
Qed.

(** [s.strip() == ''] holds exactly for the whitespace-only strings. *)
Lemma strip_nil_iff (s : pystr) :
  strip s = [] <-> forallb is_space s = true.
Proof.
  unfold strip. rewrite <- lstrip_nil_iff. split.
  - intro H. pose proof (lstrip_head s) as Hh.
    destruct (lstrip s) as [|c tl]; auto.
    destruct (rstrip_nonempty c tl Hh) as [r Hr]. congruence.
  - now intros ->.
Qed.

(** [strip] removes nothing but whitespace, and only at the two ends. *)
Lemma lstrip_decompose (s : pystr) :
  exists pre, s = pre ++ lstrip s /\ forallb is_space pre = true.
Proof.
  induction s as [|a tl [pre [E H]]]; simpl.
  - now exists [].
  - destruct (is_space a) eqn:Ea.
    + exists (a :: pre); simpl. rewrite Ea, H. split; auto.
      now rewrite <- E.
    + now exists [].
Qed.

Lemma rstrip_decompose (s : pystr) :
  exists post, s = rstrip s ++ post /\ forallb is_space post = true.
Proof.
  induction s as [|a tl [post [E H]]]; simpl.
  - now exists [].
  - destruct (rstrip tl) as [|b r] eqn:Er.
    + destruct (is_space a) eqn:Ea.
      * exists (a :: post); simpl in *. rewrite Ea, H. split; auto.
        now rewrite <- E.
      * exists post; simpl in *. split; auto. now rewrite <- E.
    + exists post; simpl in *. split; auto. now rewrite <- E.
Qed.

Lemma rstrip_last (s : pystr) (c : N) (r : pystr) :
  rstrip s = r ++ [c] -> is_space c = false.
Proof.
  revert r; induction s as [|a tl IH]; simpl; intros r H.
  - destruct r; discriminate.
  - destruct (rstrip tl) as [|b r'] eqn:E.
    + destruct (is_space a) eqn:Ea.
      * destruct r; discriminate.
      * destruct r as [|x [|y r]]; simpl in H; try discriminate.
        congruence.
    + destruct r as [|x r]; simpl in H.
      * discriminate.
      * injection H as -> H. eapply IH; eauto.
Qed.

Lemma strip_decompose (s : pystr) :
  exists pre post,
    s = pre ++ strip s ++ post
    /\ forallb is_space pre = true /\ forallb is_space post = true.
Proof.
  destruct (lstrip_decompose s) as [pre [E1 H1]].
  destruct (rstrip_decompose (lstrip s)) as [post [E2 H2]].
  exists pre, post. unfold strip. now rewrite <- E2, <- E1.
Qed.

(** ** Sanitizer *)

Lemma re_sub_invalid_clean (x : pystr) :
  Forall (fun c => invalid_char c = false) (re_sub_invalid x).
Proof.
  unfold re_sub_invalid. apply Forall_forall. intros c Hc.
  apply in_map_iff in Hc. destruct Hc as [a [<- _]].
  destruct (invalid_char a) eqn:E; auto.
Qed.

Lemma re_sub_invalid_fixed (x : pystr) :
  Forall (fun c => invalid_char c = false) x -> re_sub_invalid x = x.
Proof.
  unfold re_sub_invalid.
  induction 1 as [|c tl Hc _ IH]; simpl; auto. now rewrite Hc, IH.
Qed.

Lemma sanitize_filename_clean (x : pystr) :
  Forall (fun c => invalid_char c = false) (sanitize_filename x).
Proof.
  apply Forall_forall. intros c Hc. apply strip_incl in Hc.
  pose proof (re_sub_invalid_clean x) as H.
  rewrite Forall_forall in H. auto.
Qed.

Lemma sanitize_filename_idem (x : pystr) :
  sanitize_filename (sanitize_filename x) = sanitize_filename x.
Proof.
  unfold sanitize_filename at 1.
  rewrite (re_sub_invalid_fixed _ (sanitize_filename_clean x)).
  apply strip_idem.
Qed.

(** C6.  For every string, [sanitize_filename] returns a string that holds
    none of the nine characters of the class: it is the input with each of
    them replaced by an underscore, cut at both ends by whitespace only, so
    that it neither starts nor ends with whitespace; and sanitizing twice
    is sanitizing once. *)
Theorem sanitize_filename_spec (x : pystr) :
  Forall (fun c => invalid_char c = false) (sanitize_filename x)
  /\ (exists pre post,
        map (fun c => if invalid_char c then underscore else c) x
        = pre ++ sanitize_filename x ++ post
        /\ forallb is_space pre = true /\ forallb is_space post = true)
  /\ (forall c tl, sanitize_filename x = c :: tl -> is_space c = false)
  /\ (forall r c, sanitize_filename x = r ++ [c] -> is_space c = false)
  /\ sanitize_filename (sanitize_filename x) = sanitize_filename x.
Proof.
  split; [apply sanitize_filename_clean|].
  split; [apply (strip_decompose (re_sub_invalid x))|].
  split; [|split].
  - intros c tl E. pose proof (strip_head (re_sub_invalid x)) as H.
    unfold sanitize_filename in E. now rewrite E in H.
  - intros r c E. unfold sanitize_filename, strip in E.
    eapply rstrip_last; eauto.
  - apply sanitize_filename_idem.
Qed.

(** ** Dictionaries *)

Lemma lookup_dict_set_same (d : dict) (k : pystr) (v : value) :
  lookup k (dict_set d k v) = Some v.
Proof.
  induction d as [|[k' v'] tl IH]; simpl.
  - now rewrite pystr_eqb_refl.
  - destruct (pystr_eqb k' k) eqn:E; simpl; now rewrite E.
Qed.

Lemma lookup_dict_set_other (d : dict) (k k0 : pystr) (v : value) :
  k0 <> k -> lookup k0 (dict_set d k v) = lookup k0 d.
Proof.
  intro Hne. induction d as [|[k' v'] tl IH]; simpl.
  - destruct (pystr_eqb k k0) eqn:E; auto.
    apply pystr_eqb_eq in E. congruence.
  - destruct (pystr_eqb k' k) eqn:E; simpl.
    + apply pystr_eqb_eq in E. subst k'.
      destruct (pystr_eqb k k0) eqn:E0; auto.
      apply pystr_eqb_eq in E0. congruence.
    + now rewrite IH.
Qed.

Lemma lookup_None_iff (k : pystr) (d : dict) :
  lookup k d = None <-> ~ In k (keys d).
Proof.
  induction d as [|[k' v'] tl IH]; simpl; [tauto|].
  destruct (pystr_eqb k' k) eqn:E.
  - apply pystr_eqb_eq in E. split; [discriminate|tauto].
  - apply pystr_eqb_neq in E. tauto.
Qed.

Lemma dict_set_fresh (d : dict) (k : pystr) (v : value) :
  ~ In k (keys d) -> dict_set d k v = d ++ [(k, v)].
Proof.
  induction d as [|[k' v'] tl IH]; simpl; auto. intro H.
  destruct (pystr_eqb k' k) eqn:E.
  - apply pystr_eqb_eq in E. tauto.
  - rewrite IH; tauto.
Qed.

Lemma keys_dict_set_present (d : dict) (k : pystr) (v : value) :
  In k (keys d) -> keys (dict_set d k v) = keys d.
Proof.
  induction d as [|[k' v'] tl IH]; simpl; [tauto|]. intro H.
  destruct (pystr_eqb k' k) eqn:E; simpl; auto.
  apply pystr_eqb_neq in E. rewrite IH; tauto.
Qed.

Lemma fold_dict_set_nodup (items acc : list (pystr * value)) :
  NoDup (map fst (acc ++ items)) ->
  fold_left (fun d kv => dict_set d (fst kv) (snd kv)) items acc
  = acc ++ items.
Proof.
  revert acc; induction items as [|[k v] tl IH]; intros acc H; simpl.
  - now rewrite app_nil_r.
  - rewrite dict_set_fresh.
    + rewrite IH; rewrite <- app_assoc; auto.
    + rewrite map_app in H. simpl in H.
      apply NoDup_remove_2 in H. intro Hin. apply H.
      apply in_or_app. now left.
Qed.

(** [dict(items)] changes nothing when no key comes twice. *)
Lemma dict_of_items_nodup (items : list (pystr * value)) :
  NoDup (map fst items) -> dict_of_items items = items.
Proof. intro H. apply (fold_dict_set_nodup items [] H). Qed.

(** ** Flattener *)

(** The function as the source writes it: the entries of the mapping one
    after the other, a nested mapping flattened under its new key, the
    pairs collected and turned into a dictionary. *)
Lemma flatten_nested_dict_eq (nested_dict : dict) (parent_key sep : pystr) :
  flatten_nested_dict nested_dict parent_key sep
  = dict_of_items (flat_map (flatten_item parent_key sep) nested_dict).
Proof.
  unfold flatten_nested_dict. simpl. f_equal.
  induction nested_dict as [|[k v] tl IH]; simpl; auto.
  rewrite IH. now destruct v.
Qed.

Lemma leaves_eq (d : dict) :
  leaves d
  = flat_map
      (fun kv =>
         map (fun pv => (fst kv :: fst pv, snd pv)) (leaves_value (snd kv)))
      d.
Proof.
  unfold leaves. simpl.
  induction d as [|[k v] tl IH]; simpl; auto. now rewrite IH.
Qed.

Lemma normalize_blank (v : value) :
  match v with VDict _ => False | _ => True end ->
  normalize v = if blank v then NA else v.
Proof.
  destruct v as [|s| |]; simpl; try tauto. intros _.
  destruct (pystr_eqb (strip s) []) eqn:E.
  - apply pystr_eqb_eq, strip_nil_iff in E. now rewrite E.
  - destruct (forallb is_space s) eqn:F; auto.
    apply strip_nil_iff in F. rewrite F in E. discriminate.
Qed.

Lemma flatten_nested_dict_leaves (sep : pystr) (v : value) :
  forall (d : dict) (parent_key : pystr),
    v = VDict d ->
    NoDup (map (fun pv => compound_key parent_key sep (fst pv)) (leaves d)) ->
    flatten_nested_dict d parent_key sep = flatten_spec d parent_key sep.
Proof.
  induction v as [| | |d0 IH] using value_ind; try discriminate.
  intros d parent_key E. injection E as <-.
  intro Hnd. rewrite flatten_nested_dict_eq. unfold flatten_spec.
  assert (Hitems :
    flat_map (flatten_item parent_key sep) d0
    = map (fun pv => (compound_key parent_key sep (fst pv),
                      if blank (snd pv) then NA else snd pv)) (leaves d0)).
  { rewrite leaves_eq in Hnd |- *.
    induction d0 as [|[k v] tl IHtl]; simpl in *; auto.
    rewrite map_app in Hnd |- *.
    inversion IH as [|? ? Hv Htl]; subst.
    rewrite IHtl by (auto; eapply NoDup_app_remove_l; eauto).
    apply NoDup_app_remove_r in Hnd. clear IHtl IH Htl.
    f_equal. rewrite map_map in Hnd. rewrite map_map.
    unfold flatten_item. cbn [fst snd].
    destruct v as [|s|n|d']; try reflexivity.
    - simpl. f_equal. f_equal. apply (normalize_blank (VStr s)). exact I.
    - change (snd (k, VDict d')) with (VDict d') in *.
      rewrite (Hv d' (new_key parent_key sep k) eq_refl).
      + reflexivity.
      + exact Hnd. }
  rewrite Hitems. apply dict_of_items_nodup.
  rewrite map_map. simpl. exact Hnd.
Qed.

(** C2.  When no two leaves of a nested mapping have the same compound
    key, [flatten_nested_dict] returns one entry per scalar leaf, in
    traversal order: its key is the keys on the way to the leaf joined by
    the separator (after the prefix, when there is one), its value is
    ['N/A'] for a leaf that is [None] or a string of whitespace only and
    the leaf itself otherwise.  The example of the description flattens as
    it is said to. *)
Theorem flatten_nested_dict_spec :
  (forall (d : dict) (prefix sep : pystr),
      NoDup (map (fun pv => compound_key prefix sep (fst pv)) (leaves d)) ->
      flatten_nested_dict d prefix sep
      = map (fun pv => (compound_key prefix sep (fst pv),
                        if blank (snd pv) then NA else snd pv))
          (leaves d)
      /\ List.length (flatten_nested_dict d prefix sep)
         = List.length (leaves d))
  /\ flatten_nested_dict example_nested [] sep_default = example_flat.
Proof.
  split; [|reflexivity].
  intros d prefix sep H.
  rewrite (flatten_nested_dict_leaves sep (VDict d) d prefix eq_refl H).
  split; [reflexivity|]. unfold flatten_spec. apply length_map.
Qed.

Lemma flatten_nested_dict_spec_witness :
  NoDup (map (fun pv => compound_key [] sep_default (fst pv))
           (leaves example_nested))
  /\ flatten_nested_dict example_nested [] sep_default
     = map (fun pv => (compound_key [] sep_default (fst pv),
                       if blank (snd pv) then NA else snd pv))
         (leaves example_nested).
Proof.
  assert (H : NoDup (map (fun pv => compound_key [] sep_default (fst pv))
                       (leaves example_nested))).
  { vm_compute.
    repeat (constructor;
            [intro H; simpl in H;
             repeat (destruct H as [H|H]; [discriminate H|]); exact H|]).
    constructor. }
  split; [exact H|].
  exact (proj1 (proj1 flatten_nested_dict_spec example_nested [] sep_default H)).
Defined.

(** ** Order on strings and sorting *)

Ltac ltb_cases :=
  repeat match goal with
         | |- context [(?a <? ?b)%N] => destruct (N.ltb_spec a b)
         | H : context [(?a <? ?b)%N] |- _ => destruct (N.ltb_spec a b)
         end.

Lemma pystr_ltb_irrefl (a : pystr) : pystr_ltb a a = false.
Proof.
  induction a as [|x a IH]; simpl; auto.
  now rewrite N.ltb_irrefl.
Qed.

Lemma pystr_ltb_total (a b : pystr) :
  pystr_ltb a b = false -> pystr_ltb b a = false -> a = b.
Proof.
  revert b; induction a as [|x a IH]; intros [|y b]; simpl;
    try discriminate; auto.
  ltb_cases; try discriminate; try lia.
  intros H1 H2. assert (x = y) by lia. subst. f_equal. auto.
Qed.

Lemma pystr_ltb_trans (a b c : pystr) :
  pystr_ltb a b = true -> pystr_ltb b c = true -> pystr_ltb a c = true.
Proof.
  revert b c; induction a as [|x a IH]; intros [|y b] [|z c]; simpl;
    try discriminate; auto.
  ltb_cases; try discriminate; try lia; auto.
  apply IH.
Qed.

Lemma str_le_refl (a : pystr) : str_le a a.
Proof. apply pystr_ltb_irrefl. Qed.

Lemma str_le_trans (a b c : pystr) : str_le a b -> str_le b c -> str_le a c.
Proof.
  unfold str_le. intros Hab Hbc.
  destruct (pystr_ltb c a) eqn:Hca; auto.
  destruct (pystr_ltb b c) eqn:Hbc'.
  - rewrite (pystr_ltb_trans b c a Hbc' Hca) in Hab. discriminate.
  - assert (c = b) by (apply pystr_ltb_total; auto). subst. congruence.
Qed.

Lemma str_le_antisym (a b : pystr) : str_le a b -> str_le b a -> a = b.
Proof. unfold str_le. intros H1 H2. now apply pystr_ltb_total. Qed.

Lemma pystr_ltb_le (a b : pystr) : pystr_ltb a b = true -> str_le a b.
Proof.
  unfold str_le. intro H. destruct (pystr_ltb b a) eqn:E; auto.
  pose proof (pystr_ltb_trans a b a H E) as F.
  rewrite pystr_ltb_irrefl in F. discriminate.
Qed.

Lemma insert_sorted_perm (x : pystr) (l : list pystr) :
  Permutation (insert_sorted x l) (x :: l).
Proof.
  induction l as [|y tl IH]; simpl; auto.
  destruct (pystr_ltb y x); auto.
  rewrite IH. apply perm_swap.
Qed.

Lemma sorted_perm (l : list pystr) : Permutation (sorted l) l.
Proof.
  induction l as [|x tl IH]; simpl; auto.
  rewrite insert_sorted_perm. now constructor.
Qed.

Lemma insert_sorted_strongly (x : pystr) (l : list pystr) :
  StronglySorted str_le l -> StronglySorted str_le (insert_sorted x l).
Proof.
  induction 1 as [|y tl Hs IH Hall]; simpl.
  - repeat constructor.
  - destruct (pystr_ltb y x) eqn:E.
    + constructor; auto.
      rewrite Forall_forall in *. intros z Hz.
      apply (Permutation_in _ (insert_sorted_perm x tl)) in Hz.
      destruct Hz as [<-|Hz]; auto. now apply pystr_ltb_le.
    + constructor; [constructor; auto|].
      constructor; [exact E|].
      rewrite Forall_forall in *. intros z Hz.
      apply str_le_trans with y; [exact E|auto].
Qed.

Lemma sorted_strongly (l : list pystr) : StronglySorted str_le (sorted l).
Proof.
  induction l as [|x tl IH]; simpl.
  - constructor.
  - now apply insert_sorted_strongly.
Qed.

(** A sorted list is determined by its elements. *)
Lemma strongly_sorted_unique (l1 l2 : list pystr) :
  StronglySorted str_le l1 -> StronglySorted str_le l2 ->
  Permutation l1 l2 -> l1 = l2.
Proof.
  intros H1; revert l2.
  induction H1 as [|x tl1 Hs1 IH Hall1]; intros l2 H2 Hp.
  - apply Permutation_nil in Hp. now subst.
  - destruct H2 as [|y tl2 Hs2 Hall2].
    + symmetry in Hp. apply Permutation_nil in Hp. discriminate.
    + assert (x = y).
      { apply str_le_antisym.
        - assert (Hy : In y (x :: tl1))
            by (eapply Permutation_in; [symmetry; exact Hp|now left]).
          destruct Hy as [->|Hy]; [apply str_le_refl|].
          rewrite Forall_forall in Hall1. auto.
        - assert (Hx : In x (y :: tl2))
            by (eapply Permutation_in; [exact Hp|now left]).
          destruct Hx as [->|Hx]; [apply str_le_refl|].
          rewrite Forall_forall in Hall2. auto. }
      subst y. f_equal. apply IH; auto.
      eapply Permutation_cons_inv; eauto.
Qed.

Lemma sorted_of_permutation (l1 l2 : list pystr) :
  Permutation l1 l2 -> sorted l1 = sorted l2.
Proof.
  intro Hp. apply strongly_sorted_unique; try apply sorted_strongly.
  rewrite !sorted_perm. exact Hp.
Qed.

(** ** Column orderer *)

Lemma mem_In (col : pystr) (l : list pystr) : mem col l = true <-> In col l.
Proof.
  unfold mem. rewrite existsb_exists. split.
  - intros [x [Hx E]]. apply pystr_eqb_eq in E. now subst.
  - intro H. exists col. split; auto. apply pystr_eqb_refl.
Qed.

(** The columns of one section, as the loop appends them. *)
Lemma section_loop (df_columns : list pystr) (secs acc : list pystr) :
  fold_left
    (fun column_order section =>
       let section_columns :=
         filter (fun col => str_in section col) df_columns in
       column_order ++ sorted section_columns)
    secs acc
  = acc
    ++ List.concat
         (map (fun section =>
                 sorted (filter (fun col => str_in section col) df_columns))
            secs).
Proof.
  revert acc; induction secs as [|s tl IH]; intro acc; simpl.
  - now rewrite app_nil_r.
  - rewrite IH. now rewrite app_assoc.
Qed.

Lemma in_section_blocks (df_columns : list pystr) (col : pystr) :
  In col
    (List.concat
       (map (fun section =>
               sorted (filter (fun col => str_in section col) df_columns))
          sections))
  <-> In col df_columns
      /\ exists section, In section sections /\ str_in section col = true.
Proof.
  rewrite in_concat. split.
  - intros [block [Hb Hc]]. apply in_map_iff in Hb.
    destruct Hb as [s [<- Hs]].
    apply (Permutation_in _ (sorted_perm _)) in Hc.
    apply filter_In in Hc. destruct Hc as [Hc Hin]. eauto.
  - intros [Hc [s [Hs Hin]]].
    exists (sorted (filter (fun col => str_in s col) df_columns)).
    split; [apply in_map_iff; eauto|].
    apply (Permutation_in _ (Permutation_sym (sorted_perm _))).
    apply filter_In. auto.
Qed.

Lemma unplaced_spec (col : pystr) :
  unplaced col = true
  <-> col <> py "timestamp"
      /\ forall section, In section sections -> str_in section col = false.
Proof.
  unfold unplaced.
  rewrite andb_true_iff, negb_true_iff, pystr_eqb_neq, forallb_forall.
  split; intros [H1 H2]; split; auto; intros s Hs; specialize (H2 s Hs).
  - now apply negb_true_iff in H2.
  - now apply negb_true_iff.
Qed.

Lemma column_order_eq (df_columns : list pystr) :
  column_order df_columns
  = py "timestamp"
    :: List.concat
         (map (fun section =>
                 sorted (filter (fun col => str_in section col) df_columns))
            sections)
    ++ filter unplaced df_columns.
Proof.
  unfold column_order. rewrite section_loop.
  set (blocks :=
         List.concat
           (map (fun section =>
                   sorted (filter (fun col => str_in section col) df_columns))
              sections)).
  change ([py "timestamp"] ++ blocks) with (py "timestamp" :: blocks).
  rewrite <- app_comm_cons. f_equal. f_equal.
  apply filter_ext_in. intros col Hcol.
  destruct (mem col (py "timestamp" :: blocks)) eqn:F; simpl.
  - apply mem_In in F. symmetry.
    destruct (unplaced col) eqn:E; auto.
    apply unplaced_spec in E. destruct E as [E1 E2].
    destruct F as [F|F]; [congruence|].
    apply in_section_blocks in F. destruct F as [_ [s [Hs Hin]]].
    rewrite (E2 s Hs) in Hin. discriminate.
  - symmetry. apply unplaced_spec.
    assert (G : ~ In col (py "timestamp" :: blocks)).
    { intro G. apply mem_In in G. congruence. }
    split.
    + intro Heq. apply G. now left.
    + intros s Hs. destruct (str_in s col) eqn:Y; auto.
      exfalso. apply G. right. apply in_section_blocks. eauto.
Qed.

Lemma column_order_incl (df_columns : list pystr) (col : pystr) :
  In (py "timestamp") df_columns ->
  In col (column_order df_columns) -> In col df_columns.
Proof.
  intros Ht. rewrite column_order_eq. intros [<-|H]; auto.
  apply in_app_or in H. destruct H as [H|H].
  - now apply in_section_blocks in H.
  - now apply filter_In in H.
Qed.

(** No key is lost by the ordering. *)
Lemma column_order_keeps (df_columns : list pystr) (col : pystr) :
  In col df_columns -> In col (column_order df_columns).
Proof.
  intro H. rewrite column_order_eq.
  destruct (unplaced col) eqn:E.
  - right. apply in_or_app. right. apply filter_In. auto.
  - destruct (pystr_eqb col (py "timestamp")) eqn:Et.
    + apply pystr_eqb_eq in Et. now left.
    + right. apply in_or_app. left. apply in_section_blocks. split; auto.
      destruct (existsb (fun section => str_in section col) sections) eqn:X.
      * apply existsb_exists in X. exact X.
      * exfalso. assert (U : unplaced col = true); [|congruence].
        apply unplaced_spec. split; [now apply pystr_eqb_neq|].
        intros s Hs. destruct (str_in s col) eqn:Y; auto.
        assert (existsb (fun section => str_in section col) sections = true)
          by (apply existsb_exists; eauto).
        congruence.
Qed.

Lemma concat_map_nodup_disjoint (f : pystr -> list pystr)
  (secs : list pystr) :
  NoDup (List.concat (map f secs)) ->
  forall s1 s2 x,
    In s1 secs -> In s2 secs -> s1 <> s2 ->
    In x (f s1) -> In x (f s2) -> False.
Proof.
  induction secs as [|a tl IH]; simpl; [tauto|].
  intros Hnd s1 s2 x H1 H2 Hne Hx1 Hx2.
  assert (Hsplit : forall s y, In s tl -> In y (f a) -> In y (f s) -> False).
  { intros s y Hs Hya Hys. revert Hnd Hya.
    generalize (f a) as l. induction l as [|z l IHl]; simpl; [tauto|].
    intros Hnd [->|Hy].
    - apply NoDup_cons_iff in Hnd. apply (proj1 Hnd).
      apply in_or_app. right. apply in_concat.
      exists (f s). split; auto. now apply in_map.
    - apply IHl; auto. now apply NoDup_cons_iff in Hnd. }
  destruct H1 as [<-|H1], H2 as [<-|H2].
  - congruence.
  - eapply Hsplit; eauto.
  - eapply Hsplit; eauto.
  - apply (IH (NoDup_app_remove_l _ _ Hnd) s1 s2 x); auto.
Qed.

Lemma concat_map_nodup (f : pystr -> list pystr) (secs : list pystr) :
  NoDup secs ->
  (forall s, In s secs -> NoDup (f s)) ->
  (forall s1 s2 x, In s1 secs -> In s2 secs ->
                   In x (f s1) -> In x (f s2) -> s1 = s2) ->
  NoDup (List.concat (map f secs)).
Proof.
  induction secs as [|a tl IH]; simpl; intros Hnd Hf Hdis.
  - constructor.
  - apply NoDup_cons_iff in Hnd. destruct Hnd as [Ha Htl].
    apply NoDup_app.
    + apply Hf. now left.
    + apply IH; auto. intros s1 s2 x H1 H2. apply Hdis; now right.
    + intros x Hx Hin. apply in_concat in Hin.
      destruct Hin as [block [Hb Hxb]]. apply in_map_iff in Hb.
      destruct Hb as [s [<- Hs]].
      assert (a = s) by (apply (Hdis a s x); auto; now left).
      subst. contradiction.
Qed.

(** When no key holds the names of two sections, the ordering is a
    rearrangement of the keys: each comes once. *)
Lemma column_order_permutation (df_columns : list pystr) :
  NoDup df_columns ->
  In (py "timestamp") df_columns ->
  (forall col s1 s2,
      In col df_columns -> In s1 sections -> In s2 sections ->
      str_in s1 col = true -> str_in s2 col = true -> s1 = s2) ->
  Permutation (column_order df_columns) df_columns.
Proof.
  intros Hnd Ht Hone. apply NoDup_Permutation; auto.
  - rewrite column_order_eq. constructor.
    + intro Hin. apply in_app_or in Hin. destruct Hin as [Hin|Hin].
      * apply in_section_blocks in Hin. destruct Hin as [_ [s [Hs Hin]]].
        assert (Hall : forallb (fun s => negb (str_in s (py "timestamp")))
                         sections = true) by (vm_compute; reflexivity).
        rewrite forallb_forall in Hall. specialize (Hall s Hs).
        rewrite Hin in Hall. discriminate.
      * apply filter_In in Hin. destruct Hin as [_ Hin].
        apply unplaced_spec in Hin. now destruct Hin.
    + apply NoDup_app.
      * apply concat_map_nodup.
        -- vm_compute.
           repeat (constructor;
                   [intro H; simpl in H;
                    repeat (destruct H as [H|H]; [discriminate H|]);
                    exact H|]).
           constructor.
        -- intros s _.
           apply (Permutation_NoDup (Permutation_sym (sorted_perm _))).
           now apply NoDup_filter.
        -- intros s1 s2 x H1 H2 Hx1 Hx2.
           apply (Permutation_in _ (sorted_perm _)) in Hx1.
           apply (Permutation_in _ (sorted_perm _)) in Hx2.
           apply filter_In in Hx1. apply filter_In in Hx2.
           destruct Hx1 as [Hx Hs1]. destruct Hx2 as [_ Hs2].
           apply (Hone x s1 s2); auto.
      * now apply NoDup_filter.
      * intros x Hx Hin. apply in_section_blocks in Hx.
        destruct Hx as [_ [s [Hs Hsx]]].
        apply filter_In in Hin. destruct Hin as [_ Hin].
        apply unplaced_spec in Hin. destruct Hin as [_ Hin].
        rewrite (Hin s Hs) in Hsx. discriminate.
  - intro x. split.
    + now apply column_order_incl.
    + apply column_order_keeps.
Qed.

(** A key that holds the names of two sections is listed under both. *)
Lemma column_order_repeats (df_columns : list pystr) (col s1 s2 : pystr) :
  In col df_columns ->
  In s1 sections -> In s2 sections -> s1 <> s2 ->
  str_in s1 col = true -> str_in s2 col = true ->
  ~ NoDup (column_order df_columns).
Proof.
  intros Hc H1 H2 Hne Hin1 Hin2 Hnd. rewrite column_order_eq in Hnd.
  apply NoDup_cons_iff in Hnd. destruct Hnd as [_ Hnd].
  apply NoDup_app_remove_r in Hnd.
  apply (concat_map_nodup_disjoint _ _ Hnd s1 s2 col H1 H2 Hne).
  - apply (Permutation_in _ (Permutation_sym (sorted_perm _))).
    apply filter_In. auto.
  - apply (Permutation_in _ (Permutation_sym (sorted_perm _))).
    apply filter_In. auto.
Qed.

Lemma filter_permutation (p : pystr -> bool) (l1 l2 : list pystr) :
  Permutation l1 l2 -> Permutation (filter p l1) (filter p l2).
Proof.
  induction 1 as [|x l1 l2 _ IH|x y l|l1 l2 l3 _ IH1 _ IH2]; simpl; auto.
  - destruct (p x); auto.
  - destruct (p x), (p y); auto. apply perm_swap.
  - etransitivity; eauto.
Qed.

(** ** Selecting columns *)

Lemma cell_DataFrame (d : dict) (label : pystr) :
  cell (keys d) (values d) label = lookup label d.
Proof.
  induction d as [|[k v] tl IH]; simpl; auto.
  destruct (pystr_eqb k label); auto.
Qed.

Lemma select_DataFrame (d : dict) (labels : list pystr) :
  (forall l, In l labels -> In l (keys d)) ->
  exists cells,
    select (DataFrame d) labels = Ok {| columns := labels; row := cells |}
    /\ Forall2 (fun l c => lookup l d = Some c) labels cells.
Proof.
  induction labels as [|l tl IH]; intro H; simpl.
  - exists []. split; auto.
  - rewrite cell_DataFrame.
    destruct (lookup l d) as [c|] eqn:E.
    + destruct IH as [cells [-> Hc]]; [intros; apply H; now right|].
      exists (c :: cells). simpl. split; auto.
    + apply lookup_None_iff in E. exfalso. apply E, H. now left.
Qed.

Lemma select_missing (d : dict) (labels : list pystr) :
  (exists l, In l labels /\ ~ In l (keys d)) ->
  exists l, select (DataFrame d) labels = Raise (KeyError l).
Proof.
  induction labels as [|l tl IH]; intros [x [Hx Hn]]; simpl.
  - destruct Hx.
  - rewrite cell_DataFrame. destruct (lookup l d) as [c|] eqn:E.
    + destruct Hx as [->|Hx].
      * apply lookup_None_iff in Hn. congruence.
      * destruct IH as [l' ->]; eauto.
    + eauto.
Qed.

(** C7.  For the keys of a flattened mapping that has the key [timestamp],
    the columns of the reordered table are: [timestamp]; then, for each
    section name in the fixed order, the keys that hold that name as a
    substring, sorted; then the keys that are not [timestamp] and hold no
    section name, in the order the mapping has them.  The selection does
    not fail, and each cell is the value the mapping has under the label.
    The sequence is a function of the keys: another mapping with the same
    keys, its other keys in the same order, gets the same sequence. *)
Theorem column_order_spec (flat_entry : dict) :
  In (py "timestamp") (keys flat_entry) ->
  exists (blocks : list (list pystr)) (cells : list value),
    Forall2
      (fun section block =>
         Permutation block
           (filter (fun col => str_in section col) (keys flat_entry))
         /\ StronglySorted str_le block)
      sections blocks
    /\ column_order (keys flat_entry)
       = py "timestamp" :: List.concat blocks
         ++ filter unplaced (keys flat_entry)
    /\ select (DataFrame flat_entry) (column_order (keys flat_entry))
       = Ok {| columns := column_order (keys flat_entry); row := cells |}
    /\ Forall2 (fun l c => lookup l flat_entry = Some c)
         (column_order (keys flat_entry)) cells
    /\ (forall other : dict,
          Permutation (keys other) (keys flat_entry) ->
          filter unplaced (keys other) = filter unplaced (keys flat_entry) ->
          column_order (keys other) = column_order (keys flat_entry)).
Proof.
  intro Ht.
  destruct (select_DataFrame flat_entry (column_order (keys flat_entry)))
    as [cells [Hsel Hcells]].
  { intros l. now apply column_order_incl. }
  exists (map (fun section =>
                 sorted (filter (fun col => str_in section col)
                           (keys flat_entry)))
            sections), cells.
  split; [|split; [apply column_order_eq|split; [exact Hsel|split; [exact Hcells|]]]].
  - induction sections as [|s tl IH]; simpl; constructor; auto.
    split; [apply sorted_perm|apply sorted_strongly].
  - intros other Hp Hrest. rewrite !column_order_eq, Hrest.
    f_equal. f_equal. f_equal.
    apply map_ext. intro s. apply sorted_of_permutation.
    now apply filter_permutation.
Qed.

(** ** Clock *)

Lemma digit_range (n : N) : (48 <= digit n <= 57)%N.
Proof.
  unfold digit.
  assert (H : (n mod 10 < 10)%N) by (apply N.mod_upper_bound; discriminate).
  revert H. generalize (n mod 10)%N. intros m H. lia.
Qed.

Lemma is_digit_digit (n : N) : is_digit (digit n) = true.
Proof.
  unfold is_digit. pose proof (digit_range n).
  apply andb_true_iff. split; apply N.leb_le; lia.
Qed.

Lemma is_space_digit (n : N) : is_space (digit n) = false.
Proof.
  unfold digit.
  assert (Hm : (n mod 10 < 10)%N)
    by (apply N.mod_upper_bound; discriminate).
  revert Hm. generalize (n mod 10)%N. intros m Hm.
  assert (H : (m = 0 \/ m = 1 \/ m = 2 \/ m = 3 \/ m = 4 \/ m = 5
               \/ m = 6 \/ m = 7 \/ m = 8 \/ m = 9)%N) by lia.
  repeat destruct H as [H|H]; subst; reflexivity.
Qed.

Lemma strftime_record_form (t : datetime) :
  has_form (py "dddd-dd-dd dd:dd:dd") (strftime_record t) = true.
Proof.
  unfold strftime_record, pad4, pad2. cbn [app py map list_ascii_of_string].
  simpl. now rewrite !is_digit_digit.
Qed.

Lemma strftime_file_form (t : datetime) :
  has_form (py "dddddddd_dddddd") (strftime_file t) = true.
Proof.
  unfold strftime_file, pad4, pad2. simpl. now rewrite !is_digit_digit.
Qed.

Lemma strip_digit_head (n : N) (tl : pystr) :
  pystr_eqb (strip (digit n :: tl)) [] = false.
Proof.
  apply pystr_eqb_neq. rewrite strip_nil_iff. simpl.
  now rewrite is_space_digit.
Qed.

(** A time stamp is never blank, so flattening keeps it. *)
Lemma normalize_strftime_record (t : datetime) :
  normalize (VStr (strftime_record t)) = VStr (strftime_record t).
Proof.
  unfold normalize.
  change (strftime_record t)
    with (digit (year t / 1000)
            :: tl (strftime_record t)) at 1.
  now rewrite strip_digit_head.
Qed.

(** ** Record store *)

Lemma path_eqb_refl (p : path) : path_eqb p p = true.
Proof. unfold path_eqb. now rewrite !pystr_eqb_refl. Qed.

(** A text below the cell limit is written as it is, and what is cut
    cannot be read as a shorter text. *)
Lemma take_short (n : N) (s k : pystr) :
  take n s = k -> (N.of_nat (List.length k) < n)%N -> s = k.
Proof.
  revert n k. induction s as [|c tl IH]; intros n k H Hlen.
  - exact H.
  - cbn [take] in H. destruct (n =? 0)%N eqn:E.
    + apply N.eqb_eq in E. subst n. lia.
    + apply N.eqb_neq in E. subst k. f_equal.
      apply (IH (N.pred n) _ eq_refl).
      cbn [List.length] in Hlen. lia.
Qed.

Lemma take_fits (n : N) (s : pystr) :
  (N.of_nat (List.length s) <= n)%N -> take n s = s.
Proof.
  revert n. induction s as [|c tl IH]; intros n Hlen; [reflexivity|].
  cbn [take List.length] in *. destruct (n =? 0)%N eqn:E.
  - apply N.eqb_eq in E. lia.
  - f_equal. apply IH. lia.
Qed.

(** The guarded block never lets an exception out. *)
Lemma save_guarded_run (w : world) (filename : pystr) (file_path : path)
  (s : state) :
  try_except (save_guarded w filename file_path)
    (fun e => show (ErrorSaving e) ;; ret false) s
  = let flat_entry := flatten_nested_dict (record s) [] sep_default in
    match select (DataFrame flat_entry) (column_order (keys flat_entry)) with
    | Raise e => (Ok false, with_screen s (ErrorSaving e))
    | Ok df =>
        match to_excel_raises w with
        | Some e => (Ok false, with_screen s (ErrorSaving e))
        | None =>
            match open_raises w with
            | Some e =>
                (Ok false,
                 with_screen (with_file s file_path (sheet_of df))
                   (ErrorSaving e))
            | None =>
                (Ok true,
                 with_screen (with_file s file_path (sheet_of df))
                   (Saved filename (sheet_of df)))
            end
        end
    end.
Proof.
  unfold try_except, save_guarded, bind, get_record, lift, to_excel,
    read_file, show, ret, raise, with_screen, with_file.
  cbv zeta.
  destruct (select _ _) as [df|e]; [|reflexivity].
  destruct (to_excel_raises w) as [e|]; [reflexivity|].
  destruct (open_raises w) as [e|]; [reflexivity|].
  cbn [disk find_file]. rewrite path_eqb_refl. reflexivity.
Qed.

Lemma save_survey_data_run (w : world) (s : state) :
  save_survey_data w s
  = match makedirs_raises w with
    | Some e => (Raise e, s)
    | None =>
        let s1 := stamped w s in
        match
          call_sanitize_filename
            (dict_get (record s1) (py "ashram_name")
               (VStr (py "Unknown_Ashram")))
        with
        | Raise e => (Raise e, s1)
        | Ok safe_ashram_name =>
            let filename := artifact_name w safe_ashram_name in
            try_except
              (save_guarded w filename (SURVEY_RESULTS_DIR, filename))
              (fun e => show (ErrorSaving e) ;; ret false) s1
        end
    end.
Proof.
  unfold save_survey_data, makedirs.
  destruct (makedirs_raises w) as [e|]; [reflexivity|].
  unfold bind at 1. unfold ret at 1.
  unfold bind at 1. unfold get_record at 1.
  unfold bind at 1. unfold set_record at 1.
  unfold bind at 1. unfold get_record at 1.
  cbv zeta. cbn [record session disk screen].
  unfold bind at 1. unfold lift at 1. unfold stamped. cbn [record].
  destruct (call_sanitize_filename _) as [safe|e]; reflexivity.
Qed.

Lemma keys_dict_set (d : dict) (k k0 : pystr) (v : value) :
  In k0 (keys (dict_set d k v)) <-> k0 = k \/ In k0 (keys d).
Proof.
  induction d as [|[k' v'] tl IH]; simpl.
  - intuition.
  - destruct (pystr_eqb k' k) eqn:E; simpl.
    + apply pystr_eqb_eq in E. subst. intuition.
    + rewrite IH. intuition.
Qed.

Lemma keys_fold_dict_set (items acc : list (pystr * value)) (k : pystr) :
  In k (keys (fold_left (fun d kv => dict_set d (fst kv) (snd kv)) items acc))
  <-> In k (keys acc) \/ In k (map fst items).
Proof.
  revert acc; induction items as [|[k' v'] tl IH]; intro acc; simpl.
  - tauto.
  - rewrite IH, keys_dict_set. intuition.
Qed.

Lemma keys_dict_of_items (items : list (pystr * value)) (k : pystr) :
  In k (keys (dict_of_items items)) <-> In k (map fst items).
Proof.
  unfold dict_of_items. rewrite keys_fold_dict_set. simpl. tauto.
Qed.

Lemma lookup_fold_dict_set_absent (items acc : list (pystr * value))
  (k : pystr) :
  ~ In k (map fst items) ->
  lookup k (fold_left (fun d kv => dict_set d (fst kv) (snd kv)) items acc)
  = lookup k acc.
Proof.
  revert acc; induction items as [|[k' v'] tl IH]; intros acc H; simpl; auto.
  simpl in H. rewrite IH by tauto.
  apply lookup_dict_set_other. intuition.
Qed.

(** In [dict(items)] a key has the value of its last pair. *)
Lemma lookup_dict_of_items_last (l1 l2 : list (pystr * value)) (k : pystr)
  (v : value) :
  ~ In k (map fst l2) ->
  lookup k (dict_of_items (l1 ++ (k, v) :: l2)) = Some v.
Proof.
  intro H. unfold dict_of_items. rewrite fold_left_app. simpl.
  rewrite lookup_fold_dict_set_absent by exact H.
  apply lookup_dict_set_same.
Qed.

Lemma lookup_In (k : pystr) (v : value) (d : dict) :
  lookup k d = Some v -> In (k, v) d.
Proof.
  induction d as [|[k' v'] tl IH]; simpl; [discriminate|].
  destruct (pystr_eqb k' k) eqn:E.
  - apply pystr_eqb_eq in E. intro H. injection H as ->. subst. now left.
  - auto.
Qed.

(** A top-level scalar keeps its key in the flat mapping. *)
Lemma flatten_keeps_top_key (d : dict) (sep k : pystr) (v : value) :
  lookup k d = Some v ->
  match v with VDict _ => False | _ => True end ->
  In k (keys (flatten_nested_dict d [] sep)).
Proof.
  intros Hl Hv. apply lookup_In in Hl.
  rewrite flatten_nested_dict_eq. apply keys_dict_of_items.
  apply in_map_iff. exists (k, normalize v). split; auto.
  apply in_flat_map. exists (k, v). split; auto.
  destruct v; simpl; tauto.
Qed.

Lemma stamped_has_timestamp (w : world) (s : state) :
  In (py "timestamp")
    (keys (flatten_nested_dict (record (stamped w s)) [] sep_default)).
Proof.
  eapply flatten_keeps_top_key.
  - apply lookup_dict_set_same.
  - exact I.
Qed.

(** Once the record is stamped the selection of the columns cannot fail. *)
Lemma stamped_select (w : world) (s : state) :
  let flat_entry :=
    flatten_nested_dict (record (stamped w s)) [] sep_default in
  exists cells,
    select (DataFrame flat_entry) (column_order (keys flat_entry))
    = Ok {| columns := column_order (keys flat_entry); row := cells |}
    /\ Forall2 (fun l c => lookup l flat_entry = Some c)
         (column_order (keys flat_entry)) cells.
Proof.
  intro flat_entry. apply select_DataFrame.
  intro l. apply column_order_incl. apply stamped_has_timestamp.
Qed.

Lemma save_survey_data_record (w : world) (s : state) :
  record (snd (save_survey_data w s))
  = match makedirs_raises w with
    | Some _ => record s
    | None => record (stamped w s)
    end.
Proof.
  rewrite save_survey_data_run.
  destruct (makedirs_raises w); [reflexivity|]. cbv zeta.
  destruct (call_sanitize_filename _); [|reflexivity].
  rewrite save_guarded_run. cbv zeta.
  destruct (select _ _); [|reflexivity].
  destruct (to_excel_raises w); [reflexivity|].
  destruct (open_raises w); reflexivity.
Qed.

(** C9, as the code has it.  [save_survey_data] writes into the
    dictionary it is given.  However the call ends, every key other than
    [timestamp] has the value it had.  Once the results directory is
    there, the dictionary has the key [timestamp] with the first clock
    reading as its value, replacing what the key held before, and the keys
    that were there keep their order, also when the call then fails or
    raises; when the directory cannot be made the dictionary is as it
    was. *)
Theorem save_survey_data_stamps_record (w : world) (s : state) :
  let left_behind := record (snd (save_survey_data w s)) in
  (forall k, k <> py "timestamp" -> lookup k left_behind = lookup k (record s))
  /\ (makedirs_raises w = None ->
      left_behind = dict_set (record s) (py "timestamp")
                (VStr (strftime_record (now_stamp w)))
      /\ lookup (py "timestamp") left_behind
         = Some (VStr (strftime_record (now_stamp w)))
      /\ (In (py "timestamp") (keys (record s)) ->
          keys left_behind = keys (record s))
      /\ (~ In (py "timestamp") (keys (record s)) ->
          keys left_behind = keys (record s) ++ [py "timestamp"]))
  /\ (forall e, makedirs_raises w = Some e -> left_behind = record s).
Proof.
  intro left_behind. unfold left_behind. rewrite save_survey_data_record.
  unfold stamped. cbn [record]. split; [|split].
  - intros k Hk. destruct (makedirs_raises w); [reflexivity|].
    now apply lookup_dict_set_other.
  - intros ->. split; [reflexivity|]. split; [apply lookup_dict_set_same|].
    split.
    + apply keys_dict_set_present.
    + intro H. rewrite dict_set_fresh by exact H.
      unfold keys. now rewrite map_app.
  - intros e ->. reflexivity.
Qed.

(** ** Time stamps read as the clock *)

Lemma digit_small (n : N) : (n < 10)%N -> digit n = (48 + n)%N.
Proof. intro H. unfold digit. now rewrite N.mod_small. Qed.

Lemma reads_as_pad2 (n : N) : (n <= 99)%N -> reads_as (pad2 n) 2 n.
Proof.
  intro H. unfold reads_as, pad2. split; [reflexivity|].
  split; [simpl; now rewrite !is_digit_digit|].
  assert (Hq : (n / 10 < 10)%N) by (apply N.Div0.div_lt_upper_bound; lia).
  rewrite (digit_small _ Hq). unfold digit, decimal_value. cbn [fold_left].
  pose proof (N.Div0.div_mod n 10) as E.
  assert (Hr : (n mod 10 < 10)%N) by (apply N.mod_upper_bound; discriminate).
  revert E Hq Hr. generalize (n / 10)%N (n mod 10)%N. intros q r E Hq Hr.
  lia.
Qed.

Lemma reads_as_pad4 (n : N) : (n <= 9999)%N -> reads_as (pad4 n) 4 n.
Proof.
  intro H. unfold reads_as, pad4. split; [reflexivity|].
  split; [simpl; now rewrite !is_digit_digit|].
  assert (Hq : (n / 1000 < 10)%N) by (apply N.Div0.div_lt_upper_bound; lia).
  rewrite (digit_small _ Hq). unfold digit, decimal_value. cbn [fold_left].
  pose proof (N.Div0.div_mod n 10) as E1.
  pose proof (N.Div0.div_mod (n / 10) 10) as E2.
  pose proof (N.Div0.div_mod (n / 100) 10) as E3.
  rewrite N.Div0.div_div in E2. change (10 * 10)%N with 100%N in E2.
  replace (n / 100 / 10)%N with (n / 1000)%N in E3
    by (now rewrite N.Div0.div_div).
  assert (H1 : (n mod 10 < 10)%N) by (apply N.mod_upper_bound; discriminate).
  assert (H2 : ((n / 10) mod 10 < 10)%N)
    by (apply N.mod_upper_bound; discriminate).
  assert (H3 : ((n / 100) mod 10 < 10)%N)
    by (apply N.mod_upper_bound; discriminate).
  revert E1 E2 E3 Hq H1 H2 H3.
  generalize (n mod 10)%N ((n / 10) mod 10)%N ((n / 100) mod 10)%N.
  generalize (n / 10)%N (n / 100)%N (n / 1000)%N.
  intros q1 q2 q3 r1 r2 r3 E1 E2 E3 Hq H1 H2 H3. lia.
Qed.

Lemma strftime_record_reads (t : datetime) :
  datetime_valid t -> record_stamp_of t (strftime_record t).
Proof.
  intros [Hy [Hm [Hd [HH [HM HS]]]]].
  exists (pad4 (year t)), (pad2 (month t)), (pad2 (day t)),
    (pad2 (hour t)), (pad2 (minute t)), (pad2 (second t)).
  repeat split; try reflexivity;
    try (apply reads_as_pad4; lia); try (apply reads_as_pad2; lia).
Qed.

Lemma strftime_file_reads (t : datetime) :
  datetime_valid t -> file_stamp_of t (strftime_file t).
Proof.
  intros [Hy [Hm [Hd [HH [HM HS]]]]].
  exists (pad4 (year t)), (pad2 (month t)), (pad2 (day t)),
    (pad2 (hour t)), (pad2 (minute t)), (pad2 (second t)).
  repeat split; try reflexivity;
    try (apply reads_as_pad4; lia); try (apply reads_as_pad2; lia).
Qed.

(** ** What the record store returns and leaves *)

Lemma dict_get_stamped (w : world) (s : state) (default : value) :
  dict_get (record (stamped w s)) (py "ashram_name") default
  = dict_get (record s) (py "ashram_name") default.
Proof.
  unfold dict_get, stamped. cbn [record].
  rewrite lookup_dict_set_other; [reflexivity|discriminate].
Qed.

(** The call when the directory is there and the subject is a string. *)
Lemma save_survey_data_string_subject (w : world) (s : state)
  (subject : pystr) :
  makedirs_raises w = None ->
  dict_get (record s) (py "ashram_name") (VStr (py "Unknown_Ashram"))
  = VStr subject ->
  let s1 := stamped w s in
  let flat_entry := flatten_nested_dict (record s1) [] sep_default in
  let filename := artifact_name w (sanitize_filename subject) in
  let file_path := (SURVEY_RESULTS_DIR, filename) in
  exists cells,
    Forall2 (fun l c => lookup l flat_entry = Some c)
      (column_order (keys flat_entry)) cells
    /\ let content :=
         {| header := map excel_text (column_order (keys flat_entry));
            data_rows := [map excel_cell cells] |}
       in
       save_survey_data w s
       = match to_excel_raises w with
         | Some e => (Ok false, with_screen s1 (ErrorSaving e))
         | None =>
             match open_raises w with
             | Some e =>
                 (Ok false,
                  with_screen (with_file s1 file_path content) (ErrorSaving e))
             | None =>
                 (Ok true,
                  with_screen (with_file s1 file_path content)
                    (Saved filename content))
             end
         end.
Proof.
  intros Hd Hs s1 flat_entry filename file_path.
  destruct (stamped_select w s) as [cells [Hsel Hcells]].
  exists cells. split; [exact Hcells|]. cbv zeta.
  rewrite save_survey_data_run, Hd. cbv zeta.
  rewrite dict_get_stamped, Hs. cbn [call_sanitize_filename].
  rewrite save_guarded_run. cbv zeta.
  unfold flat_entry, s1. rewrite Hsel. reflexivity.
Qed.

(** C3, as the code has it.  An error of directory creation is raised
    before the guarded block and leaves [save_survey_data] as it is, with
    nothing shown.  Once the directory is there and the subject is a
    string, every error of the guarded block (the write or encoding, the
    reading back) is caught: the call returns [False] and shows the error,
    and it returns [True] with the success message exactly when neither
    fails. *)
Theorem save_survey_data_guard :
  (forall (w : world) (s : state) (e : exn),
      makedirs_raises w = Some e -> save_survey_data w s = (Raise e, s))
  /\ (forall (w : world) (s : state) (subject : pystr),
        makedirs_raises w = None ->
        dict_get (record s) (py "ashram_name") (VStr (py "Unknown_Ashram"))
        = VStr subject ->
        exists b s',
          save_survey_data w s = (Ok b, s')
          /\ (b = true <-> to_excel_raises w = None /\ open_raises w = None)
          /\ (b = false ->
              exists e,
                screen s' = screen s ++ [ErrorSaving e]
                /\ (to_excel_raises w = Some e
                    \/ (to_excel_raises w = None /\ open_raises w = Some e)))
          /\ (b = true ->
              exists filename content,
                screen s' = screen s ++ [Saved filename content])).
Proof.
  split.
  - intros w s e H. rewrite save_survey_data_run, H. reflexivity.
  - intros w s subject Hd Hs.
    destruct (save_survey_data_string_subject w s subject Hd Hs)
      as [cells [_ E]].
    cbv zeta in E. rewrite E.
    destruct (to_excel_raises w) as [e|]; [|destruct (open_raises w) as [e|]];
      eexists; eexists; (split; [reflexivity|]).
    + split; [split; [discriminate|intros [? _]; discriminate]|].
      split; [|discriminate]. intros _. exists e. split; auto.
    + split; [split; [discriminate|intros [_ ?]; discriminate]|].
      split; [|discriminate]. intros _. exists e. split; auto.
    + split; [tauto|]. split; [discriminate|].
      intros _. eexists; eexists. reflexivity.
Qed.

Lemma save_survey_data_guard_witness :
  makedirs_raises world_write_fails = None
  /\ dict_get (record (called_with st_mary_record)) (py "ashram_name")
       (VStr (py "Unknown_Ashram"))
     = VStr (py "St. Mary")
  /\ exists b s',
       save_survey_data world_write_fails (called_with st_mary_record)
       = (Ok b, s')
       /\ (b = true <->
           to_excel_raises world_write_fails = None
           /\ open_raises world_write_fails = None).
Proof.
  split; [reflexivity|]. split; [reflexivity|].
  destruct (proj2 save_survey_data_guard world_write_fails
              (called_with st_mary_record) (py "St. Mary")
              eq_refl eq_refl) as [b [s' [E [Hb _]]]].
  exists b, s'. split; assumption.
Defined.

(** C3 as stated fails: when the results directory cannot be created the
    error leaves [save_survey_data], and the page run that submitted, with
    no message shown. *)
Lemma directory_error_escapes :
  save_survey_data world_no_directory (called_with st_mary_record)
  = (Raise OSError, called_with st_mary_record)
  /\ fst (main world_no_directory (ui_submit Property (py "St. Mary"))
            started_state)
     = Raise OSError
  /\ screen (snd (main world_no_directory (ui_submit Property (py "St. Mary"))
                    started_state))
     = [].
Proof. split; [|split]; vm_compute; reflexivity. Qed.

(** C5, as the code has it.  When nothing fails, saving the record that
    holds only the ashram name St. Mary writes one file into the results
    directory, named St. Mary, an underscore, the second clock reading and
    the extension: the dot and the space of the name are kept.  Its header
    row is [timestamp], [ashram_name]; its one data row is the first clock
    reading and the name. *)
Theorem st_mary_artifact (w : world) (s : state) :
  makedirs_raises w = None ->
  to_excel_raises w = None ->
  open_raises w = None ->
  record s = st_mary_record ->
  exists s',
    save_survey_data w s = (Ok true, s')
    /\ disk s'
       = ((SURVEY_RESULTS_DIR,
           py "St. Mary_" ++ strftime_file (now_name w) ++ py ".xlsx"),
          {| header := [py "timestamp"; py "ashram_name"];
             data_rows :=
               [[VStr (strftime_record (now_stamp w));
                 VStr (py "St. Mary")]] |})
         :: disk s.
Proof.
  intros Hd Hx Ho Hr.
  assert (Hs : dict_get (record s) (py "ashram_name")
                 (VStr (py "Unknown_Ashram")) = VStr (py "St. Mary"))
    by (rewrite Hr; reflexivity).
  destruct (save_survey_data_string_subject w s (py "St. Mary") Hd Hs)
    as [cells [Hc E]].
  cbv zeta in E. rewrite Hx, Ho in E. rewrite E. eexists. split; [reflexivity|].
  unfold with_screen, with_file. cbn [disk stamped].
  assert (Hflat :
    flatten_nested_dict (record (stamped w s)) [] sep_default
    = [ (py "ashram_name", VStr (py "St. Mary"));
        (py "timestamp", VStr (strftime_record (now_stamp w))) ]).
  { unfold stamped. cbn [record]. rewrite Hr.
    rewrite flatten_nested_dict_eq.
    change (dict_set st_mary_record (py "timestamp")
              (VStr (strftime_record (now_stamp w))))
      with [ (py "ashram_name", VStr (py "St. Mary"));
             (py "timestamp", VStr (strftime_record (now_stamp w))) ].
    cbn [flat_map flatten_item snd fst app new_key].
    rewrite normalize_strftime_record.
    generalize (strftime_record (now_stamp w)). intro stamp.
    reflexivity. }
  rewrite Hflat in Hc |- *.
  change (column_order (keys _))
    with [py "timestamp"; py "ashram_name"] in Hc |- *.
  inversion Hc as [|l1 c1 ls1 cs1 H1 Hc1]; subst.
  inversion Hc1 as [|l2 c2 ls2 cs2 H2 Hc2]; subst.
  inversion Hc2; subst.
  cbn in H1, H2. injection H1 as <-. injection H2 as <-.
  reflexivity.
Qed.

Lemma st_mary_artifact_witness :
  makedirs_raises world_ok = None
  /\ to_excel_raises world_ok = None
  /\ open_raises world_ok = None
  /\ record (called_with st_mary_record) = st_mary_record
  /\ exists s',
       save_survey_data world_ok (called_with st_mary_record) = (Ok true, s')
       /\ disk s'
          = ((SURVEY_RESULTS_DIR,
              py "St. Mary_" ++ strftime_file (now_name world_ok)
              ++ py ".xlsx"),
             {| header := [py "timestamp"; py "ashram_name"];
                data_rows :=
                  [[VStr (strftime_record (now_stamp world_ok));
                    VStr (py "St. Mary")]] |})
            :: disk (called_with st_mary_record).
Proof.
  repeat (split; [reflexivity|]).
  exact (st_mary_artifact world_ok (called_with st_mary_record)
           eq_refl eq_refl eq_refl eq_refl).
Defined.

(** C5 as stated fails: the file written for St. Mary is not named
    St__Mary, an underscore, a time stamp and the extension. *)
Lemma st_mary_filename_counterexample :
  ~ exists (stamp : pystr) (content : sheet) (s' : state),
      save_survey_data world_ok (called_with st_mary_record) = (Ok true, s')
      /\ disk s'
         = [ ((SURVEY_RESULTS_DIR, py "St__Mary_" ++ stamp ++ py ".xlsx"),
              content) ].
Proof.
  intros [stamp [content [s' [H1 H2]]]].
  vm_compute in H1. injection H1 as <-.
  vm_compute in H2. injection H2 as Hname _. discriminate Hname.
Qed.

(** C8, as the code has it.  Once the results directory is there,
    [save_survey_data] stamps the record with the first clock reading
    written as date and time.  When the subject is a string (the
    [ashram_name] of the record, or [Unknown_Ashram] when the record has no
    such key), the guarded block is run for the file named by the sanitized
    subject, an underscore, the second clock reading written as digits,
    and the extension: the file is written under that name when the write
    does not fail, and the success message carries the name when reading
    back does not fail either; for a record without the key [ashram_name]
    the name starts with [Unknown_Ashram_]. *)
Theorem save_survey_data_stamp_and_name (w : world) (s : state) :
  makedirs_raises w = None ->
  datetime_valid (now_stamp w) ->
  datetime_valid (now_name w) ->
  let s' := snd (save_survey_data w s) in
  (exists stamp : pystr,
      lookup (py "timestamp") (record s') = Some (VStr stamp)
      /\ record_stamp_of (now_stamp w) stamp)
  /\ forall subject : pystr,
       dict_get (record s) (py "ashram_name") (VStr (py "Unknown_Ashram"))
       = VStr subject ->
       exists file_stamp filename : pystr,
         filename
         = sanitize_filename subject ++ py "_" ++ file_stamp ++ py ".xlsx"
         /\ file_stamp_of (now_name w) file_stamp
         /\ save_survey_data w s
            = try_except
                (save_guarded w filename (SURVEY_RESULTS_DIR, filename))
                (fun e => show (ErrorSaving e) ;; ret false)
                (stamped w s)
         /\ (to_excel_raises w = None ->
             exists content,
               disk s' = ((SURVEY_RESULTS_DIR, filename), content) :: disk s)
         /\ (to_excel_raises w = None -> open_raises w = None ->
             exists content,
               fst (save_survey_data w s) = Ok true
               /\ screen s' = screen s ++ [Saved filename content])
         /\ (lookup (py "ashram_name") (record s) = None ->
             subject = py "Unknown_Ashram"
             /\ starts_with (py "Unknown_Ashram_") filename = true).
Proof.
  intros Hd Hv1 Hv2 s'. subst s'. split.
  - exists (strftime_record (now_stamp w)). split.
    + rewrite save_survey_data_record, Hd. apply lookup_dict_set_same.
    + now apply strftime_record_reads.
  - intros subject Hs.
    destruct (save_survey_data_string_subject w s subject Hd Hs)
      as [cells [_ E]].
    cbv zeta in E.
    exists (strftime_file (now_name w)). eexists.
    split; [reflexivity|].
    split; [now apply strftime_file_reads|].
    split.
    { rewrite save_survey_data_run, Hd. cbv zeta.
      rewrite dict_get_stamped, Hs. reflexivity. }
    split.
    { intro Hx. rewrite E, Hx.
      destruct (open_raises w); eexists; reflexivity. }
    split.
    { intros Hx Ho. rewrite E, Hx, Ho. eexists. split; reflexivity. }
    intro Hn. unfold dict_get in Hs. rewrite Hn in Hs. injection Hs as <-.
    split; reflexivity.
Qed.

Lemma save_survey_data_stamp_and_name_witness :
  makedirs_raises world_ok = None
  /\ datetime_valid (now_stamp world_ok)
  /\ datetime_valid (now_name world_ok)
  /\ dict_get (record (called_with [])) (py "ashram_name")
       (VStr (py "Unknown_Ashram"))
     = VStr (py "Unknown_Ashram")
  /\ exists (stamp filename : pystr) (content : sheet),
       lookup (py "timestamp")
         (record (snd (save_survey_data world_ok (called_with []))))
       = Some (VStr stamp)
       /\ disk (snd (save_survey_data world_ok (called_with [])))
          = [((SURVEY_RESULTS_DIR, filename), content)]
       /\ starts_with (py "Unknown_Ashram_") filename = true.
Proof.
  assert (V1 : datetime_valid (now_stamp world_ok))
    by (unfold datetime_valid; simpl; lia).
  assert (V2 : datetime_valid (now_name world_ok))
    by (unfold datetime_valid; simpl; lia).
  repeat (split; [first [reflexivity | assumption]|]).
  destruct (save_survey_data_stamp_and_name world_ok (called_with [])
              eq_refl V1 V2) as [[stamp [Hstamp _]] Hname].
  destruct (Hname (py "Unknown_Ashram") eq_refl)
    as [fs [filename [_ [_ [_ [Hdisk [_ Hn]]]]]]].
  destruct (Hdisk eq_refl) as [content Hc].
  exists stamp, filename, content.
  split; [exact Hstamp|]. split; [exact Hc|].
  exact (proj2 (Hn eq_refl)).
Defined.

(** C8 as stated fails: when the results directory cannot be created,
    saving a record with no [ashram_name] raises before the stamp is set
    and before a name is built, and no file is there; and a record whose
    [ashram_name] is [None] is stamped, but the call raises [TypeError]
    instead of naming a file. *)
Lemma no_directory_no_stamp_no_name :
  save_survey_data world_no_directory (called_with [])
  = (Raise OSError, called_with [])
  /\ lookup (py "timestamp")
       (record (snd (save_survey_data world_no_directory (called_with []))))
     = None
  /\ disk (snd (save_survey_data world_no_directory (called_with []))) = []
  /\ fst (save_survey_data world_ok
            (called_with [(py "ashram_name", VNone)]))
     = Raise TypeError
  /\ disk (snd (save_survey_data world_ok
                  (called_with [(py "ashram_name", VNone)])))
     = [].
Proof. repeat split; vm_compute; reflexivity. Qed.

Lemma save_survey_data_stamps_record_witness :
  makedirs_raises world_write_fails = None
  /\ lookup (py "timestamp")
       (record (snd (save_survey_data world_write_fails
                       (called_with st_mary_record))))
     = Some (VStr (strftime_record (now_stamp world_write_fails)))
  /\ lookup (py "ashram_name")
       (record (snd (save_survey_data world_write_fails
                       (called_with st_mary_record))))
     = Some (VStr (py "St. Mary")).
Proof.
  split; [reflexivity|].
  destruct (save_survey_data_stamps_record world_write_fails
              (called_with st_mary_record)) as [Hframe [Hstamp _]].
  split.
  - exact (proj1 (proj2 (Hstamp eq_refl))).
  - rewrite Hframe; [reflexivity|discriminate].
Defined.

(** C9 as stated fails: when the results directory cannot be created
    the call raises and the record it was given has no [timestamp]. *)
Lemma record_not_stamped_without_directory :
  fst (save_survey_data world_no_directory (called_with st_mary_record))
  = Raise OSError
  /\ lookup (py "timestamp")
       (record (snd (save_survey_data world_no_directory
                       (called_with st_mary_record))))
     = None
  /\ record (snd (save_survey_data world_no_directory
                    (called_with st_mary_record)))
     = st_mary_record.
Proof. repeat split; vm_compute; reflexivity. Qed.

Lemma column_order_spec_witness :
  In (py "timestamp") (keys sample_flat_entry)
  /\ exists cells,
       select (DataFrame sample_flat_entry)
         (column_order (keys sample_flat_entry))
       = Ok {| columns := column_order (keys sample_flat_entry);
               row := cells |}.
Proof.
  assert (H : In (py "timestamp") (keys sample_flat_entry))
    by (right; right; left; reflexivity).
  split; [exact H|].
  destruct (column_order_spec sample_flat_entry H)
    as [blocks [cells [_ [_ [Hsel _]]]]].
  exists cells. exact Hsel.
Defined.

(** C1 fails on the code.  Saving a record that has the ashram name at the
    top and in the Property section, as every submission of the page has,
    orders the three keys of the flat mapping into four columns: the key
    of the Property section's ashram name holds the names of two sections
    and is listed under both, so the header that is written has it
    twice. *)
Theorem column_order_duplicates_key :
  let flat_entry :=
    flatten_nested_dict
      (record (stamped world_ok (called_with twice_named_record)))
      [] sep_default in
  keys flat_entry
  = [ py "ashram_name"; Property_ashram_name; py "timestamp" ]
  /\ column_order (keys flat_entry)
     = [ py "timestamp"; Property_ashram_name; py "ashram_name";
         Property_ashram_name ]
  /\ exists s',
       save_survey_data world_ok (called_with twice_named_record)
       = (Ok true, s')
       /\ map (fun f => header (snd f)) (disk s')
          = [ [ py "timestamp"; Property_ashram_name; py "ashram_name";
                Property_ashram_name ] ].
Proof.
  split; [vm_compute; reflexivity|].
  split; [vm_compute; reflexivity|].
  eexists. split; vm_compute; reflexivity.
Qed.

(** ** Survey controller *)

Lemma save_survey_data_session (w : world) (s : state) :
  session (snd (save_survey_data w s)) = session s.
Proof.
  rewrite save_survey_data_run.
  destruct (makedirs_raises w); [reflexivity|]. cbv zeta.
  destruct (call_sanitize_filename _); [|reflexivity].
  rewrite save_guarded_run. cbv zeta.
  destruct (select _ _); [|reflexivity].
  destruct (to_excel_raises w); [reflexivity|].
  destruct (open_raises w); reflexivity.
Qed.

Lemma submit_run (w : world) (s : state) :
  submit w s
  = let slots :=
      match survey_data (session s) with
      | Some d => d
      | None => []
      end in
    match getitem slots (category_name Property) with
    | Raise e => (Raise e, s)
    | Ok property =>
        match call_get property (py "ashram_name") NA with
        | Raise e => (Raise e, s)
        | Ok ashram_name =>
            match getitem slots (category_name TrustSociety) with
            | Raise e => (Raise e, s)
            | Ok trust =>
                match getitem slots (category_name Institutions) with
                | Raise e => (Raise e, s)
                | Ok institutions =>
                    let called :=
                      with_record s
                        (final_survey_data ashram_name property trust
                           institutions) in
                    (match fst (save_survey_data w called) with
                     | Ok _ => Ok tt
                     | Raise e => Raise e
                     end,
                     snd (save_survey_data w called))
                end
            end
        end
    end.
Proof.
  unfold submit, bind, get_session, lift, set_record, ret. cbv zeta.
  destruct (getitem _ (category_name Property)) as [property|e];
    [|reflexivity].
  destruct (call_get property _ _) as [ashram_name|e]; [|reflexivity].
  destruct (getitem _ (category_name TrustSociety)) as [trust|e];
    [|reflexivity].
  destruct (getitem _ (category_name Institutions)) as [institutions|e];
    [|reflexivity].
  unfold with_record, final_survey_data.
  destruct (save_survey_data w _) as [[b|e] s']; reflexivity.
Qed.

Lemma main_run (w : world) (u : ui) (s : state) :
  survey_started (session s) = true ->
  main w u s
  = if button u (py "Submit Entire Survey")
    then submit w (answers_stored u s)
    else (Ok tt, answers_stored u s).
Proof.
  intro H. unfold main, bind, get_session, set_session. rewrite H.
  cbn [negb]. unfold answers_stored, slots_of.
  destruct (button u (py "Submit Entire Survey")); reflexivity.
Qed.

Lemma main_not_started (w : world) (u : ui) (s : state) :
  survey_started (session s) = false ->
  main w u s
  = (Ok tt,
     if button u (py "Start Survey")
     then {| session := {| survey_started := true;
                           survey_data := survey_data (session s) |};
             record := record s; disk := disk s; screen := screen s |}
     else s).
Proof.
  intro H. unfold main, bind, get_session. rewrite H. cbn [negb].
  unfold start_page. destruct (button u (py "Start Survey")); reflexivity.
Qed.

Lemma category_name_inj (c1 c2 : category) :
  category_name c1 = category_name c2 -> c1 = c2.
Proof. destruct c1, c2; intro H; try reflexivity; discriminate H. Qed.

Lemma slots_of_answers_stored (u : ui) (s : state) :
  slots_of (answers_stored u s)
  = dict_set (slots_of s) (category_name (radio u))
      (VDict (categories (radio u) u)).
Proof. reflexivity. Qed.

Lemma slots_of_session (s s' : state) :
  session s' = session s -> slots_of s' = slots_of s.
Proof. unfold slots_of. now intros ->. Qed.

(** ** Keys of a flat mapping *)

Lemma starts_with_app (p x : pystr) : starts_with p (p ++ x) = true.
Proof.
  induction p as [|c p IH]; simpl; auto. now rewrite N.eqb_refl.
Qed.

Lemma starts_with_app_l (a b k : pystr) :
  starts_with (a ++ b) k = true -> starts_with a k = true.
Proof.
  revert k; induction a as [|c a IH]; intros k; simpl; auto.
  destruct k as [|y k]; [discriminate|].
  rewrite !andb_true_iff. intros [H1 H2]. auto.
Qed.

(** Under a prefix every key of the flat mapping starts with the prefix
    and the separator. *)
Lemma flatten_keys_prefix (sep : pystr) (v : value) :
  forall (d : dict) (prefix k : pystr),
    v = VDict d -> prefix <> [] ->
    In k (keys (flatten_nested_dict d prefix sep)) ->
    starts_with (prefix ++ sep) k = true.
Proof.
  induction v as [| | |d0 IH] using value_ind; try discriminate.
  intros d prefix k E Hp Hk. injection E as <-.
  rewrite flatten_nested_dict_eq in Hk.
  apply (proj1 (keys_dict_of_items _ _)) in Hk.
  apply in_map_iff in Hk. destruct Hk as [[k1 v1] [E1 Hin]].
  simpl in E1. subst k1. apply in_flat_map in Hin.
  destruct Hin as [[k0 v0] [Hd Hin]].
  rewrite Forall_forall in IH. specialize (IH (k0, v0) Hd).
  assert (Hnk : new_key prefix sep k0 = prefix ++ sep ++ k0)
    by (destruct prefix; [congruence|reflexivity]).
  unfold flatten_item in Hin. cbn [fst snd] in Hin, IH. rewrite Hnk in Hin.
  assert (Hleaf : In (k, v1) [(prefix ++ sep ++ k0, normalize v0)] ->
                  starts_with (prefix ++ sep) k = true).
  { intros [E|[]]. injection E as <- _.
    rewrite app_assoc. apply starts_with_app. }
  destruct v0 as [|s0|n0|d']; auto.
  apply (starts_with_app_l (prefix ++ sep) (k0 ++ sep)).
  rewrite <- !app_assoc.
  replace (prefix ++ sep ++ k0 ++ sep) with ((prefix ++ sep ++ k0) ++ sep)
    by (now rewrite <- !app_assoc).
  apply (IH d' (prefix ++ sep ++ k0) k eq_refl).
  - destruct prefix; [congruence|discriminate].
  - apply in_map_iff. exists (k, v1). auto.
Qed.

(** What one entry of the top level contributes has its key, or starts
    with its key and the separator. *)
Lemma top_entry_keys (sep k0 k : pystr) (v0 : value) :
  k0 <> [] ->
  In k (map fst (flatten_item [] sep (k0, v0))) ->
  k = k0 \/ starts_with (k0 ++ sep) k = true.
Proof.
  intros H0 Hin. unfold flatten_item in Hin. cbn [fst snd new_key] in Hin.
  destruct v0 as [|s0|n0|d'];
    try (destruct Hin as [<-|[]]; now left).
  right. apply (flatten_keys_prefix sep (VDict d') d' k0 k eq_refl H0 Hin).
Qed.

Lemma lookup_fold_dict_set (items acc : list (pystr * value)) (k : pystr) :
  lookup k (fold_left (fun d kv => dict_set d (fst kv) (snd kv)) items acc)
  = match lookup k (dict_of_items items) with
    | Some v => Some v
    | None => lookup k acc
    end.
Proof.
  unfold dict_of_items.
  revert acc; induction items as [|[k' v'] tl IH]; intro acc; simpl; auto.
  rewrite (IH (dict_set acc k' v')), (IH [(k', v')]).
  match goal with
  | |- context [match ?x with Some _ => _ | None => lookup k [(k', v')] end] =>
      destruct x as [v|]; auto
  end.
  simpl. destruct (pystr_eqb k' k) eqn:E.
  - apply pystr_eqb_eq in E. subst. apply lookup_dict_set_same.
  - apply lookup_dict_set_other. apply pystr_eqb_neq in E. congruence.
Qed.

Lemma keys_nodup_dict_set (d : dict) (k : pystr) (v : value) :
  NoDup (keys d) -> NoDup (keys (dict_set d k v)).
Proof.
  induction d as [|[k' v'] tl IH]; simpl; intro H.
  - repeat constructor. tauto.
  - apply NoDup_cons_iff in H. destruct H as [H1 H2].
    destruct (pystr_eqb k' k) eqn:E; simpl.
    + now constructor.
    + constructor; auto. rewrite keys_dict_set.
      apply pystr_eqb_neq in E. intuition.
Qed.

(** A dictionary has each key once. *)
Lemma keys_nodup_dict_of_items (items : list (pystr * value)) :
  NoDup (keys (dict_of_items items)).
Proof.
  unfold dict_of_items.
  assert (G : forall acc, NoDup (keys acc) ->
              NoDup (keys (fold_left
                             (fun d kv => dict_set d (fst kv) (snd kv))
                             items acc))).
  { induction items as [|[k v] tl IH]; intros acc H; simpl; auto.
    apply IH. now apply keys_nodup_dict_set. }
  apply G. constructor.
Qed.

Lemma flatten_nested_dict_nodup (d : dict) (prefix sep : pystr) :
  NoDup (keys (flatten_nested_dict d prefix sep)).
Proof. rewrite flatten_nested_dict_eq. apply keys_nodup_dict_of_items. Qed.

Lemma dict_of_items_flatten (d : dict) (prefix sep : pystr) :
  dict_of_items (flatten_nested_dict d prefix sep)
  = flatten_nested_dict d prefix sep.
Proof. apply dict_of_items_nodup, flatten_nested_dict_nodup. Qed.

(** ** The submitted record *)

Lemma property_survey_eq (u : ui) :
  property_survey u
  = (py "ashram_name", VStr (text_input u (py "ashram_name")))
    :: map (fun key => (key, VDict (input_section u key true)))
         property_keys.
Proof. reflexivity. Qed.

Lemma dict_get_property_survey (u : ui) :
  dict_get (property_survey u) (py "ashram_name") NA
  = VStr (text_input u (py "ashram_name")).
Proof. reflexivity. Qed.

(** In the flattened Property section the ashram name is under the key of
    the section, the separator and [ashram_name]. *)
Lemma lookup_flatten_property (u : ui) :
  lookup Property_ashram_name
    (flatten_nested_dict (property_survey u) (category_name Property)
       sep_default)
  = Some (normalize (VStr (text_input u (py "ashram_name")))).
Proof.
  rewrite flatten_nested_dict_eq, property_survey_eq.
  cbn [flat_map]. unfold flatten_item at 1. cbn [fst snd].
  apply (lookup_dict_of_items_last []).
  intro Hin. apply in_map_iff in Hin. destruct Hin as [[k v] [E Hin]].
  simpl in E. subst k. apply in_flat_map in Hin.
  destruct Hin as [[k0 v0] [H0 Hin]].
  apply in_map_iff in H0. destruct H0 as [key [E Hkey]].
  injection E as <- <-. unfold flatten_item in Hin. cbn [fst snd] in Hin.
  assert (Hp : starts_with
                 (new_key (category_name Property) sep_default key
                  ++ sep_default) Property_ashram_name = true).
  { apply (flatten_keys_prefix sep_default
             (VDict (input_section u key true)) (input_section u key true)
             _ _ eq_refl).
    - discriminate.
    - apply in_map_iff. exists (Property_ashram_name, v). auto. }
  assert (Hall : forallb
                   (fun key =>
                      negb (starts_with
                              (new_key (category_name Property) sep_default key
                               ++ sep_default) Property_ashram_name))
                   property_keys = true) by (vm_compute; reflexivity).
  rewrite forallb_forall in Hall. specialize (Hall key Hkey).
  rewrite Hp in Hall. discriminate.
Qed.

Lemma extra_entry_keys (sep k : pystr) (extra : dict) :
  (forall kv, In kv extra ->
              fst kv = py "timestamp"
              /\ match snd kv with VDict _ => False | _ => True end) ->
  In k (map fst (flat_map (flatten_item [] sep) extra)) ->
  k = py "timestamp".
Proof.
  intros H Hin. apply in_map_iff in Hin. destruct Hin as [[k1 v1] [E Hin]].
  simpl in E. subst k1. apply in_flat_map in Hin.
  destruct Hin as [[k0 v0] [H0 Hin]].
  destruct (H _ H0) as [Hk Hv]. unfold flatten_item in Hin.
  cbn [fst snd new_key] in *. subst k0.
  destruct v0; try tauto; destruct Hin as [E|[]]; now injection E.
Qed.

Lemma lookup_in_items (na v : value) (FP ET EI EX : list (pystr * value)) :
  (forall k, In k (map fst FP) ->
             starts_with (category_name Property ++ sep_default) k = true) ->
  (forall k, In k (map fst ET) ->
             k = category_name TrustSociety
             \/ starts_with (category_name TrustSociety ++ sep_default) k
                = true) ->
  (forall k, In k (map fst EI) ->
             k = category_name Institutions
             \/ starts_with (category_name Institutions ++ sep_default) k
                = true) ->
  (forall k, In k (map fst EX) -> k = py "timestamp") ->
  lookup Property_ashram_name (dict_of_items FP) = Some v ->
  lookup (py "ashram_name")
    (dict_of_items ((py "ashram_name", na) :: FP ++ ET ++ EI ++ EX))
  = Some na
  /\ lookup Property_ashram_name
       (dict_of_items ((py "ashram_name", na) :: FP ++ ET ++ EI ++ EX))
     = Some v.
Proof.
  intros HP HT HI HX HFP.
  assert (Hrest : forall k,
            In k (map fst (ET ++ EI ++ EX)) ->
            k = category_name TrustSociety
            \/ starts_with (category_name TrustSociety ++ sep_default) k = true
            \/ k = category_name Institutions
            \/ starts_with (category_name Institutions ++ sep_default) k = true
            \/ k = py "timestamp").
  { intros k Hk. rewrite !map_app in Hk.
    apply in_app_or in Hk. destruct Hk as [Hk|Hk].
    - destruct (HT k Hk) as [H|H]; [left; exact H|right; left; exact H].
    - apply in_app_or in Hk. destruct Hk as [Hk|Hk].
      + destruct (HI k Hk) as [H|H];
          [right; right; left; exact H|right; right; right; left; exact H].
      + right; right; right; right. exact (HX k Hk). }
  split.
  - apply (lookup_dict_of_items_last []).
    rewrite map_app. intro Hin. apply in_app_or in Hin.
    destruct Hin as [Hin|Hin].
    + apply HP in Hin. vm_compute in Hin. discriminate Hin.
    + apply Hrest in Hin.
      destruct Hin as [H|[H|[H|[H|H]]]]; vm_compute in H; discriminate H.
  - change ((py "ashram_name", na) :: FP ++ ET ++ EI ++ EX)
      with (((py "ashram_name", na) :: FP) ++ ET ++ EI ++ EX).
    unfold dict_of_items. rewrite fold_left_app.
    rewrite lookup_fold_dict_set_absent.
    + cbn [fold_left fst snd app]. rewrite lookup_fold_dict_set.
      now rewrite HFP.
    + intro Hin. apply Hrest in Hin.
      destruct Hin as [H|[H|[H|[H|H]]]]; vm_compute in H; discriminate H.
Qed.

(** The two places of the ashram name in the flattened submitted record,
    whatever the two other sections hold, stamped or not. *)
Lemma lookup_flatten_final (u : ui) (t i : value) (extra : dict) :
  (forall kv, In kv extra ->
              fst kv = py "timestamp"
              /\ match snd kv with VDict _ => False | _ => True end) ->
  let a := VStr (text_input u (py "ashram_name")) in
  let flat :=
    flatten_nested_dict
      (final_survey_data a (VDict (property_survey u)) t i ++ extra)
      [] sep_default in
  lookup (py "ashram_name") flat = Some (normalize a)
  /\ lookup Property_ashram_name flat = Some (normalize a).
Proof.
  intros Hextra a flat. subst flat a.
  rewrite flatten_nested_dict_eq. unfold final_survey_data.
  cbn [app flat_map].
  change (flatten_item [] sep_default
            (py "ashram_name", VStr (text_input u (py "ashram_name"))))
    with [(py "ashram_name", normalize (VStr (text_input u (py "ashram_name"))))].
  change (flatten_item [] sep_default
            (category_name Property, VDict (property_survey u)))
    with (flatten_nested_dict (property_survey u) (category_name Property)
            sep_default).
  cbn [app].
  apply lookup_in_items.
  - intros k Hk.
    apply (flatten_keys_prefix sep_default (VDict (property_survey u))
             (property_survey u) _ k eq_refl); [discriminate|exact Hk].
  - intros k Hk.
    apply (top_entry_keys sep_default _ k t); [discriminate|exact Hk].
  - intros k Hk.
    apply (top_entry_keys sep_default _ k i); [discriminate|exact Hk].
  - intros k Hk. exact (extra_entry_keys sep_default k extra Hextra Hk).
  - rewrite dict_of_items_flatten. apply lookup_flatten_property.
Qed.

(** ** Sessions *)

Lemma initial_slots_inv : slots_inv initial_survey_data.
Proof. split; [reflexivity|left; reflexivity]. Qed.

Lemma slots_of_inv (s : state) : session_inv s -> slots_inv (slots_of s).
Proof.
  unfold session_inv, slots_of.
  destruct (survey_data (session s)); auto. intros _. apply initial_slots_inv.
Qed.

Lemma answers_stored_inv (u : ui) (s : state) :
  session_inv s -> session_inv (answers_stored u s).
Proof.
  intro H. apply slots_of_inv in H. destruct H as [Hk Hp].
  unfold session_inv, answers_stored. cbn [session survey_data]. split.
  - rewrite keys_dict_set_present; auto.
    rewrite Hk. destruct (radio u); simpl; auto.
  - destruct (radio u) eqn:E.
    + right. exists u. cbn [categories]. apply lookup_dict_set_same.
    + rewrite lookup_dict_set_other by discriminate. exact Hp.
    + rewrite lookup_dict_set_other by discriminate. exact Hp.
Qed.

Lemma submit_session (w : world) (s : state) :
  session (snd (submit w s)) = session s.
Proof.
  rewrite submit_run. cbv zeta.
  destruct (getitem _ (category_name Property)); [|reflexivity].
  destruct (call_get _ _ _); [|reflexivity].
  destruct (getitem _ (category_name TrustSociety)); [|reflexivity].
  destruct (getitem _ (category_name Institutions)); [|reflexivity].
  cbn [snd]. now rewrite save_survey_data_session.
Qed.

Lemma main_session (w : world) (u : ui) (s : state) :
  survey_started (session s) = true ->
  session (snd (main w u s)) = session (answers_stored u s).
Proof.
  intro H. rewrite (main_run w u s H).
  destruct (button u (py "Submit Entire Survey")); [|reflexivity].
  apply submit_session.
Qed.

(** Every session keeps the three slots, the Property slot empty or
    filled by [property_survey]. *)
Lemma reachable_inv (s : state) : reachable s -> session_inv s.
Proof.
  induction 1 as [|s s' w u r Hreach IH Hrun].
  - exact I.
  - destruct (survey_started (session s)) eqn:E.
    + assert (Hs : session s' = session (answers_stored u s)).
      { rewrite <- (main_session w u s E). now rewrite Hrun. }
      pose proof (answers_stored_inv u s IH) as Hinv.
      unfold session_inv in *. now rewrite Hs.
    + rewrite (main_not_started w u s E) in Hrun.
      injection Hrun as _ <-.
      destruct (button u (py "Start Survey")); auto.
Qed.

Lemma getitem_slots (d : dict) (c : category) :
  slots_inv d -> exists v, getitem d (category_name c) = Ok v.
Proof.
  intros [Hk _]. unfold getitem.
  destruct (lookup (category_name c) d) as [v|] eqn:E; eauto.
  apply lookup_None_iff in E. exfalso. apply E. rewrite Hk.
  destruct c; simpl; auto.
Qed.

(** A run with the submit button pressed and the Property slot filled
    calls the record store on the record built from the slots. *)
Lemma submit_reaches_store (w : world) (u : ui) (s : state) :
  reachable s ->
  survey_started (session s) = true ->
  button u (py "Submit Entire Survey") = true ->
  (exists p, property_slot (answers_stored u s) = Some (VDict p)) ->
  exists (u' : ui) (t i : value),
    let called :=
      with_record (answers_stored u s)
        (final_survey_data (VStr (text_input u' (py "ashram_name")))
           (VDict (property_survey u')) t i) in
    property_slot (answers_stored u s) = Some (VDict (property_survey u'))
    /\ lookup (category_name TrustSociety) (slots_of (answers_stored u s))
       = Some t
    /\ lookup (category_name Institutions) (slots_of (answers_stored u s))
       = Some i
    /\ main w u s
       = (match fst (save_survey_data w called) with
          | Ok _ => Ok tt
          | Raise e => Raise e
          end,
          snd (save_survey_data w called)).
Proof.
  intros Hreach Hs Hb [p Hp].
  pose proof (answers_stored_inv u s (reachable_inv s Hreach)) as Hinv.
  rewrite (main_run w u s Hs), Hb, submit_run. cbv zeta.
  unfold property_slot, slots_of in *. unfold session_inv in Hinv.
  destruct (survey_data (session (answers_stored u s))) as [slots|] eqn:Eslots;
    [|discriminate].
  destruct Hinv as [Hk Hprop].
  assert (Hu : exists u', lookup (category_name Property) slots
                          = Some (VDict (property_survey u'))).
  { destruct Hprop as [Hn|[u' Hu']]; [congruence|]. now exists u'. }
  destruct Hu as [u' Hl]. clear Hp Hprop.
  unfold getitem at 1. rewrite Hl.
  cbn [call_get]. rewrite dict_get_property_survey.
  assert (Hinv : slots_inv slots)
    by (split; [exact Hk|right; exists u'; exact Hl]).
  destruct (getitem_slots slots TrustSociety Hinv) as [t Ht].
  destruct (getitem_slots slots Institutions Hinv) as [i Hi].
  rewrite Ht, Hi. exists u', t, i.
  unfold getitem in Ht, Hi.
  destruct (lookup (category_name TrustSociety) slots); [|discriminate].
  destruct (lookup (category_name Institutions) slots); [|discriminate].
  injection Ht as ->. injection Hi as ->. auto.
Qed.

(** The record the store is left with: the one it was called on, stamped
    unless the directory could not be made. *)
Lemma saved_record (w : world) (s : state) (a p t i : value) :
  exists extra,
    (forall kv, In kv extra ->
                fst kv = py "timestamp"
                /\ match snd kv with VDict _ => False | _ => True end)
    /\ (makedirs_raises w = None ->
        extra = [(py "timestamp", VStr (strftime_record (now_stamp w)))])
    /\ record (snd (save_survey_data w
                      (with_record s (final_survey_data a p t i))))
       = final_survey_data a p t i ++ extra.
Proof.
  rewrite save_survey_data_record.
  destruct (makedirs_raises w).
  - exists []. split; [intros kv []|]. split; [discriminate|].
    cbn [record with_record]. now rewrite app_nil_r.
  - exists [(py "timestamp", VStr (strftime_record (now_stamp w)))].
    split; [|split; [reflexivity|]].
    + intros kv [<-|[]]. split; [reflexivity|exact I].
    + unfold stamped. cbn [record with_record].
      apply dict_set_fresh. unfold final_survey_data. simpl.
      intros [H|[H|[H|[H|[]]]]]; discriminate H.
Qed.

(** C10.  In every run of the page in which the submit button is pressed
    and the Property section has been filled, the ashram name, which is
    the [ashram_name] answer of the Property slot, is in the record that
    is saved at the top and inside the Property section, and the record
    flattens to a mapping that has it under two different keys with the
    same value: [ashram_name], and the key of the Property section joined
    with [ashram_name], which holds both section names.  The value under
    both keys is the name as it was typed, or ['N/A'] when the name is
    empty or whitespace only. *)
Theorem ashram_name_flattened_twice (w : world) (u : ui) (s s' : state)
  (r : result unit) (p : dict) :
  reachable s ->
  survey_started (session s) = true ->
  button u (py "Submit Entire Survey") = true ->
  main w u s = (r, s') ->
  property_slot s' = Some (VDict p) ->
  let flat := flatten_nested_dict (record s') [] sep_default in
  exists name : pystr,
    lookup (py "ashram_name") p = Some (VStr name)
    /\ lookup (py "ashram_name") (record s') = Some (VStr name)
    /\ lookup (category_name Property) (record s') = Some (VDict p)
    /\ lookup (py "ashram_name") flat = Some (flattened_text name)
    /\ lookup Property_ashram_name flat = Some (flattened_text name)
    /\ py "ashram_name" <> Property_ashram_name
    /\ str_in (py "ashram_name") Property_ashram_name = true
    /\ str_in (category_name Property) Property_ashram_name = true.
Proof.
  intros Hreach Hs Hb Hrun Hp flat.
  assert (Hsess : session s' = session (answers_stored u s)).
  { rewrite <- (main_session w u s Hs). now rewrite Hrun. }
  assert (Hp' : property_slot (answers_stored u s) = Some (VDict p)).
  { unfold property_slot in *. now rewrite <- Hsess. }
  destruct (submit_reaches_store w u s Hreach Hs Hb
              (ex_intro _ p Hp'))
    as [u' [t [i [Hslot [_ [_ E]]]]]].
  rewrite Hp' in Hslot. injection Hslot as ->.
  cbv zeta in E. rewrite E in Hrun. injection Hrun as _ Hs'.
  destruct (saved_record w (answers_stored u s)
              (VStr (text_input u' (py "ashram_name")))
              (VDict (property_survey u')) t i)
    as [extra [Hextra [_ Hrec]]].
  exists (text_input u' (py "ashram_name")).
  unfold flat. rewrite <- Hs', Hrec.
  destruct (lookup_flatten_final u' t i extra Hextra) as [H1 H2].
  cbv zeta in H1, H2.
  rewrite normalize_blank in H1, H2 by exact I.
  split; [reflexivity|].
  split.
  { unfold final_survey_data. cbn [app lookup].
    now rewrite pystr_eqb_refl. }
  split.
  { assert (Hne : pystr_eqb (py "ashram_name") (category_name Property)
                  = false) by (vm_compute; reflexivity).
    unfold final_survey_data. cbn [app lookup].
    now rewrite Hne, pystr_eqb_refl. }
  split; [exact H1|]. split; [exact H2|].
  split; [discriminate|]. split; vm_compute; reflexivity.
Qed.

Lemma started_state_reachable : reachable started_state.
Proof.
  apply (reach_run initial_state started_state world_ok
           (ui_submit Property []) (Ok tt) reach_init).
  reflexivity.
Qed.

Lemma ashram_name_flattened_twice_witness :
  reachable started_state
  /\ survey_started (session started_state) = true
  /\ button (ui_submit Property (py "St. Mary")) (py "Submit Entire Survey")
     = true
  /\ property_slot
       (snd (main world_ok (ui_submit Property (py "St. Mary"))
               started_state))
     = Some (VDict (property_survey (ui_submit Property (py "St. Mary"))))
  /\ exists name : pystr,
       let flat :=
         flatten_nested_dict
           (record (snd (main world_ok (ui_submit Property (py "St. Mary"))
                           started_state)))
           [] sep_default in
       lookup (py "ashram_name")
         (property_survey (ui_submit Property (py "St. Mary")))
       = Some (VStr name)
       /\ lookup (py "ashram_name") flat = Some (flattened_text name)
       /\ lookup Property_ashram_name flat = Some (flattened_text name).
Proof.
  assert (Hp : property_slot
                 (snd (main world_ok (ui_submit Property (py "St. Mary"))
                         started_state))
               = Some (VDict (property_survey
                                (ui_submit Property (py "St. Mary"))))).
  { vm_compute. reflexivity. }
  split; [exact started_state_reachable|].
  split; [reflexivity|]. split; [reflexivity|]. split; [exact Hp|].
  destruct (ashram_name_flattened_twice world_ok
              (ui_submit Property (py "St. Mary")) started_state
              (snd (main world_ok (ui_submit Property (py "St. Mary"))
                      started_state))
              (fst (main world_ok (ui_submit Property (py "St. Mary"))
                      started_state))
              (property_survey (ui_submit Property (py "St. Mary")))
              started_state_reachable eq_refl eq_refl
              (surjective_pairing _) Hp)
    as [name [H0 [_ [_ [H1 [H2 _]]]]]].
  exists name. split; [exact H0|]. split; assumption.
Defined.

(** ** Submitting with sections not visited *)

(** A section left empty is one entry of the flat mapping, under the
    name of the section, with the value ['N/A']. *)
Lemma lookup_flatten_empty_section (a p t i : value) (extra : dict) :
  (forall kv, In kv extra ->
              fst kv = py "timestamp"
              /\ match snd kv with VDict _ => False | _ => True end) ->
  let flat :=
    flatten_nested_dict (final_survey_data a p t i ++ extra)
      [] sep_default in
  (t = VNone -> lookup (category_name TrustSociety) flat = Some NA)
  /\ (i = VNone -> lookup (category_name Institutions) flat = Some NA).
Proof.
  intros Hextra flat. subst flat.
  rewrite flatten_nested_dict_eq. unfold final_survey_data.
  cbn [app flat_map].
  assert (HX : forall k,
            In k (map fst (flat_map (flatten_item [] sep_default) extra)) ->
            k = py "timestamp").
  { intros k Hk. exact (extra_entry_keys sep_default k extra Hextra Hk). }
  split.
  - intros ->.
    change (flatten_item [] sep_default (category_name TrustSociety, VNone))
      with [(category_name TrustSociety, NA)].
    rewrite app_assoc. apply lookup_dict_of_items_last.
    rewrite map_app. intro Hin. apply in_app_or in Hin.
    destruct Hin as [Hin|Hin].
    + apply top_entry_keys in Hin; [|discriminate].
      destruct Hin as [H|H]; vm_compute in H; discriminate H.
    + apply HX in Hin. vm_compute in Hin. discriminate Hin.
  - intros ->.
    change (flatten_item [] sep_default (category_name Institutions, VNone))
      with [(category_name Institutions, NA)].
    rewrite !app_assoc. rewrite <- app_assoc.
    apply (lookup_dict_of_items_last _
             (flat_map (flatten_item [] sep_default) extra)).
    intro Hin. apply HX in Hin. vm_compute in Hin. discriminate Hin.
Qed.

(** The column of a key that holds ['N/A'] in the flat mapping, in the
    sheet that is written: every cell under that label holds ['N/A']. *)
Lemma forall2_excel_column (d : dict) (labels : list pystr)
  (cells : list value) (k : pystr) :
  (N.of_nat (List.length k) < EXCEL_CELL_LIMIT)%N ->
  lookup k d = Some NA ->
  Forall2 (fun l c => lookup l d = Some c) labels cells ->
  Forall2 (fun l v => l = k -> v = NA)
    (map excel_text labels) (map excel_cell cells).
Proof.
  intros Hk Hl.
  induction 1 as [|l c ls cs H0 _ IH]; cbn [map]; constructor; auto.
  intro E. apply take_short in E; [|exact Hk]. subst l.
  rewrite Hl in H0. injection H0 as <-. reflexivity.
Qed.

Lemma excel_text_category_name (c : category) :
  excel_text (category_name c) = category_name c
  /\ (N.of_nat (List.length (category_name c)) < EXCEL_CELL_LIMIT)%N.
Proof. destruct c; split; reflexivity. Qed.

(** A run with the submit button pressed, the Property slot filled and
    nothing failing returns and writes one file with one data row, whatever
    the two other slots hold; a section whose slot is still empty is one
    column of that row, under the name of the section, holding ['N/A']. *)
Lemma submission_saved (w : world) (u : ui) (s : state) :
  reachable s ->
  survey_started (session s) = true ->
  button u (py "Submit Entire Survey") = true ->
  (exists p, property_slot (answers_stored u s) = Some (VDict p)) ->
  makedirs_raises w = None ->
  to_excel_raises w = None ->
  open_raises w = None ->
  exists (u' : ui) (labels : list pystr) (cells : list value)
         (s' : state),
    let filename :=
      artifact_name w (sanitize_filename (text_input u' (py "ashram_name")))
    in
    main w u s = (Ok tt, s')
    /\ session s' = session (answers_stored u s)
    /\ property_slot (answers_stored u s)
       = Some (VDict (property_survey u'))
    /\ disk s'
       = ((SURVEY_RESULTS_DIR, filename),
          {| header := labels; data_rows := [cells] |}) :: disk s
    /\ screen s'
       = screen s
         ++ [Saved filename {| header := labels; data_rows := [cells] |}]
    /\ List.length cells = List.length labels
    /\ forall c : category,
         lookup (category_name c) (slots_of (answers_stored u s))
         = Some VNone ->
         In (category_name c) labels
         /\ Forall2 (fun l v => l = category_name c -> v = NA) labels cells.
Proof.
  intros Hreach Hs Hb Hp Hd Hx Ho.
  destruct (submit_reaches_store w u s Hreach Hs Hb Hp)
    as [u' [t [i [Hprop [Ht [Hi E]]]]]].
  cbv zeta in E. rewrite E. clear E.
  set (final := final_survey_data (VStr (text_input u' (py "ashram_name")))
                  (VDict (property_survey u')) t i).
  set (called := with_record (answers_stored u s) final).
  assert (Hsub : dict_get (record called) (py "ashram_name")
                   (VStr (py "Unknown_Ashram"))
                 = VStr (text_input u' (py "ashram_name")))
    by reflexivity.
  destruct (save_survey_data_string_subject w called _ Hd Hsub)
    as [cells [Hcells Hrun]].
  cbv zeta in Hrun. rewrite Hx, Ho in Hrun. rewrite Hrun. cbn [fst snd].
  exists u'. eexists. eexists. eexists. cbv zeta.
  split; [reflexivity|]. split; [reflexivity|]. split; [exact Hprop|].
  split; [reflexivity|]. split; [reflexivity|].
  split.
  { rewrite !length_map. symmetry. eapply Forall2_length. exact Hcells. }
  intros c Hc.
  destruct (saved_record w (answers_stored u s)
              (VStr (text_input u' (py "ashram_name")))
              (VDict (property_survey u')) t i)
    as [extra [Hextra [Hex Hrec]]].
  rewrite save_survey_data_record, Hd in Hrec. fold final called in Hrec.
  rewrite Hrec in Hcells |- *.
  destruct (lookup_flatten_empty_section
              (VStr (text_input u' (py "ashram_name")))
              (VDict (property_survey u')) t i extra Hextra) as [HT HI].
  fold final in HT, HI.
  assert (Hl : lookup (category_name c)
                 (flatten_nested_dict (final ++ extra) [] sep_default)
               = Some NA).
  { destruct c.
    - unfold property_slot, slots_of in *.
      destruct (survey_data (session (answers_stored u s))); congruence.
    - apply HT. congruence.
    - apply HI. congruence. }
  assert (Hin : In (category_name c)
                  (column_order
                     (keys (flatten_nested_dict (final ++ extra) []
                              sep_default)))).
  { apply column_order_keeps.
    destruct (in_dec (list_eq_dec N.eq_dec) (category_name c)
                (keys (flatten_nested_dict (final ++ extra) [] sep_default)))
      as [H|H]; auto.
    apply lookup_None_iff in H. congruence. }
  destruct (excel_text_category_name c) as [Hfit Hshort].
  split.
  - rewrite <- Hfit. apply in_map. exact Hin.
  - exact (forall2_excel_column _ _ _ _ Hshort Hl Hcells).
Qed.

(** ** Submitting on the page *)

Lemma page_reachable_reachable (s : state) :
  page_reachable s -> reachable s.
Proof.
  induction 1 as [|s s' w u r _ IH _ Hrun]; [constructor|].
  exact (reach_run s s' w u r IH Hrun).
Qed.

(** After line 275 of a run of the page the Property slot is filled. *)
Lemma answers_stored_page_inv (u : ui) (s : state) :
  page_inv s ->
  radio_drawn s u ->
  survey_started (session s) = true ->
  exists u',
    property_slot (answers_stored u s) = Some (VDict (property_survey u')).
Proof.
  intros Hinv Hr Hs.
  unfold property_slot, answers_stored, slots_of. cbn [session survey_data].
  unfold page_inv in Hinv.
  destruct (survey_data (session s)) as [d|] eqn:E.
  - destruct Hinv as [u0 H0]. destruct (radio u) eqn:Er.
    + exists u. apply lookup_dict_set_same.
    + exists u0. rewrite lookup_dict_set_other by discriminate. exact H0.
    + exists u0. rewrite lookup_dict_set_other by discriminate. exact H0.
  - rewrite (Hr Hs E). exists u. apply lookup_dict_set_same.
Qed.

Lemma page_reachable_inv (s : state) : page_reachable s -> page_inv s.
Proof.
  induction 1 as [|s s' w u r Hreach IH Hr Hrun].
  - exact I.
  - destruct (survey_started (session s)) eqn:E.
    + assert (Hsess : session s' = session (answers_stored u s)).
      { rewrite <- (main_session w u s E). now rewrite Hrun. }
      destruct (answers_stored_page_inv u s IH Hr E) as [u' Hu].
      unfold page_inv. rewrite Hsess. unfold property_slot in Hu.
      destruct (survey_data (session (answers_stored u s)));
        [exists u'; exact Hu|exact I].
    + rewrite (main_not_started w u s E) in Hrun.
      injection Hrun as _ <-.
      destruct (button u (py "Start Survey")); exact IH.
Qed.

Lemma visited_state_page_reachable : page_reachable visited_state.
Proof.
  apply (page_run started_state visited_state world_ok
           (ui_visit Property (py "St. Mary")) (Ok tt)).
  - apply (page_run initial_state started_state world_ok
             (ui_submit Property []) (Ok tt) page_init).
    + intro H. discriminate H.
    + reflexivity.
  - intros _ _. reflexivity.
  - rewrite main_run by reflexivity. reflexivity.
Qed.

(** C4, as the code has it.  On the page the Property slot is filled
    whenever the submit button can be pressed: the radio opens on the
    Property section and line 275 stores its answers before the button is
    drawn.  In every state the page can reach, a run with the submit
    button pressed in which directory creation, the write and the reading
    back do not fail returns, writes one file with a header and one data
    row of the same length, and shows the success message; every section
    whose slot is still empty, which is never the Property section, is in
    the header under its own name, and every cell under that name holds
    ['N/A']. *)
Theorem partial_submission_on_page (w : world) (u : ui) (s : state) :
  page_reachable s ->
  radio_drawn s u ->
  survey_started (session s) = true ->
  button u (py "Submit Entire Survey") = true ->
  makedirs_raises w = None ->
  to_excel_raises w = None ->
  open_raises w = None ->
  exists (filename : pystr) (labels : list pystr) (cells : list value)
         (s' : state),
    main w u s = (Ok tt, s')
    /\ disk s'
       = ((SURVEY_RESULTS_DIR, filename),
          {| header := labels; data_rows := [cells] |}) :: disk s
    /\ screen s'
       = screen s
         ++ [Saved filename {| header := labels; data_rows := [cells] |}]
    /\ List.length cells = List.length labels
    /\ (exists p, property_slot s' = Some (VDict p))
    /\ forall c : category,
         lookup (category_name c) (slots_of s') = Some VNone ->
         c <> Property
         /\ In (category_name c) labels
         /\ Forall2 (fun l v => l = category_name c -> v = NA) labels cells.
Proof.
  intros Hpage Hr Hs Hb Hd Hx Ho.
  destruct (answers_stored_page_inv u s (page_reachable_inv s Hpage) Hr Hs)
    as [u' Hu].
  destruct (submission_saved w u s (page_reachable_reachable s Hpage)
              Hs Hb (ex_intro _ _ Hu) Hd Hx Ho)
    as [u0 [labels [cells [s' [E [Hsess [_ [Hdisk [Hscr [Hlen Hcol]]]]]]]]]].
  cbv zeta in Hdisk, Hscr.
  eexists. exists labels, cells, s'.
  split; [exact E|]. split; [exact Hdisk|]. split; [exact Hscr|].
  split; [exact Hlen|].
  assert (Hslot : property_slot s' = Some (VDict (property_survey u'))).
  { unfold property_slot in *. now rewrite Hsess. }
  split; [eexists; exact Hslot|].
  intros c Hc. rewrite (slots_of_session _ _ Hsess) in Hc.
  split; [|exact (Hcol c Hc)].
  intros ->. unfold property_slot, slots_of in *.
  destruct (survey_data (session (answers_stored u s))); congruence.
Qed.

Lemma partial_submission_on_page_witness :
  page_reachable visited_state
  /\ radio_drawn visited_state (ui_submit Property (py "St. Mary"))
  /\ survey_started (session visited_state) = true
  /\ button (ui_submit Property (py "St. Mary")) (py "Submit Entire Survey")
     = true
  /\ makedirs_raises world_ok = None
  /\ to_excel_raises world_ok = None
  /\ open_raises world_ok = None
  /\ exists (filename : pystr) (labels : list pystr) (cells : list value)
            (s' : state),
       main world_ok (ui_submit Property (py "St. Mary")) visited_state
       = (Ok tt, s')
       /\ disk s'
          = [((SURVEY_RESULTS_DIR, filename),
              {| header := labels; data_rows := [cells] |})]
       /\ lookup (category_name Institutions) (slots_of s') = Some VNone
       /\ In (category_name Institutions) labels
       /\ Forall2 (fun l v => l = category_name Institutions -> v = NA)
            labels cells.
Proof.
  assert (Hr : radio_drawn visited_state (ui_submit Property (py "St. Mary")))
    by (intros _ _; reflexivity).
  split; [exact visited_state_page_reachable|]. split; [exact Hr|].
  repeat (split; [reflexivity|]).
  destruct (partial_submission_on_page world_ok
              (ui_submit Property (py "St. Mary")) visited_state
              visited_state_page_reachable Hr
              eq_refl eq_refl eq_refl eq_refl eq_refl)
    as [filename [labels [cells [s' [E [Hdisk [_ [_ [_ Hcol]]]]]]]]].
  assert (Hnull : lookup (category_name Institutions) (slots_of s')
                  = Some VNone).
  { replace s' with
      (snd (main world_ok (ui_submit Property (py "St. Mary"))
              visited_state)) by (rewrite E; reflexivity).
    vm_compute. reflexivity. }
  exists filename, labels, cells, s'.
  split; [exact E|]. split; [exact Hdisk|]. split; [exact Hnull|].
  exact (proj2 (Hcol Institutions Hnull)).
Defined.

(** C4 as stated fails: in a session the page reaches, with the
    Trust/Society and the Institutions slots still empty, a submission
    made when the results directory cannot be created ends in an error
    and leaves no file and no message. *)
Lemma partial_submission_without_directory :
  page_reachable visited_state
  /\ radio_drawn visited_state (ui_submit Property (py "St. Mary"))
  /\ lookup (category_name TrustSociety) (slots_of visited_state)
     = Some VNone
  /\ lookup (category_name Institutions) (slots_of visited_state)
     = Some VNone
  /\ fst (main world_no_directory (ui_submit Property (py "St. Mary"))
            visited_state)
     = Raise OSError
  /\ disk (snd (main world_no_directory
                  (ui_submit Property (py "St. Mary")) visited_state))
     = []
  /\ screen (snd (main world_no_directory
                    (ui_submit Property (py "St. Mary")) visited_state))
     = [].
Proof.
  split; [exact visited_state_page_reachable|].
  split; [intros _ _; reflexivity|].
  repeat split; vm_compute; reflexivity.
Qed.

(** * Further properties *)

(** ** Sanitizer *)

Lemma invalid_char_not_space (c : N) :
  invalid_char c = true -> is_space c = false.
Proof.
  unfold invalid_char. rewrite !orb_true_iff, !N.eqb_eq.
  intros H. repeat destruct H as [H|H]; subst; reflexivity.
Qed.

Lemma is_space_re_sub_invalid (x : pystr) :
  forallb is_space (re_sub_invalid x) = forallb is_space x.
Proof.
  unfold re_sub_invalid. induction x as [|c tl IH]; simpl; auto.
  rewrite IH. destruct (invalid_char c) eqn:E; auto.
  rewrite (invalid_char_not_space c E). reflexivity.
Qed.

(** X1.  The sanitized name is empty exactly when the name is empty or
    whitespace only; a name that has one of the nine characters never
    sanitizes to the empty string. *)
Theorem sanitize_filename_empty (x : pystr) :
  (sanitize_filename x = [] <-> forallb is_space x = true)
  /\ (existsb invalid_char x = true -> sanitize_filename x <> []).
Proof.
  unfold sanitize_filename.
  rewrite strip_nil_iff, is_space_re_sub_invalid. split; [tauto|].
  intros H E. apply existsb_exists in H. destruct H as [c [Hc Hi]].
  rewrite forallb_forall in E. specialize (E c Hc).
  rewrite (invalid_char_not_space c Hi) in E. discriminate.
Qed.

Lemma rstrip_fixed (s : pystr) :
  (forall r c, s = r ++ [c] -> is_space c = false) -> rstrip s = s.
Proof.
  induction s as [|a tl IH]; intro H; simpl; auto.
  destruct tl as [|b tl'].
  - simpl. now rewrite (H [] a eq_refl).
  - rewrite IH.
    + reflexivity.
    + intros r c E. apply (H (a :: r) c). simpl. now rewrite E.
Qed.

(** X2.  A name is left as it is exactly when it has none of the nine
    characters and no whitespace at its start or its end. *)
Theorem sanitize_filename_fixed (x : pystr) :
  sanitize_filename x = x
  <-> Forall (fun c => invalid_char c = false) x
      /\ (forall c tl, x = c :: tl -> is_space c = false)
      /\ (forall r c, x = r ++ [c] -> is_space c = false).
Proof.
  split.
  - intro E. split; [|split].
    + rewrite <- E. apply sanitize_filename_clean.
    + intros c tl Ex. pose proof (strip_head (re_sub_invalid x)) as H.
      unfold sanitize_filename in E. rewrite E, Ex in H. exact H.
    + intros r c Ex. apply (rstrip_last (lstrip (re_sub_invalid x)) c r).
      unfold sanitize_filename, strip in E. now rewrite E.
  - intros [Hc [Hh Hl]]. unfold sanitize_filename.
    rewrite (re_sub_invalid_fixed x Hc). unfold strip.
    rewrite lstrip_fixed.
    + now apply rstrip_fixed.
    + destruct x as [|c tl]; auto. now apply (Hh c tl).
Qed.

(** ** Flattener *)

Lemma in_dict_set (d : dict) (k : pystr) (v : value) (kv : pystr * value) :
  In kv (dict_set d k v) -> kv = (k, v) \/ In kv d.
Proof.
  induction d as [|[k' v'] tl IH]; simpl.
  - intros [<-|[]]. now left.
  - destruct (pystr_eqb k' k) eqn:E; simpl.
    + apply pystr_eqb_eq in E. subst. intros [<-|H]; auto.
    + intros [<-|H]; auto. destruct (IH H); auto.
Qed.

(** What [dict(items)] holds comes from [items]. *)
Lemma in_dict_of_items (items : list (pystr * value)) (kv : pystr * value) :
  In kv (dict_of_items items) -> In kv items.
Proof.
  unfold dict_of_items.
  assert (G : forall acc,
            In kv (fold_left (fun d x => dict_set d (fst x) (snd x))
                     items acc) ->
            In kv acc \/ In kv items).
  { induction items as [|[k v] tl IH]; intros acc H; simpl in *; auto.
    destruct (IH _ H) as [H1|H1]; auto.
    apply in_dict_set in H1. destruct H1 as [->|H1]; auto. }
  intro H. destruct (G [] H) as [[]|H1]. exact H1.
Qed.

Lemma normalize_filled (v : value) :
  match v with VDict _ => False | _ => True end ->
  filled (normalize v) = true.
Proof.
  destruct v as [|s|n|d]; simpl; try tauto; intros _; try reflexivity.
  destruct (pystr_eqb (strip s) []) eqn:E; [reflexivity|].
  simpl. apply negb_true_iff.
  destruct (forallb is_space s) eqn:F; auto.
  apply strip_nil_iff in F. rewrite F in E. discriminate.
Qed.

Lemma normalize_of_filled (v : value) : filled v = true -> normalize v = v.
Proof.
  destruct v as [|s|n|d]; simpl; try discriminate; auto.
  intro H. apply negb_true_iff in H.
  destruct (pystr_eqb (strip s) []) eqn:E; auto.
  apply pystr_eqb_eq, strip_nil_iff in E. congruence.
Qed.

Lemma flatten_values_filled (sep : pystr) (v : value) :
  forall (d : dict) (prefix : pystr) (kv : pystr * value),
    v = VDict d ->
    In kv (flatten_nested_dict d prefix sep) -> filled (snd kv) = true.
Proof.
  induction v as [| | |d0 IH] using value_ind; try discriminate.
  intros d prefix kv E Hin. injection E as <-.
  rewrite flatten_nested_dict_eq in Hin. apply in_dict_of_items in Hin.
  apply in_flat_map in Hin. destruct Hin as [[k0 v0] [Hd Hin]].
  rewrite Forall_forall in IH. specialize (IH (k0, v0) Hd).
  unfold flatten_item in Hin. cbn [fst snd] in Hin, IH.
  destruct v0 as [|s0|n0|d'];
    try (destruct Hin as [<-|[]]; apply normalize_filled; exact I).
  apply (IH d' _ kv eq_refl Hin).
Qed.

(** X3.  What [flatten_nested_dict] returns is a flat dictionary, whatever
    it is given: no key comes twice, and no value is [None], a string of
    whitespace only or a mapping. *)
Theorem flatten_nested_dict_flat (d : dict) (prefix sep : pystr) :
  NoDup (keys (flatten_nested_dict d prefix sep))
  /\ Forall (fun v => filled v = true)
       (values (flatten_nested_dict d prefix sep)).
Proof.
  split; [apply flatten_nested_dict_nodup|].
  apply Forall_forall. intros v Hv. apply in_map_iff in Hv.
  destruct Hv as [kv [<- Hin]].
  apply (flatten_values_filled sep (VDict d) d prefix kv eq_refl Hin).
Qed.

Lemma lookup_app (k : pystr) (l1 l2 : dict) :
  lookup k (l1 ++ l2)
  = match lookup k l1 with
    | Some v => Some v
    | None => lookup k l2
    end.
Proof.
  induction l1 as [|[k' v'] tl IH]; simpl; auto.
  destruct (pystr_eqb k' k); auto.
Qed.

(** In [dict(items)] a key has the value of the last pair that has it. *)
Lemma lookup_dict_of_items_rev (items : list (pystr * value)) (k : pystr) :
  lookup k (dict_of_items items) = lookup k (rev items).
Proof.
  induction items as [|[k' v'] tl IH] using rev_ind; auto.
  unfold dict_of_items in *. rewrite fold_left_app, rev_app_distr. simpl.
  destruct (pystr_eqb k' k) eqn:E.
  - apply pystr_eqb_eq in E. subst. apply lookup_dict_set_same.
  - apply pystr_eqb_neq in E. rewrite lookup_dict_set_other by congruence.
    exact IH.
Qed.

Lemma lookup_rev_nodup (l : dict) (k : pystr) :
  NoDup (keys l) -> lookup k (rev l) = lookup k l.
Proof.
  intro H. rewrite <- lookup_dict_of_items_rev.
  now rewrite (dict_of_items_nodup l H).
Qed.

Lemma lookup_rev_flat_map (f g : pystr * value -> list (pystr * value))
  (d : dict) (k : pystr) :
  (forall kv, In kv d -> lookup k (rev (f kv)) = lookup k (rev (g kv))) ->
  lookup k (rev (flat_map f d)) = lookup k (rev (flat_map g d)).
Proof.
  induction d as [|kv tl IH]; intro H; simpl; auto.
  rewrite !rev_app_distr, !lookup_app.
  rewrite IH by (intros; apply H; now right).
  rewrite (H kv) by now left. reflexivity.
Qed.

Lemma map_flat_map (A B C : Type) (h : B -> C) (g : A -> list B)
  (l : list A) :
  map h (flat_map g l) = flat_map (fun a => map h (g a)) l.
Proof.
  induction l as [|a tl IH]; simpl; auto. now rewrite map_app, IH.
Qed.

Lemma flatten_last_wins (sep : pystr) (v : value) :
  forall (d : dict) (prefix k : pystr),
    v = VDict d ->
    lookup k (flatten_nested_dict d prefix sep)
    = lookup k (rev (flatten_spec d prefix sep)).
Proof.
  induction v as [| | |d0 IH] using value_ind; try discriminate.
  intros d prefix k E. injection E as <-.
  rewrite flatten_nested_dict_eq, lookup_dict_of_items_rev.
  unfold flatten_spec. rewrite leaves_eq.
  rewrite map_flat_map.
  apply lookup_rev_flat_map. intros [k0 v0] Hd.
  rewrite Forall_forall in IH. specialize (IH (k0, v0) Hd).
  unfold flatten_item. cbn [fst snd] in *. rewrite map_map.
  destruct v0 as [|s0|n0|d']; try reflexivity.
  - simpl. pose proof (normalize_blank (VStr s0) I) as Hn.
    simpl in Hn. now rewrite Hn.
  - rewrite lookup_rev_nodup by apply flatten_nested_dict_nodup.
    rewrite (IH d' _ k eq_refl). reflexivity.
Qed.

Lemma lookup_some_iff (k : pystr) (d : dict) :
  (exists v, lookup k d = Some v) <-> In k (keys d).
Proof.
  destruct (lookup k d) as [v|] eqn:E.
  - split; [|eauto]. intros _.
    destruct (in_dec (list_eq_dec N.eq_dec) k (keys d)) as [H|H]; auto.
    apply lookup_None_iff in H. congruence.
  - apply lookup_None_iff in E. split; [|tauto]. intros [v H]. discriminate.
Qed.

(** X4.  Whatever the nested mapping, also when two leaves have the same
    compound key: the keys of the result are the compound keys of the
    scalar leaves, and each key has the (normalized) value of the last
    leaf, in traversal order, that has this compound key. *)
Theorem flatten_nested_dict_last_wins (d : dict) (prefix sep k : pystr) :
  lookup k (flatten_nested_dict d prefix sep)
  = lookup k
      (rev (map (fun pv => (compound_key prefix sep (fst pv),
                            if blank (snd pv) then NA else snd pv))
              (leaves d)))
  /\ (In k (keys (flatten_nested_dict d prefix sep))
      <-> In k (map (fun pv => compound_key prefix sep (fst pv)) (leaves d))).
Proof.
  pose proof (flatten_last_wins sep (VDict d) d prefix k eq_refl) as H.
  unfold flatten_spec in H. split; [exact H|].
  rewrite <- lookup_some_iff, H, lookup_some_iff.
  unfold keys. rewrite map_rev, <- in_rev, map_map. reflexivity.
Qed.

Lemma flatten_item_filled (sep k : pystr) (v : value) :
  filled v = true -> flatten_item [] sep (k, v) = [(k, v)].
Proof.
  intro H. pose proof (normalize_of_filled v H) as Hn.
  unfold flatten_item. cbn [fst snd new_key].
  destruct v; try discriminate H; now rewrite Hn.
Qed.

(** X5.  Flattening at the top level is idempotent: the flat mapping it
    returns flattens to itself. *)
Theorem flatten_nested_dict_idempotent (d : dict) (sep : pystr) :
  flatten_nested_dict (flatten_nested_dict d [] sep) [] sep
  = flatten_nested_dict d [] sep.
Proof.
  pose proof (flatten_nested_dict_nodup d [] sep) as Hnd.
  assert (Hfilled : Forall (fun v => filled v = true)
                      (values (flatten_nested_dict d [] sep))).
  { apply Forall_forall. intros v Hv. apply in_map_iff in Hv.
    destruct Hv as [kv [<- Hin]].
    apply (flatten_values_filled sep (VDict d) d [] kv eq_refl Hin). }
  remember (flatten_nested_dict d [] sep) as flat eqn:E. clear E.
  rewrite flatten_nested_dict_eq.
  assert (Hitems : flat_map (flatten_item [] sep) flat = flat).
  { clear Hnd. induction flat as [|[k v] tl IH]; simpl; auto.
    inversion Hfilled as [|? ? Hv Htl]; subst.
    rewrite (flatten_item_filled sep k v Hv), IH by exact Htl.
    reflexivity. }
  rewrite Hitems. now apply dict_of_items_nodup.
Qed.

(** X6.  Under a prefix that is not empty every key of the result starts
    with the prefix followed by the separator. *)
Theorem flatten_nested_dict_prefixed (d : dict) (prefix sep : pystr) :
  prefix <> [] ->
  Forall (fun k => starts_with (prefix ++ sep) k = true)
    (keys (flatten_nested_dict d prefix sep)).
Proof.
  intro H. apply Forall_forall. intros k Hk.
  apply (flatten_keys_prefix sep (VDict d) d prefix k eq_refl H Hk).
Qed.

Lemma flatten_nested_dict_prefixed_witness :
  py "land_title" <> []
  /\ Forall (fun k => starts_with (py "land_title" ++ py "_") k = true)
       (keys (flatten_nested_dict
                [ (py "number_of_documents", VStr (py "3"));
                  (py "additional_comments", VNone) ]
                (py "land_title") (py "_"))).
Proof.
  assert (H : py "land_title" <> []) by discriminate.
  split; [exact H|]. exact (flatten_nested_dict_prefixed _ _ _ H).
Defined.

(** X7.  A nested mapping that is empty leaves no entry: flattening the
    mapping with it is flattening the mapping without it (where [None] in
    that place gives the entry ['N/A']); an empty mapping flattens to an
    empty one. *)
Theorem flatten_nested_dict_empty_mapping (d1 d2 : dict)
  (k prefix sep : pystr) :
  flatten_nested_dict (d1 ++ (k, VDict []) :: d2) prefix sep
  = flatten_nested_dict (d1 ++ d2) prefix sep
  /\ flatten_nested_dict [] prefix sep = []
  /\ flatten_nested_dict [(k, VNone)] prefix sep
     = [(new_key prefix sep k, NA)].
Proof.
  split; [|split; reflexivity].
  rewrite !flatten_nested_dict_eq, !flat_map_app. reflexivity.
Qed.

(** ** Column orderer *)

Lemma filter_at_most_one (p : pystr -> bool) (l : list pystr) (a b : pystr) :
  (List.length (filter p l) <= 1)%nat ->
  In a l -> In b l -> p a = true -> p b = true -> a = b.
Proof.
  induction l as [|x tl IH]; simpl; [tauto|].
  intros Hlen Ha Hb Hpa Hpb.
  assert (Hnone : p x = true -> forall y, In y tl -> p y = true -> False).
  { intros Hx y Hy Hpy. rewrite Hx in Hlen. simpl in Hlen.
    assert (Hin : In y (filter p tl)) by (apply filter_In; auto).
    destruct (filter p tl); [destruct Hin|simpl in Hlen; lia]. }
  destruct Ha as [<-|Ha], Hb as [<-|Hb]; auto.
  - exfalso. eapply Hnone; eauto.
  - exfalso. eapply Hnone; eauto.
  - apply IH; auto. destruct (p x); simpl in Hlen; lia.
Qed.

Lemma one_section_pairwise (cols : list pystr) :
  forallb one_section cols = true ->
  forall col s1 s2,
    In col cols -> In s1 sections -> In s2 sections ->
    str_in s1 col = true -> str_in s2 col = true -> s1 = s2.
Proof.
  intros H col s1 s2 Hc H1 H2 Hs1 Hs2.
  rewrite forallb_forall in H. specialize (H col Hc).
  unfold one_section, sections_in in H. apply Nat.leb_le in H.
  apply (filter_at_most_one (fun s => str_in s col) sections); auto.
Qed.

(** X8.  When [timestamp] is among the keys, the ordered columns are the
    keys and nothing else: every key is a column and every column is a
    key; and [timestamp] is the first column. *)
Theorem column_order_same_keys (df_columns : list pystr) :
  In (py "timestamp") df_columns ->
  (forall col, In col (column_order df_columns) <-> In col df_columns)
  /\ hd_error (column_order df_columns) = Some (py "timestamp").
Proof.
  intro H. split.
  - intro col. split; [now apply column_order_incl|apply column_order_keeps].
  - now rewrite column_order_eq.
Qed.

Lemma column_order_same_keys_witness :
  In (py "timestamp") (keys sample_flat_entry)
  /\ (forall col,
        In col (column_order (keys sample_flat_entry))
        <-> In col (keys sample_flat_entry)).
Proof.
  assert (H : In (py "timestamp") (keys sample_flat_entry))
    by (right; right; left; reflexivity).
  split; [exact H|]. exact (proj1 (column_order_same_keys _ H)).
Defined.

(** X9.  When the keys are pairwise different, [timestamp] is among them
    and no key holds the names of two sections, the ordered columns are a
    rearrangement of the keys: each key is one column. *)
Theorem column_order_rearranges (df_columns : list pystr) :
  NoDup df_columns ->
  In (py "timestamp") df_columns ->
  forallb one_section df_columns = true ->
  Permutation (column_order df_columns) df_columns
  /\ NoDup (column_order df_columns).
Proof.
  intros Hnd Ht Hone.
  assert (Hp : Permutation (column_order df_columns) df_columns).
  { apply column_order_permutation; auto.
    now apply one_section_pairwise. }
  split; [exact Hp|].
  apply (Permutation_NoDup (Permutation_sym Hp) Hnd).
Qed.

Lemma column_order_rearranges_witness :
  NoDup (keys sample_flat_entry)
  /\ In (py "timestamp") (keys sample_flat_entry)
  /\ forallb one_section (keys sample_flat_entry) = true
  /\ Permutation (column_order (keys sample_flat_entry))
       (keys sample_flat_entry).
Proof.
  assert (Hnd : NoDup (keys sample_flat_entry)).
  { vm_compute.
    repeat (constructor;
            [intro H; simpl in H;
             repeat (destruct H as [H|H]; [discriminate H|]); exact H|]).
    constructor. }
  assert (Ht : In (py "timestamp") (keys sample_flat_entry))
    by (right; right; left; reflexivity).
  split; [exact Hnd|]. split; [exact Ht|]. split; [reflexivity|].
  exact (proj1 (column_order_rearranges _ Hnd Ht eq_refl)).
Defined.

Lemma filter_none (p : pystr -> bool) (l : list pystr) :
  (forall x, In x l -> p x = false) -> filter p l = [].
Proof.
  induction l as [|x tl IH]; simpl; auto. intro H.
  rewrite (H x) by now left. apply IH. intros; apply H; now right.
Qed.

Lemma filter_all (p : pystr -> bool) (l : list pystr) :
  (forall x, In x l -> p x = true) -> filter p l = l.
Proof.
  induction l as [|x tl IH]; simpl; auto. intro H.
  rewrite (H x) by now left. f_equal. apply IH. intros; apply H; now right.
Qed.

Lemma sorted_fixed (l : list pystr) : sorted (sorted l) = sorted l.
Proof. apply sorted_of_permutation, sorted_perm. Qed.

(** Among the blocks of the sections, the keys that hold the name of one
    section are the block of that section. *)
Lemma filter_section_blocks (df_columns secs : list pystr) (s : pystr) :
  (forall col s1 s2,
      In col df_columns -> In s1 sections -> In s2 sections ->
      str_in s1 col = true -> str_in s2 col = true -> s1 = s2) ->
  NoDup secs -> incl secs sections -> In s secs ->
  filter (fun col => str_in s col)
    (List.concat
       (map (fun section =>
               sorted (filter (fun col => str_in section col) df_columns))
          secs))
  = sorted (filter (fun col => str_in s col) df_columns).
Proof.
  intros Hone Hnd Hincl Hs.
  assert (Hother : forall s', In s' sections -> s' <> s ->
            filter (fun col => str_in s col)
              (sorted (filter (fun col => str_in s' col) df_columns)) = []).
  { intros s' Hs' Hne. apply filter_none. intros x Hx.
    apply (Permutation_in _ (sorted_perm _)) in Hx.
    apply filter_In in Hx. destruct Hx as [Hx Hsx].
    destruct (str_in s x) eqn:E; auto.
    exfalso. apply Hne. apply (Hone x s' s); auto. }
  assert (Hsame : filter (fun col => str_in s col)
                    (sorted (filter (fun col => str_in s col) df_columns))
                  = sorted (filter (fun col => str_in s col) df_columns)).
  { apply filter_all. intros x Hx.
    apply (Permutation_in _ (sorted_perm _)) in Hx.
    apply filter_In in Hx. tauto. }
  induction secs as [|a tl IH]; [destruct Hs|].
  simpl. rewrite filter_app.
  apply NoDup_cons_iff in Hnd. destruct Hnd as [Ha Htl].
  assert (Hatl : incl tl sections) by (intros x Hx; apply Hincl; now right).
  destruct (pystr_eqb a s) eqn:E.
  - apply pystr_eqb_eq in E. subst a. rewrite Hsame.
    rewrite (filter_none _ (List.concat _)); [now rewrite app_nil_r|].
    intros x Hx. apply in_concat in Hx. destruct Hx as [block [Hb Hx]].
    apply in_map_iff in Hb. destruct Hb as [s' [<- Hs']].
    destruct (str_in s x) eqn:F; auto.
    apply (Permutation_in _ (sorted_perm _)) in Hx.
    apply filter_In in Hx. destruct Hx as [Hx Hsx].
    assert (s' = s) by (apply (Hone x s' s); auto; apply Hincl; now left).
    subst. contradiction.
  - apply pystr_eqb_neq in E. rewrite Hother; auto.
    + simpl. apply IH; auto. destruct Hs as [Hs|Hs]; [congruence|exact Hs].
    + apply Hincl. now left.
Qed.

(** X10.  When no key holds the names of two sections, ordering is
    idempotent: ordering the ordered columns again changes nothing. *)
Theorem column_order_idempotent (df_columns : list pystr) :
  forallb one_section df_columns = true ->
  column_order (column_order df_columns) = column_order df_columns.
Proof.
  intro Hone. pose proof (one_section_pairwise df_columns Hone) as Hpair.
  etransitivity; [apply column_order_eq|].
  etransitivity; [|symmetry; apply column_order_eq].
  set (blocks :=
         List.concat
           (map (fun section =>
                   sorted (filter (fun col => str_in section col) df_columns))
              sections)).
  assert (Hco : column_order df_columns
                = (py "timestamp" :: blocks) ++ filter unplaced df_columns)
    by apply column_order_eq.
  assert (Hnosec : forall s, In s sections ->
                   str_in s (py "timestamp") = false).
  { intros s Hs.
    assert (Hall : forallb (fun s => negb (str_in s (py "timestamp")))
                     sections = true) by (vm_compute; reflexivity).
    rewrite forallb_forall in Hall. specialize (Hall s Hs).
    now apply negb_true_iff in Hall. }
  assert (Hsecs : NoDup sections).
  { vm_compute.
    repeat (constructor;
            [intro H; simpl in H;
             repeat (destruct H as [H|H]; [discriminate H|]); exact H|]).
    constructor. }
  f_equal. f_equal.
  - (* the blocks *)
    unfold blocks. f_equal. apply map_ext_in. intros s Hs.
    rewrite Hco, filter_app. cbn [filter]. rewrite (Hnosec s Hs).
    rewrite (filter_none (fun col => str_in s col) (filter unplaced _)).
    + rewrite app_nil_r. unfold blocks.
      rewrite (filter_section_blocks df_columns sections s Hpair Hsecs
                 (incl_refl _) Hs).
      apply sorted_fixed.
    + intros x Hx. apply filter_In in Hx. destruct Hx as [_ Hx].
      apply unplaced_spec in Hx. destruct Hx as [_ Hx]. now apply Hx.
  - (* the other keys *)
    rewrite Hco, filter_app. cbn [filter].
    change (unplaced (py "timestamp")) with false. cbv iota.
    rewrite (filter_none unplaced blocks).
    + simpl. apply filter_all. intros x Hx. apply filter_In in Hx. tauto.
    + intros x Hx. unfold blocks in Hx. apply in_section_blocks in Hx.
      destruct Hx as [_ [s [Hs Hsx]]].
      destruct (unplaced x) eqn:E; auto.
      apply unplaced_spec in E. destruct E as [_ E].
      rewrite (E s Hs) in Hsx. discriminate.
Qed.

Lemma column_order_idempotent_witness :
  forallb one_section (keys sample_flat_entry) = true
  /\ column_order (column_order (keys sample_flat_entry))
     = column_order (keys sample_flat_entry).
Proof.
  split; [reflexivity|].
  exact (column_order_idempotent (keys sample_flat_entry) eq_refl).
Defined.

(** ** Record store *)

(** X11.  When the record has an [ashram_name] that is not a string
    ([None], a number, a mapping), [save_survey_data] raises [TypeError]:
    the directory has been made and the record has been stamped, but
    nothing is written and nothing is shown; the value is not replaced by
    a default. *)
Theorem save_survey_data_subject_not_string (w : world) (s : state)
  (v : value) :
  makedirs_raises w = None ->
  lookup (py "ashram_name") (record s) = Some v ->
  (forall a, v <> VStr a) ->
  save_survey_data w s = (Raise TypeError, stamped w s).
Proof.
  intros Hd Hl Hv. rewrite save_survey_data_run, Hd. cbv zeta.
  rewrite dict_get_stamped. unfold dict_get. rewrite Hl.
  destruct v as [|a| |]; try reflexivity. now destruct (Hv a).
Qed.

Lemma save_survey_data_subject_not_string_witness :
  makedirs_raises world_ok = None
  /\ lookup (py "ashram_name") (record (called_with [(py "ashram_name", VNone)]))
     = Some VNone
  /\ (forall a, VNone <> VStr a)
  /\ save_survey_data world_ok (called_with [(py "ashram_name", VNone)])
     = (Raise TypeError,
        stamped world_ok (called_with [(py "ashram_name", VNone)])).
Proof.
  assert (H : forall a, VNone <> VStr a) by discriminate.
  split; [reflexivity|]. split; [reflexivity|]. split; [exact H|].
  exact (save_survey_data_subject_not_string world_ok
           (called_with [(py "ashram_name", VNone)]) VNone
           eq_refl eq_refl H).
Defined.

(** X12.  A [False] result does not mean that no file is there: when the
    spreadsheet is written and reading it back fails, the call returns
    [False] and shows the error, and the file stays in the results
    directory. *)
Theorem save_survey_data_false_with_file (w : world) (s : state)
  (subject : pystr) (e : exn) :
  makedirs_raises w = None ->
  dict_get (record s) (py "ashram_name") (VStr (py "Unknown_Ashram"))
  = VStr subject ->
  to_excel_raises w = None ->
  open_raises w = Some e ->
  exists (content : sheet) (s' : state),
    save_survey_data w s = (Ok false, s')
    /\ disk s'
       = ((SURVEY_RESULTS_DIR, artifact_name w (sanitize_filename subject)),
          content) :: disk s
    /\ screen s' = screen s ++ [ErrorSaving e].
Proof.
  intros Hd Hs Hx Ho.
  destruct (save_survey_data_string_subject w s subject Hd Hs)
    as [cells [_ E]].
  cbv zeta in E. rewrite Hx, Ho in E. rewrite E.
  eexists. eexists. split; [reflexivity|]. split; reflexivity.
Qed.

Lemma save_survey_data_false_with_file_witness :
  exists (w : world) (content : sheet) (s' : state),
    makedirs_raises w = None /\ to_excel_raises w = None
    /\ open_raises w = Some OSError
    /\ save_survey_data w (called_with st_mary_record) = (Ok false, s')
    /\ disk s'
       = [((SURVEY_RESULTS_DIR, artifact_name w (sanitize_filename (py "St. Mary"))),
           content)].
Proof.
  exists {| makedirs_raises := None; now_stamp := clock_stamp;
            now_name := clock_name; to_excel_raises := None;
            open_raises := Some OSError |}.
  destruct (save_survey_data_false_with_file
              {| makedirs_raises := None; now_stamp := clock_stamp;
                 now_name := clock_name; to_excel_raises := None;
                 open_raises := Some OSError |}
              (called_with st_mary_record) (py "St. Mary") OSError
              eq_refl eq_refl eq_refl eq_refl)
    as [content [s' [E [Hdisk _]]]].
  exists content, s'. repeat (split; [reflexivity|]).
  split; [exact E|exact Hdisk].
Defined.




Lemma invalid_char_digit (n : N) : invalid_char (digit n) = false.
Proof.
  unfold digit.
  assert (Hm : (n mod 10 < 10)%N)
    by (apply N.mod_upper_bound; discriminate).
  revert Hm. generalize (n mod 10)%N. intros m Hm.
  assert (H : (m = 0 \/ m = 1 \/ m = 2 \/ m = 3 \/ m = 4 \/ m = 5
               \/ m = 6 \/ m = 7 \/ m = 8 \/ m = 9)%N) by lia.
  repeat destruct H as [H|H]; subst; reflexivity.
Qed.

Lemma strftime_file_clean (t : datetime) :
  Forall (fun c => invalid_char c = false) (strftime_file t).
Proof.
  unfold strftime_file, pad4, pad2.
  change (py "_") with [95%N]. cbn [app].
  repeat (constructor; [first [apply invalid_char_digit | reflexivity]|]).
  constructor.
Qed.

Lemma artifact_name_clean (w : world) (safe : pystr) :
  Forall (fun c => invalid_char c = false) safe ->
  Forall (fun c => invalid_char c = false) (artifact_name w safe).
Proof.
  intro H. unfold artifact_name.
  apply Forall_app; split; [exact H|].
  apply Forall_app; split; [repeat constructor|].
  apply Forall_app; split; [apply strftime_file_clean|repeat constructor].
Qed.

(** X14.  The name of the file that is written has none of the nine
    characters, so neither a slash nor a backslash: whatever the ashram
    name, the file is directly in the results directory; and the name
    ends with the extension. *)
Theorem saved_file_name_safe (w : world) (s : state) (subject : pystr) :
  makedirs_raises w = None ->
  dict_get (record s) (py "ashram_name") (VStr (py "Unknown_Ashram"))
  = VStr subject ->
  to_excel_raises w = None ->
  exists (filename stem : pystr) (content : sheet),
    disk (snd (save_survey_data w s))
    = ((SURVEY_RESULTS_DIR, filename), content) :: disk s
    /\ Forall (fun c => invalid_char c = false) filename
    /\ filename = stem ++ py ".xlsx".
Proof.
  intros Hd Hs Hx.
  destruct (save_survey_data_string_subject w s subject Hd Hs)
    as [cells [_ E]].
  cbv zeta in E. rewrite Hx in E.
  exists (artifact_name w (sanitize_filename subject)),
    (sanitize_filename subject ++ py "_" ++ strftime_file (now_name w)).
  eexists. split; [|split].
  - rewrite E. destruct (open_raises w); reflexivity.
  - apply artifact_name_clean, sanitize_filename_clean.
  - unfold artifact_name. now rewrite <- !app_assoc.
Qed.

Lemma saved_file_name_safe_witness :
  makedirs_raises world_ok = None
  /\ dict_get (record (called_with [(py "ashram_name", VStr (py "../a/b"))]))
       (py "ashram_name") (VStr (py "Unknown_Ashram"))
     = VStr (py "../a/b")
  /\ to_excel_raises world_ok = None
  /\ exists (filename : pystr) (content : sheet),
       disk (snd (save_survey_data world_ok
                    (called_with [(py "ashram_name", VStr (py "../a/b"))])))
       = [((SURVEY_RESULTS_DIR, filename), content)]
       /\ Forall (fun c => invalid_char c = false) filename.
Proof.
  repeat (split; [reflexivity|]).
  destruct (saved_file_name_safe world_ok
              (called_with [(py "ashram_name", VStr (py "../a/b"))])
              (py "../a/b") eq_refl eq_refl eq_refl)
    as [filename [stem [content [Hdisk [Hclean _]]]]].
  exists filename, content. split; assumption.
Defined.

(** ** Names of the files *)

Lemma pad2_inj (n m : N) :
  (n <= 99)%N -> (m <= 99)%N -> pad2 n = pad2 m -> n = m.
Proof.
  intros Hn Hm E.
  destruct (reads_as_pad2 n Hn) as [_ [_ <-]].
  destruct (reads_as_pad2 m Hm) as [_ [_ <-]]. now rewrite E.
Qed.

Lemma pad4_inj (n m : N) :
  (n <= 9999)%N -> (m <= 9999)%N -> pad4 n = pad4 m -> n = m.
Proof.
  intros Hn Hm E.
  destruct (reads_as_pad4 n Hn) as [_ [_ <-]].
  destruct (reads_as_pad4 m Hm) as [_ [_ <-]]. now rewrite E.
Qed.

(** Two readings of the clock are written the same way only when they
    are the same second. *)
Lemma strftime_file_inj (t1 t2 : datetime) :
  datetime_valid t1 -> datetime_valid t2 ->
  strftime_file t1 = strftime_file t2 -> t1 = t2.
Proof.
  intros [Hy1 [Hm1 [Hd1 [HH1 [HM1 HS1]]]]] [Hy2 [Hm2 [Hd2 [HH2 [HM2 HS2]]]]] E.
  unfold strftime_file in E. change (py "_") with [95%N] in E.
  assert (Ey : pad4 (year t1) = pad4 (year t2))
    by (unfold pad4, pad2 in *; cbn [app] in E; congruence).
  assert (Em : pad2 (month t1) = pad2 (month t2))
    by (unfold pad4, pad2 in *; cbn [app] in E; congruence).
  assert (Ed : pad2 (day t1) = pad2 (day t2))
    by (unfold pad4, pad2 in *; cbn [app] in E; congruence).
  assert (EH : pad2 (hour t1) = pad2 (hour t2))
    by (unfold pad4, pad2 in *; cbn [app] in E; congruence).
  assert (EM : pad2 (minute t1) = pad2 (minute t2))
    by (unfold pad4, pad2 in *; cbn [app] in E; congruence).
  assert (ES : pad2 (second t1) = pad2 (second t2))
    by (unfold pad4, pad2 in *; cbn [app] in E; congruence).
  apply pad4_inj in Ey; try lia. apply pad2_inj in Em; try lia.
  apply pad2_inj in Ed; try lia. apply pad2_inj in EH; try lia.
  apply pad2_inj in EM; try lia. apply pad2_inj in ES; try lia.
  destruct t1, t2. simpl in *. congruence.
Qed.

Lemma app_eq_same_tail_length (l1 l2 r1 r2 : pystr) :
  l1 ++ r1 = l2 ++ r2 -> List.length r1 = List.length r2 ->
  l1 = l2 /\ r1 = r2.
Proof.
  revert l2; induction l1 as [|x l1 IH]; intros [|y l2] E Hlen; simpl in E.
  - auto.
  - exfalso. rewrite E in Hlen. simpl in Hlen. rewrite length_app in Hlen.
    lia.
  - exfalso. rewrite <- E in Hlen. simpl in Hlen. rewrite length_app in Hlen.
    lia.
  - injection E as -> E. destruct (IH l2 E Hlen) as [-> ->]. auto.
Qed.

Lemma artifact_name_inj (w1 w2 : world) (safe1 safe2 : pystr) :
  datetime_valid (now_name w1) -> datetime_valid (now_name w2) ->
  (artifact_name w1 safe1 = artifact_name w2 safe2
   <-> safe1 = safe2 /\ now_name w1 = now_name w2).
Proof.
  intros V1 V2. split.
  - unfold artifact_name. intro E.
    apply app_eq_same_tail_length in E; [|reflexivity].
    destruct E as [-> E]. split; [reflexivity|].
    apply strftime_file_inj; auto.
    apply app_inv_head in E.
    apply (app_eq_same_tail_length _ _ (py ".xlsx") (py ".xlsx")) in E;
      [tauto|reflexivity].
  - intros [-> E]. unfold artifact_name. now rewrite E.
Qed.

(** X15.  Two calls write to the same path exactly when the sanitized
    ashram names are the same and the clock shows the same second at
    both: the time stamp keeps the files of one ashram apart only from
    one second to the next, and names that differ only in replaced or
    trimmed characters share their files. *)
Theorem saved_path_unique (w1 w2 : world) (s1 s2 : state)
  (subject1 subject2 : pystr) :
  makedirs_raises w1 = None -> makedirs_raises w2 = None ->
  to_excel_raises w1 = None -> to_excel_raises w2 = None ->
  datetime_valid (now_name w1) -> datetime_valid (now_name w2) ->
  dict_get (record s1) (py "ashram_name") (VStr (py "Unknown_Ashram"))
  = VStr subject1 ->
  dict_get (record s2) (py "ashram_name") (VStr (py "Unknown_Ashram"))
  = VStr subject2 ->
  exists (p1 p2 : path) (c1 c2 : sheet),
    disk (snd (save_survey_data w1 s1)) = (p1, c1) :: disk s1
    /\ disk (snd (save_survey_data w2 s2)) = (p2, c2) :: disk s2
    /\ (p1 = p2
        <-> sanitize_filename subject1 = sanitize_filename subject2
            /\ now_name w1 = now_name w2).
Proof.
  intros Hd1 Hd2 Hx1 Hx2 V1 V2 Hs1 Hs2.
  destruct (save_survey_data_string_subject w1 s1 subject1 Hd1 Hs1)
    as [cells1 [_ E1]].
  destruct (save_survey_data_string_subject w2 s2 subject2 Hd2 Hs2)
    as [cells2 [_ E2]].
  cbv zeta in E1, E2. rewrite Hx1 in E1. rewrite Hx2 in E2.
  exists (SURVEY_RESULTS_DIR, artifact_name w1 (sanitize_filename subject1)),
    (SURVEY_RESULTS_DIR, artifact_name w2 (sanitize_filename subject2)).
  eexists. eexists. split; [|split].
  - rewrite E1. destruct (open_raises w1); reflexivity.
  - rewrite E2. destruct (open_raises w2); reflexivity.
  - rewrite <- (artifact_name_inj w1 w2 _ _ V1 V2). split.
    + intro E. now injection E.
    + intros ->. reflexivity.
Qed.

Lemma world_ok_valid : datetime_valid (now_name world_ok).
Proof. unfold datetime_valid; simpl; lia. Qed.

Lemma saved_path_unique_witness :
  exists (p : path) (c1 c2 : sheet),
    disk (snd (save_survey_data world_ok
                 (called_with [(py "ashram_name", VStr (py "a/b"))])))
    = [(p, c1)]
    /\ disk (snd (save_survey_data world_ok
                    (called_with [(py "ashram_name", VStr (py "a_b "))])))
       = [(p, c2)].
Proof.
  destruct (saved_path_unique world_ok world_ok
              (called_with [(py "ashram_name", VStr (py "a/b"))])
              (called_with [(py "ashram_name", VStr (py "a_b "))])
              (py "a/b") (py "a_b ")
              eq_refl eq_refl eq_refl eq_refl world_ok_valid world_ok_valid
              eq_refl eq_refl)
    as [p1 [p2 [c1 [c2 [H1 [H2 Hiff]]]]]].
  assert (E : p1 = p2) by (apply Hiff; split; reflexivity).
  subst p2. exists p1, c1, c2. split; assumption.
Defined.

(** ** Survey controller *)

Lemma main_slots (w : world) (u : ui) (s s' : state) (r : result unit) :
  survey_started (session s) = true ->
  main w u s = (r, s') ->
  session s' = session (answers_stored u s)
  /\ lookup (category_name (radio u)) (slots_of s')
     = Some (VDict (categories (radio u) u))
  /\ forall c, c <> radio u ->
       lookup (category_name c) (slots_of s')
       = lookup (category_name c) (slots_of s).
Proof.
  intros Hs Hrun.
  assert (Hsess : session s' = session (answers_stored u s)).
  { rewrite <- (main_session w u s Hs). now rewrite Hrun. }
  rewrite (slots_of_session _ _ Hsess), slots_of_answers_stored.
  split; [exact Hsess|]. split; [apply lookup_dict_set_same|].
  intros c Hc. apply lookup_dict_set_other.
  intro E. apply Hc. now apply category_name_inj.
Qed.

(** X16.  A run of the page on a started session stores the answers of
    the chosen section in its slot and leaves the two other slots as they
    were, however the run ends (also when submitting fails or raises):
    switching the section loses no answers of the others. *)
Theorem main_stores_chosen_slot (w : world) (u : ui) (s s' : state)
  (r : result unit) :
  survey_started (session s) = true ->
  main w u s = (r, s') ->
  survey_started (session s') = true
  /\ lookup (category_name (radio u)) (slots_of s')
     = Some (VDict (categories (radio u) u))
  /\ forall c, c <> radio u ->
       lookup (category_name c) (slots_of s')
       = lookup (category_name c) (slots_of s).
Proof.
  intros Hs Hrun.
  destruct (main_slots w u s s' r Hs Hrun) as [Hsess [H1 H2]].
  split; [now rewrite Hsess|]. split; assumption.
Qed.

Lemma main_stores_chosen_slot_witness :
  survey_started (session started_state) = true
  /\ lookup (category_name Property)
       (slots_of (snd (main world_no_directory (ui_submit Property (py "St. Mary"))
                         started_state)))
     = Some (VDict (categories Property (ui_submit Property (py "St. Mary")))).
Proof.
  split; [reflexivity|].
  exact (proj1 (proj2 (main_stores_chosen_slot world_no_directory
                         (ui_submit Property (py "St. Mary")) started_state
                         _ _ eq_refl (surjective_pairing _)))).
Defined.

(** X17.  Runs that leave no trace.  Before the survey is started a run
    returns without touching the slots, the disk or the screen, whatever
    the other widgets say, and the survey is started exactly when the
    start button is pressed.  On a started session a run without the
    submit button pressed writes no file and shows no message. *)
Theorem main_without_submission :
  (forall (w : world) (u : ui) (s : state),
      survey_started (session s) = false ->
      exists s',
        main w u s = (Ok tt, s')
        /\ survey_started (session s') = button u (py "Start Survey")
        /\ survey_data (session s') = survey_data (session s)
        /\ record s' = record s /\ disk s' = disk s
        /\ screen s' = screen s)
  /\ (forall (w : world) (u : ui) (s : state),
        survey_started (session s) = true ->
        button u (py "Submit Entire Survey") = false ->
        exists s',
          main w u s = (Ok tt, s')
          /\ record s' = record s /\ disk s' = disk s
          /\ screen s' = screen s).
Proof.
  split.
  - intros w u s H. rewrite (main_not_started w u s H).
    eexists. split; [reflexivity|].
    destruct (button u (py "Start Survey")); cbn; auto 10.
  - intros w u s H Hb. rewrite (main_run w u s H), Hb.
    eexists. split; [reflexivity|]. cbn. auto.
Qed.

Lemma initial_slots_ok : slots_ok initial_survey_data.
Proof.
  split; [reflexivity|]. intro c. exists VNone.
  split; [destruct c; reflexivity|now left].
Qed.

Lemma dict_set_slots_ok (d : dict) (u : ui) :
  slots_ok d ->
  slots_ok (dict_set d (category_name (radio u))
              (VDict (categories (radio u) u))).
Proof.
  intros [Hk Hslots]. split.
  - rewrite keys_dict_set_present; auto.
    rewrite Hk. destruct (radio u); simpl; auto.
  - intro c. destruct (pystr_eqb (category_name c) (category_name (radio u)))
      eqn:E.
    + apply pystr_eqb_eq, category_name_inj in E. subst c.
      exists (VDict (categories (radio u) u)).
      split; [apply lookup_dict_set_same|]. right. now exists u.
    + apply pystr_eqb_neq in E. rewrite lookup_dict_set_other by exact E.
      apply Hslots.
Qed.

Lemma reachable_slots_ok (s : state) :
  reachable s ->
  match survey_data (session s) with
  | Some d => slots_ok d
  | None => True
  end.
Proof.
  induction 1 as [|s s' w u r Hreach IH Hrun].
  - exact I.
  - destruct (survey_started (session s)) eqn:E.
    + assert (Hs : session s' = session (answers_stored u s)).
      { rewrite <- (main_session w u s E). now rewrite Hrun. }
      rewrite Hs. cbn [answers_stored session survey_data].
      apply dict_set_slots_ok. unfold slots_of.
      destruct (survey_data (session s)); [exact IH|apply initial_slots_ok].
    + rewrite (main_not_started w u s E) in Hrun.
      injection Hrun as _ <-.
      destruct (button u (py "Start Survey")); auto.
Qed.

(** X18.  In every state a session can reach, the slots, once there, have
    the three section names as their keys, in the order Property, Trust
    and Society, Institutions, and each slot is [None] or the mapping the
    function of its section returned in some run.  A slot that is filled
    is never emptied again by a run. *)
Theorem session_slots_invariant (s : state) :
  reachable s ->
  (forall d, survey_data (session s) = Some d -> slots_ok d)
  /\ (forall (w : world) (u : ui) (r : result unit) (s' : state)
             (c : category) (x : dict),
        main w u s = (r, s') ->
        lookup (category_name c) (slots_of s) = Some (VDict x) ->
        exists y, lookup (category_name c) (slots_of s') = Some (VDict y)).
Proof.
  intro Hreach. split.
  - intros d Hd. pose proof (reachable_slots_ok s Hreach) as H.
    now rewrite Hd in H.
  - intros w u r s' c x Hrun Hc.
    destruct (survey_started (session s)) eqn:E.
    + destruct (main_slots w u s s' r E Hrun) as [_ [H1 H2]].
      destruct (pystr_eqb (category_name c) (category_name (radio u)))
        eqn:Ec.
      * apply pystr_eqb_eq, category_name_inj in Ec. subst c. eauto.
      * apply pystr_eqb_neq in Ec. exists x. rewrite H2; auto.
        intro F. apply Ec. now rewrite F.
    + rewrite (main_not_started w u s E) in Hrun.
      injection Hrun as _ <-. exists x.
      destruct (button u (py "Start Survey")); exact Hc.
Qed.

Lemma session_slots_invariant_witness :
  reachable (snd (main world_ok (ui_submit Property []) started_state))
  /\ forall d,
       survey_data
         (session (snd (main world_ok (ui_submit Property []) started_state)))
       = Some d ->
       slots_ok d.
Proof.
  assert (H : reachable
                (snd (main world_ok (ui_submit Property []) started_state))).
  { apply (reach_run started_state _ world_ok (ui_submit Property [])
             (fst (main world_ok (ui_submit Property []) started_state))).
    - apply (reach_run initial_state started_state world_ok
               (ui_submit Property []) (Ok tt) reach_init).
      reflexivity.
    - apply surjective_pairing. }
  split; [exact H|]. exact (proj1 (session_slots_invariant _ H)).
Defined.



(** X20.  How a submission ends.  On a session that can be reached, a run
    with the submit button pressed raises [AttributeError] when the
    Property slot is empty; when it is filled, the run raises what
    directory creation raises, if it does, and returns otherwise: no
    failure of writing or of reading back leaves the run. *)
Theorem main_submission_outcome (w : world) (u : ui) (s : state) :
  reachable s ->
  survey_started (session s) = true ->
  button u (py "Submit Entire Survey") = true ->
  fst (main w u s)
  = match property_slot (answers_stored u s) with
    | Some (VDict _) =>
        match makedirs_raises w with
        | Some e => Raise e
        | None => Ok tt
        end
    | _ => Raise AttributeError
    end.
Proof.
  intros Hreach Hs Hb.
  destruct (property_slot (answers_stored u s)) as [[| | |p]|] eqn:Hp.
  - rewrite (main_run w u s Hs), Hb, submit_run. cbv zeta.
    unfold property_slot in Hp. cbn [answers_stored session survey_data] in *.
    unfold getitem at 1. rewrite Hp. reflexivity.
  - pose proof (answers_stored_inv u s (reachable_inv s Hreach)) as Hinv.
    unfold session_inv, property_slot in *.
    cbn [answers_stored session survey_data] in *.
    destruct Hinv as [_ [H|[u' H]]]; congruence.
  - pose proof (answers_stored_inv u s (reachable_inv s Hreach)) as Hinv.
    unfold session_inv, property_slot in *.
    cbn [answers_stored session survey_data] in *.
    destruct Hinv as [_ [H|[u' H]]]; congruence.
  - destruct (submit_reaches_store w u s Hreach Hs Hb
                (ex_intro _ p Hp)) as [u' [t [i [_ [_ [_ E]]]]]].
    cbv zeta in E. rewrite E. cbn [fst].
    rewrite save_survey_data_run.
    destruct (makedirs_raises w); [reflexivity|]. cbv zeta.
    rewrite dict_get_stamped. cbn [with_record record].
    change (dict_get (final_survey_data _ _ _ _) (py "ashram_name") _)
      with (VStr (text_input u' (py "ashram_name"))).
    cbn [call_sanitize_filename]. rewrite save_guarded_run. cbv zeta.
    destruct (select _ _); [|reflexivity].
    destruct (to_excel_raises w); [reflexivity|].
    destruct (open_raises w); reflexivity.
  - unfold property_slot in Hp. cbn [answers_stored session survey_data] in Hp.
    pose proof (answers_stored_inv u s (reachable_inv s Hreach)) as Hinv.
    unfold session_inv in Hinv. cbn [answers_stored session survey_data] in *.
    destruct Hinv as [Hk _].
    apply lookup_None_iff in Hp. exfalso. apply Hp. rewrite Hk.
    left. reflexivity.
Qed.

Lemma main_submission_outcome_witness :
  reachable started_state
  /\ survey_started (session started_state) = true
  /\ button (ui_submit Property (py "St. Mary")) (py "Submit Entire Survey")
     = true
  /\ fst (main world_write_fails (ui_submit Property (py "St. Mary"))
            started_state)
     = Ok tt.
Proof.
  assert (H : reachable started_state).
  { apply (reach_run initial_state started_state world_ok
             (ui_submit Property []) (Ok tt) reach_init).
    reflexivity. }
  split; [exact H|]. split; [reflexivity|]. split; [reflexivity|].
  rewrite (main_submission_outcome world_write_fails
             (ui_submit Property (py "St. Mary")) started_state
             H eq_refl eq_refl).
  reflexivity.
Defined.

(** ** Start of the script *)

Lemma install_loop_spec (sw : setup_world) (deps : list pystr) :
  (fst (install_loop sw deps) = true
   <-> forall dep, In dep deps -> pip_raises sw dep = None)
  /\ (fst (install_loop sw deps) = true ->
      pip_calls (snd (install_loop sw deps)) = deps
      /\ shown (snd (install_loop sw deps)) = [])
  /\ (fst (install_loop sw deps) = false ->
      exists (done : list pystr) (dep : pystr) (e : exn)
             (rest : list pystr),
        deps = done ++ dep :: rest
        /\ (forall d, In d done -> pip_raises sw d = None)
        /\ pip_raises sw dep = Some e
        /\ pip_calls (snd (install_loop sw deps)) = done ++ [dep]
        /\ shown (snd (install_loop sw deps)) = [ErrorInstalling dep e]).
Proof.
  induction deps as [|dep tl [IH1 [IH2 IH3]]]; simpl.
  - split; [split; [contradiction|reflexivity]|].
    split; [auto|discriminate].
  - destruct (pip_raises sw dep) as [e|] eqn:E.
    + simpl. split; [split; [discriminate|]|split; [discriminate|]].
      * intro H. rewrite (H dep) in E by now left. discriminate.
      * intros _. exists [], dep, e, tl. simpl.
        repeat split; auto. contradiction.
    + destruct (install_loop sw tl) as [installed log]. simpl in *.
      split; [|split].
      * rewrite IH1. split.
        -- intros H d [<-|Hd]; auto.
        -- intros H d Hd. apply H. now right.
      * intro H. destruct (IH2 H) as [-> ->]. auto.
      * intro H. destruct (IH3 H) as [done [d [e [rest [-> [H1 [H2 [H3 H4]]]]]]]].
        exists (dep :: done), d, e, rest. simpl. rewrite H3.
        repeat split; auto. intros x [<-|Hx]; auto.
Qed.

(** X21.  [install_dependencies] returns [True] exactly when pip
    succeeds for every dependency; then both have been installed, in
    order, and nothing is shown.  Otherwise it stops at the first
    dependency for which pip fails: one error naming it is shown, and
    pip is not called for the dependencies after it. *)
Theorem install_dependencies_spec (sw : setup_world) :
  (fst (install_dependencies sw) = true
   <-> forall dep, In dep dependencies -> pip_raises sw dep = None)
  /\ (fst (install_dependencies sw) = true ->
      pip_calls (snd (install_dependencies sw)) = dependencies
      /\ shown (snd (install_dependencies sw)) = [])
  /\ (fst (install_dependencies sw) = false ->
      exists (done : list pystr) (dep : pystr) (e : exn)
             (rest : list pystr),
        dependencies = done ++ dep :: rest
        /\ (forall d, In d done -> pip_raises sw d = None)
        /\ pip_raises sw dep = Some e
        /\ pip_calls (snd (install_dependencies sw)) = done ++ [dep]
        /\ shown (snd (install_dependencies sw)) = [ErrorInstalling dep e]).
Proof. apply install_loop_spec. Qed.

(** X22.  The script goes past its first lines exactly when the two
    imports succeed, or fail with an [ImportError] and pip then succeeds
    for every dependency.  When the imports succeed pip is not called and
    nothing is shown.  When the script is stopped, the warning, the error
    of the failed installation and the final error have been shown, in
    this order.  An import that raises anything but an [ImportError] is
    not caught. *)
Theorem script_start_spec (sw : setup_world) :
  (fst (script_start sw) = Proceeds
   <-> imports sw = Imported
       \/ (imports sw = ImportFails
           /\ forall dep, In dep dependencies -> pip_raises sw dep = None))
  /\ (imports sw = Imported ->
      script_start sw = (Proceeds, {| pip_calls := []; shown := [] |}))
  /\ (fst (script_start sw) = Stopped ->
      imports sw = ImportFails
      /\ exists dep e,
           In dep dependencies /\ pip_raises sw dep = Some e
           /\ shown (snd (script_start sw))
              = [WarningMissing; ErrorInstalling dep e; ErrorCouldNotInstall])
  /\ (forall e, imports sw = ImportRaises e ->
                script_start sw
                = (Crashed e, {| pip_calls := []; shown := [] |})).
Proof.
  destruct (install_loop_spec sw dependencies) as [H1 [H2 H3]].
  fold (install_dependencies sw) in H1, H2, H3.
  unfold script_start, check_dependencies.
  destruct (imports sw) as [| |e0] eqn:Ei.
  - simpl. split; [split; auto|]. split; [auto|].
    split; [discriminate|]. intros e F. discriminate F.
  - destruct (install_dependencies sw) as [[|] log] eqn:Einst;
      cbn [fst snd shown pip_calls app] in *.
    + split; [split; [intros _; right; split; auto; now apply H1|auto]|].
      split; [discriminate|]. split; [discriminate|]. intros e F.
      discriminate F.
    + split.
      { split; [discriminate|]. intros [F|[_ F]]; [discriminate F|].
        apply H1 in F. discriminate F. }
      split; [discriminate|]. split; [|intros e F; discriminate F].
      intros _. split; [reflexivity|].
      destruct (H3 eq_refl) as [done [dep [e [rest [Hdeps [_ [Hp [_ Hs]]]]]]]].
      exists dep, e. split; [|split; [exact Hp|now rewrite Hs]].
      rewrite Hdeps. apply in_or_app. right. now left.
  - simpl. split.
    { split; [discriminate|]. intros [F|[F _]]; discriminate F. }
    split; [discriminate|]. split; [discriminate|].
    intros e F. now injection F as ->.
Qed.

(** ** Saving again *)

Lemma path_eqb_eq (p q : path) : path_eqb p q = true <-> p = q.
Proof.
  destruct p as [d1 n1], q as [d2 n2]. unfold path_eqb. cbn [fst snd].
  rewrite andb_true_iff, !pystr_eqb_eq. split.
  - now intros [-> ->].
  - intro E. now injection E.
Qed.

(** X23.  Saving one record twice, with nothing failing, is not
    idempotent: the record carries the stamp of the second call, and the
    disk has the two files when the clock has moved on to another second
    between the calls; within one second the second call writes to the
    path of the first, and what is read there is the second sheet. *)
Theorem save_survey_data_twice (w1 w2 : world) (s : state)
  (subject : pystr) :
  makedirs_raises w1 = None -> to_excel_raises w1 = None ->
  open_raises w1 = None ->
  makedirs_raises w2 = None -> to_excel_raises w2 = None ->
  open_raises w2 = None ->
  datetime_valid (now_name w1) -> datetime_valid (now_name w2) ->
  dict_get (record s) (py "ashram_name") (VStr (py "Unknown_Ashram"))
  = VStr subject ->
  let s1 := snd (save_survey_data w1 s) in
  let s2 := snd (save_survey_data w2 s1) in
  fst (save_survey_data w1 s) = Ok true
  /\ fst (save_survey_data w2 s1) = Ok true
  /\ lookup (py "timestamp") (record s2)
     = Some (VStr (strftime_record (now_stamp w2)))
  /\ exists (p1 p2 : path) (c1 c2 : sheet),
       disk s2 = (p2, c2) :: (p1, c1) :: disk s
       /\ (p1 = p2 <-> now_name w1 = now_name w2)
       /\ find_file p2 (disk s2) = Some c2
       /\ (now_name w1 <> now_name w2 -> find_file p1 (disk s2) = Some c1).
Proof.
  intros Hd1 Hx1 Ho1 Hd2 Hx2 Ho2 V1 V2 Hs s1 s2.
  destruct (save_survey_data_string_subject w1 s subject Hd1 Hs)
    as [cells1 [_ E1]].
  cbv zeta in E1. rewrite Hx1, Ho1 in E1.
  assert (Hs1 : dict_get (record s1) (py "ashram_name")
                  (VStr (py "Unknown_Ashram")) = VStr subject).
  { unfold s1. rewrite save_survey_data_record, Hd1.
    now rewrite dict_get_stamped. }
  destruct (save_survey_data_string_subject w2 s1 subject Hd2 Hs1)
    as [cells2 [_ E2]].
  cbv zeta in E2. rewrite Hx2, Ho2 in E2.
  assert (Hdisk1 : disk s1
                   = ((SURVEY_RESULTS_DIR,
                       artifact_name w1 (sanitize_filename subject)),
                      {| header :=
                           map excel_text
                             (column_order
                                (keys (flatten_nested_dict
                                         (record (stamped w1 s)) []
                                         sep_default)));
                         data_rows := [map excel_cell cells1] |})
                     :: disk s).
  { unfold s1. now rewrite E1. }
  split; [now rewrite E1|]. split; [now rewrite E2|].
  split.
  { unfold s2. rewrite save_survey_data_record, Hd2.
    apply lookup_dict_set_same. }
  eexists. eexists. eexists. eexists.
  split; [unfold s2; rewrite E2; cbn [snd with_screen with_file disk stamped];
          rewrite Hdisk1; reflexivity|].
  assert (Hiff : (SURVEY_RESULTS_DIR,
                  artifact_name w1 (sanitize_filename subject))
                 = (SURVEY_RESULTS_DIR,
                    artifact_name w2 (sanitize_filename subject))
                 <-> now_name w1 = now_name w2).
  { split.
    - intro E. injection E as E.
      now apply (artifact_name_inj w1 w2 _ _ V1 V2) in E.
    - intro E. f_equal. now apply (artifact_name_inj w1 w2 _ _ V1 V2). }
  split; [exact Hiff|].
  unfold s2. rewrite E2.
  cbn [snd with_screen with_file disk stamped find_file].
  rewrite path_eqb_refl. split; [reflexivity|].
  intro Hne. rewrite Hdisk1. cbn [find_file].
  destruct (path_eqb _ _) eqn:Ep.
  - apply path_eqb_eq in Ep. symmetry in Ep. apply Hiff in Ep. contradiction.
  - now rewrite path_eqb_refl.
Qed.

Lemma save_survey_data_twice_witness :
  exists (p1 p2 : path) (c1 c2 : sheet),
    disk (snd (save_survey_data world_ok
                 (snd (save_survey_data world_ok
                         (called_with st_mary_record)))))
    = [(p2, c2); (p1, c1)]
    /\ p1 = p2.
Proof.
  destruct (save_survey_data_twice world_ok world_ok
              (called_with st_mary_record) (py "St. Mary")
              eq_refl eq_refl eq_refl eq_refl eq_refl eq_refl
              world_ok_valid world_ok_valid eq_refl)
    as [_ [_ [_ [p1 [p2 [c1 [c2 [Hdisk [Hiff _]]]]]]]]].
  exists p1, p2, c1, c2. split; [exact Hdisk|]. now apply Hiff.
Defined.

(** ** The file of a submission made on the page *)

(** X24.  The name of the file of a submission made on the page.  The
    record the submit action passes always has the key [ashram_name],
    holding the name typed in the Property section, so the default
    [Unknown_Ashram] of [save_survey_data] is not what names the file:
    when nothing fails the file is named by the sanitized typed name, an
    underscore, the second clock reading and the extension.  With a name
    that is empty or whitespace only the file name is the underscore, the
    clock reading and the extension, and does not start with
    [Unknown_Ashram_]. *)
Theorem page_submission_file_name (w : world) (u : ui) (s : state) :
  page_reachable s ->
  radio_drawn s u ->
  survey_started (session s) = true ->
  button u (py "Submit Entire Survey") = true ->
  makedirs_raises w = None ->
  to_excel_raises w = None ->
  open_raises w = None ->
  exists (p : dict) (name : pystr) (content : sheet) (s' : state),
    let filename :=
      sanitize_filename name ++ py "_" ++ strftime_file (now_name w)
      ++ py ".xlsx" in
    main w u s = (Ok tt, s')
    /\ property_slot s' = Some (VDict p)
    /\ lookup (py "ashram_name") p = Some (VStr name)
    /\ disk s' = ((SURVEY_RESULTS_DIR, filename), content) :: disk s
    /\ (forallb is_space name = true ->
        filename = py "_" ++ strftime_file (now_name w) ++ py ".xlsx"
        /\ starts_with (py "Unknown_Ashram_") filename = false).
Proof.
  intros Hpage Hr Hs Hb Hd Hx Ho.
  destruct (answers_stored_page_inv u s (page_reachable_inv s Hpage) Hr Hs)
    as [u0 Hu].
  destruct (submission_saved w u s (page_reachable_reachable s Hpage)
              Hs Hb (ex_intro _ _ Hu) Hd Hx Ho)
    as [u' [labels [cells [s' [E [Hsess [Hslot [Hdisk _]]]]]]]].
  cbv zeta in Hdisk.
  exists (property_survey u'), (text_input u' (py "ashram_name")).
  eexists. exists s'. cbv zeta.
  split; [exact E|].
  split; [unfold property_slot in *; now rewrite Hsess|].
  split; [reflexivity|].
  split; [exact Hdisk|].
  intro Hblank.
  assert (Hempty : sanitize_filename (text_input u' (py "ashram_name")) = []).
  { unfold sanitize_filename. apply strip_nil_iff.
    now rewrite is_space_re_sub_invalid. }
  rewrite Hempty. split; reflexivity.
Qed.

Lemma page_submission_file_name_witness :
  exists (p : dict) (name : pystr) (content : sheet) (s' : state),
    main world_ok (ui_submit Property []) visited_state = (Ok tt, s')
    /\ lookup (py "ashram_name") p = Some (VStr name)
    /\ disk s'
       = [((SURVEY_RESULTS_DIR,
            sanitize_filename name ++ py "_"
            ++ strftime_file (now_name world_ok) ++ py ".xlsx"),
           content)].
Proof.
  assert (Hr : radio_drawn visited_state (ui_submit Property []))
    by (intros _ _; reflexivity).
  destruct (page_submission_file_name world_ok (ui_submit Property [])
              visited_state visited_state_page_reachable Hr
              eq_refl eq_refl eq_refl eq_refl eq_refl)
    as [p [name [content [s' [E [_ [Hname [Hdisk _]]]]]]]].
  exists p, name, content, s'.
  split; [exact E|]. split; [exact Hname|exact Hdisk].
Defined.
